(** * BundleContext: the AIDL wrapper around the LVM effect bundle

    A shallow embedding of
    [media/libeffects/lvm/wrapper/Aidl/BundleContext.cpp]:
    the fixed-point gain conversion ([LVC_ToDB_s32Tos16], [VolToDb]), the
    level limiter ([limitLevel]), the enable / disable / process state
    machine and the equalizer parameter store, followed by the properties
    established about them. *)

From Stdlib Require Import ZArith Bool List Lia.
From Stdlib Require Import Floats.SpecFloat.
From stdpp Require Import base list.

Local Open Scope Z_scope.

(** ** Fixed-width integer conversions

    C++ integers are modelled on [Z].  A conversion to a fixed-width type
    keeps the value modulo two to the width; arithmetic on [int] itself is
    carried out on [Z] (signed overflow is undefined in C++ and none of the
    modelled paths relies on it). *)

Definition to_uint16 (z : Z) : Z := z mod 2 ^ 16.
Definition to_uint32 (z : Z) : Z := z mod 2 ^ 32.
Definition to_uint64 (z : Z) : Z := z mod 2 ^ 64.
Definition to_int16 (z : Z) : Z := (z + 2 ^ 15) mod 2 ^ 16 - 2 ^ 15.
Definition to_int32 (z : Z) : Z := (z + 2 ^ 31) mod 2 ^ 32 - 2 ^ 31.

(** ** GainMath *)

Module GainMath.

(** The leading-bit scan of [LVC_ToDB_s32Tos16]:
    [for (Shift = 0; Shift < 32; Shift++) { if (Remainder & 0x80000000U)
    break; Remainder = Remainder << 1; }].  One unit of [fuel] is one
    evaluation of the loop condition followed by the body; the first
    component of the result is [Shift], the number of completed
    iterations. *)
Fixpoint leading_bit_scan (fuel : nat) (Shift Remainder : Z) : Z * Z :=
  match fuel with
  | O => (Shift, Remainder)
  | S fuel' =>
      if Shift <? 32 then
        if negb (Z.land Remainder 0x80000000 =? 0) then (Shift, Remainder)
        else leading_bit_scan fuel' (Shift + 1) (to_uint32 (Z.shiftl Remainder 1))
      else (Shift, Remainder)
  end.

(** The straight-line part of [LVC_ToDB_s32Tos16] after the scan. *)
Definition db_of_scan (Shift Remainder : Z) : Z :=
  let db_fix := to_int16 (-96 * Shift) in
  let SmallRemainder := to_int16 (Z.shiftr (Z.land Remainder 0x7fffffff) 24) in
  let db_fix := to_int16 (db_fix + SmallRemainder) in
  let SmallRemainder := to_int16 (SmallRemainder * SmallRemainder) in
  let db_fix := to_int16 (db_fix - to_int16 (Z.shiftr (to_uint16 SmallRemainder) 9)) in
  let db_fix := to_int16 (db_fix - 5) in
  db_fix.

Definition LVC_ToDB_s32Tos16 (Lin_fix : Z) : Z :=
  let Remainder := to_uint32 Lin_fix in
  let '(Shift, Remainder) := leading_bit_scan 32 0 Remainder in
  db_of_scan Shift Remainder.

(** [vol] is a [uint32_t]; [vol << 7] wraps at 32 bits and is passed as an
    [LVM_INT32]. *)
Definition VolToDb (vol : Z) : Z :=
  let dB := to_int16 (LVC_ToDB_s32Tos16 (to_int32 (to_uint32 (Z.shiftl (to_uint32 vol) 7)))) in
  let dB := to_int16 (Z.shiftr (dB + 8) 4) in
  let dB := if dB <? -96 then -96 else dB in
  dB.

(** Quantities used to analyse the conversion: the seven bits that follow
    the leading bit, and the interpolation term [r - r*r/512] on them. *)
Definition small_remainder (Remainder : Z) : Z :=
  Z.shiftr (Z.land Remainder 0x7fffffff) 24.

Definition interp (r : Z) : Z := r - (r * r) / 512.

Definition seven_bit : list Z := List.map Z.of_nat (List.seq 0 128).

End GainMath.

(** ** C++ floating-point arithmetic

    [float] is IEEE binary32 and [double] is binary64; both are carried by
    [spec_float] and operated on by the parameterised IEEE operations of
    the standard library, with round-to-nearest-even.  Every value is kept
    in the canonical form of its own format, so a change of format
    re-rounds the number. *)

Module CFloat.

Definition round_as (prec emax : Z) (x : spec_float) : spec_float :=
  match x with
  | S754_finite s m e => binary_round prec emax s m e
  | _ => x
  end.

(** Narrowing [double] to [float], and the exact widening back. *)
Definition to_float : spec_float -> spec_float := round_as 24 128.
Definition to_double : spec_float -> spec_float := round_as 53 1024.

Definition double_of_int (z : Z) : spec_float := binary_normalize 53 1024 z 0 false.
Definition float_of_int (z : Z) : spec_float := binary_normalize 24 128 z 0 false.

(** A decimal literal [num/den] of type [double]: literals are correctly
    rounded, as is the quotient of two exactly representable integers. *)
Definition double_lit (num den : Z) : spec_float :=
  SFdiv 53 1024 (double_of_int num) (double_of_int den).

Definition fadd : spec_float -> spec_float -> spec_float := SFadd 24 128.
Definition fsub : spec_float -> spec_float -> spec_float := SFsub 24 128.
Definition fmul : spec_float -> spec_float -> spec_float := SFmul 24 128.
Definition fsqrt : spec_float -> spec_float := SFsqrt 24 128.
Definition dadd : spec_float -> spec_float -> spec_float := SFadd 53 1024.
Definition dsub : spec_float -> spec_float -> spec_float := SFsub 53 1024.
Definition dmul : spec_float -> spec_float -> spec_float := SFmul 53 1024.
Definition ddiv : spec_float -> spec_float -> spec_float := SFdiv 53 1024.

(** [x > 0], the integer 0 being converted to the type of [x]. *)
Definition gt_zero (x : spec_float) : bool := SFltb (S754_zero false) x.

(** [(int)x]: truncation toward zero.  The conversion of a NaN or an
    infinity is undefined in C++; the model returns 0 there. *)
Definition int_of_double (x : spec_float) : Z :=
  match x with
  | S754_finite s m e => cond_Zopp s (Z.shiftl (Zpos m) e)
  | _ => 0
  end.

End CFloat.

#[global] Instance spec_float_inhabited : Inhabited spec_float :=
  populate (S754_zero false).

(** ** Types declared outside this translation unit *)

(** [RetCode], with the enumerators the wrapper returns. *)
Inductive RetCode := SUCCESS | ERROR_ILLEGAL_PARAMETER | ERROR_EFFECT_LIB_ERROR.

(** [lvm::BundleEffectType]; the wrapper handles [EQUALIZER] and leaves
    the other effect types to its [default] branches. *)
Inductive BundleEffectType := BASS_BOOST | VIRTUALIZER | EQUALIZER | VOLUME.

(** [LVM_ReturnStatus_en]: the wrapper only ever compares it against
    [LVM_SUCCESS]. *)
Inductive LVM_ReturnStatus_en := LVM_SUCCESS | LVM_FAILURE (code : nat).

Definition is_LVM_SUCCESS (s : LVM_ReturnStatus_en) : bool :=
  match s with LVM_SUCCESS => true | LVM_FAILURE _ => false end.

Inductive LVM_EQNB_Mode_en := LVM_EQNB_OFF | LVM_EQNB_ON.

(** [Gain] is an [LVM_INT16] field, [Frequency] and [QFactor] are
    [LVM_UINT16] fields: a store into them narrows (see [bandDefinition]). *)
Record LVM_EQNB_BandDef_t := {
  Frequency : Z;
  QFactor : Z;
  Gain : Z
}.

(** The fields of [LVM_ControlParams_t] that the modelled functions read or
    write.  [pEQNB_BandDefinition] is a pointer in the source; the array it
    points to is carried by value. *)
Record LVM_ControlParams_t := {
  EQNB_OperatingMode : LVM_EQNB_Mode_en;
  pEQNB_BandDefinition : list LVM_EQNB_BandDef_t;
  VC_EffectLevel : Z;
  VC_Balance : Z
}.

Record BandLevel := { index : Z; levelMb : Z }.

Record VolumeStereo := { left : spec_float; right : spec_float }.

(** Binder status codes of [IEffect::Status], as far as [lvmProcess]
    returns them. *)
Inductive ExceptionCode :=
  STATUS_OK | EX_NULL_POINTER | EX_ILLEGAL_STATE | EX_UNSUPPORTED_OPERATION.

Record Status := {
  status : ExceptionCode;
  fmqConsumed : Z;
  fmqProduced : Z
}.

(** The constants and tables of [BundleTypes.h] (namespace [lvm]) used by
    the wrapper; the header is not part of the modelled file, so they are
    parameters of the development. *)
Class BundleTypes := {
  MAX_NUM_BANDS : nat;
  MAX_NUM_PRESETS : nat;
  PRESET_CUSTOM : Z;
  kSoftPresets : nat -> nat -> Z;
  kPresetsFrequencies : nat -> Z;
  kPresetsQFactors : nat -> Z;
  kBandEnergyCoefficient : nat -> spec_float;
  kBandEnergyCrossCoefficient : nat -> spec_float;
  (** [int(t)] for an enumerator [t] of [BundleEffectType] *)
  effect_type_int : BundleEffectType -> nat
}.

(** The LVM engine, as far as the wrapper calls it.  Each call returns
    the status and the engine instance after the call; the instance is
    opaque. *)
Class LVM_Library (Inst : Type) := {
  LVM_GetControlParameters :
    Inst -> LVM_ReturnStatus_en * LVM_ControlParams_t * Inst;
  LVM_SetControlParameters :
    Inst -> LVM_ControlParams_t -> LVM_ReturnStatus_en * Inst;
  LVM_SetVolumeNoSmoothing :
    Inst -> LVM_ControlParams_t -> LVM_ReturnStatus_en * Inst;
  (** [LVM_Process inst in out frames]: status, output buffer, instance *)
  LVM_Process :
    Inst -> list spec_float -> list spec_float -> Z ->
    LVM_ReturnStatus_en * list spec_float * Inst
}.

(** Engine calls, in the order the wrapper makes them. *)
Inductive Event :=
  | EvGetControlParameters (st : LVM_ReturnStatus_en)
  | EvSetControlParameters (p : LVM_ControlParams_t) (st : LVM_ReturnStatus_en)
  | EvSetVolumeNoSmoothing (p : LVM_ControlParams_t) (st : LVM_ReturnStatus_en)
  | EvProcess (frames : Z) (st : LVM_ReturnStatus_en).

(** ** The context *)

Section Context_.
Context {BT : BundleTypes} {Inst : Type} {LVM : LVM_Library Inst}.

(** The data members the modelled functions use.  [mBandGaindB] is a
    [std::array<int, MAX_NUM_BANDS>], a list of that length; the other
    integer members are [int]s. *)
Record BundleContext := {
  mType : BundleEffectType;
  mEnabled : bool;
  mInstance : Inst;
  mSamplesPerSecond : Z;
  mSamplesToExitCountEq : Z;
  mNumberEffectsEnabled : Z;
  mNumberEffectsCalled : Z;
  mEffectInDrain : Z;
  mEffectProcessCalled : Z;
  mFirstVolume : bool;
  mLevelSaved : Z;
  mBandGaindB : list Z;
  mCurPresetIdx : Z;
  mVolumeStereo : VolumeStereo;
  (** [getCommon().input.frameCount], [getCommon().output.frameCount]
      and [getInputFrameSize()] of the base class *)
  inputFrameCount : Z;
  outputFrameCount : Z;
  inputFrameSize : Z
}.

Definition set_mEnabled (v : bool) (c : BundleContext) : BundleContext :=
  {| mType := mType c; mEnabled := v; mInstance := mInstance c;
     mSamplesPerSecond := mSamplesPerSecond c;
     mSamplesToExitCountEq := mSamplesToExitCountEq c;
     mNumberEffectsEnabled := mNumberEffectsEnabled c;
     mNumberEffectsCalled := mNumberEffectsCalled c;
     mEffectInDrain := mEffectInDrain c;
     mEffectProcessCalled := mEffectProcessCalled c;
     mFirstVolume := mFirstVolume c; mLevelSaved := mLevelSaved c;
     mBandGaindB := mBandGaindB c; mCurPresetIdx := mCurPresetIdx c;
     mVolumeStereo := mVolumeStereo c;
     inputFrameCount := inputFrameCount c;
     outputFrameCount := outputFrameCount c;
     inputFrameSize := inputFrameSize c |}.

Definition set_mInstance (v : Inst) (c : BundleContext) : BundleContext :=
  {| mType := mType c; mEnabled := mEnabled c; mInstance := v;
     mSamplesPerSecond := mSamplesPerSecond c;
     mSamplesToExitCountEq := mSamplesToExitCountEq c;
     mNumberEffectsEnabled := mNumberEffectsEnabled c;
     mNumberEffectsCalled := mNumberEffectsCalled c;
     mEffectInDrain := mEffectInDrain c;
     mEffectProcessCalled := mEffectProcessCalled c;
     mFirstVolume := mFirstVolume c; mLevelSaved := mLevelSaved c;
     mBandGaindB := mBandGaindB c; mCurPresetIdx := mCurPresetIdx c;
     mVolumeStereo := mVolumeStereo c;
     inputFrameCount := inputFrameCount c;
     outputFrameCount := outputFrameCount c;
     inputFrameSize := inputFrameSize c |}.

Definition set_mSamplesToExitCountEq (v : Z) (c : BundleContext) : BundleContext :=
  {| mType := mType c; mEnabled := mEnabled c; mInstance := mInstance c;
     mSamplesPerSecond := mSamplesPerSecond c;
     mSamplesToExitCountEq := v;
     mNumberEffectsEnabled := mNumberEffectsEnabled c;
     mNumberEffectsCalled := mNumberEffectsCalled c;
     mEffectInDrain := mEffectInDrain c;
     mEffectProcessCalled := mEffectProcessCalled c;
     mFirstVolume := mFirstVolume c; mLevelSaved := mLevelSaved c;
     mBandGaindB := mBandGaindB c; mCurPresetIdx := mCurPresetIdx c;
     mVolumeStereo := mVolumeStereo c;
     inputFrameCount := inputFrameCount c;
     outputFrameCount := outputFrameCount c;
     inputFrameSize := inputFrameSize c |}.

Definition set_mNumberEffectsEnabled (v : Z) (c : BundleContext) : BundleContext :=
  {| mType := mType c; mEnabled := mEnabled c; mInstance := mInstance c;
     mSamplesPerSecond := mSamplesPerSecond c;
     mSamplesToExitCountEq := mSamplesToExitCountEq c;
     mNumberEffectsEnabled := v;
     mNumberEffectsCalled := mNumberEffectsCalled c;
     mEffectInDrain := mEffectInDrain c;
     mEffectProcessCalled := mEffectProcessCalled c;
     mFirstVolume := mFirstVolume c; mLevelSaved := mLevelSaved c;
     mBandGaindB := mBandGaindB c; mCurPresetIdx := mCurPresetIdx c;
     mVolumeStereo := mVolumeStereo c;
     inputFrameCount := inputFrameCount c;
     outputFrameCount := outputFrameCount c;
     inputFrameSize := inputFrameSize c |}.

Definition set_mNumberEffectsCalled (v : Z) (c : BundleContext) : BundleContext :=
  {| mType := mType c; mEnabled := mEnabled c; mInstance := mInstance c;
     mSamplesPerSecond := mSamplesPerSecond c;
     mSamplesToExitCountEq := mSamplesToExitCountEq c;
     mNumberEffectsEnabled := mNumberEffectsEnabled c;
     mNumberEffectsCalled := v;
     mEffectInDrain := mEffectInDrain c;
     mEffectProcessCalled := mEffectProcessCalled c;
     mFirstVolume := mFirstVolume c; mLevelSaved := mLevelSaved c;
     mBandGaindB := mBandGaindB c; mCurPresetIdx := mCurPresetIdx c;
     mVolumeStereo := mVolumeStereo c;
     inputFrameCount := inputFrameCount c;
     outputFrameCount := outputFrameCount c;
     inputFrameSize := inputFrameSize c |}.

Definition set_mEffectInDrain (v : Z) (c : BundleContext) : BundleContext :=
  {| mType := mType c; mEnabled := mEnabled c; mInstance := mInstance c;
     mSamplesPerSecond := mSamplesPerSecond c;
     mSamplesToExitCountEq := mSamplesToExitCountEq c;
     mNumberEffectsEnabled := mNumberEffectsEnabled c;
     mNumberEffectsCalled := mNumberEffectsCalled c;
     mEffectInDrain := v;
     mEffectProcessCalled := mEffectProcessCalled c;
     mFirstVolume := mFirstVolume c; mLevelSaved := mLevelSaved c;
     mBandGaindB := mBandGaindB c; mCurPresetIdx := mCurPresetIdx c;
     mVolumeStereo := mVolumeStereo c;
     inputFrameCount := inputFrameCount c;
     outputFrameCount := outputFrameCount c;
     inputFrameSize := inputFrameSize c |}.

Definition set_mEffectProcessCalled (v : Z) (c : BundleContext) : BundleContext :=
  {| mType := mType c; mEnabled := mEnabled c; mInstance := mInstance c;
     mSamplesPerSecond := mSamplesPerSecond c;
     mSamplesToExitCountEq := mSamplesToExitCountEq c;
     mNumberEffectsEnabled := mNumberEffectsEnabled c;
     mNumberEffectsCalled := mNumberEffectsCalled c;
     mEffectInDrain := mEffectInDrain c;
     mEffectProcessCalled := v;
     mFirstVolume := mFirstVolume c; mLevelSaved := mLevelSaved c;
     mBandGaindB := mBandGaindB c; mCurPresetIdx := mCurPresetIdx c;
     mVolumeStereo := mVolumeStereo c;
     inputFrameCount := inputFrameCount c;
     outputFrameCount := outputFrameCount c;
     inputFrameSize := inputFrameSize c |}.

Definition set_mFirstVolume (v : bool) (c : BundleContext) : BundleContext :=
  {| mType := mType c; mEnabled := mEnabled c; mInstance := mInstance c;
     mSamplesPerSecond := mSamplesPerSecond c;
     mSamplesToExitCountEq := mSamplesToExitCountEq c;
     mNumberEffectsEnabled := mNumberEffectsEnabled c;
     mNumberEffectsCalled := mNumberEffectsCalled c;
     mEffectInDrain := mEffectInDrain c;
     mEffectProcessCalled := mEffectProcessCalled c;
     mFirstVolume := v; mLevelSaved := mLevelSaved c;
     mBandGaindB := mBandGaindB c; mCurPresetIdx := mCurPresetIdx c;
     mVolumeStereo := mVolumeStereo c;
     inputFrameCount := inputFrameCount c;
     outputFrameCount := outputFrameCount c;
     inputFrameSize := inputFrameSize c |}.

Definition set_mBandGaindB (v : list Z) (c : BundleContext) : BundleContext :=
  {| mType := mType c; mEnabled := mEnabled c; mInstance := mInstance c;
     mSamplesPerSecond := mSamplesPerSecond c;
     mSamplesToExitCountEq := mSamplesToExitCountEq c;
     mNumberEffectsEnabled := mNumberEffectsEnabled c;
     mNumberEffectsCalled := mNumberEffectsCalled c;
     mEffectInDrain := mEffectInDrain c;
     mEffectProcessCalled := mEffectProcessCalled c;
     mFirstVolume := mFirstVolume c; mLevelSaved := mLevelSaved c;
     mBandGaindB := v; mCurPresetIdx := mCurPresetIdx c;
     mVolumeStereo := mVolumeStereo c;
     inputFrameCount := inputFrameCount c;
     outputFrameCount := outputFrameCount c;
     inputFrameSize := inputFrameSize c |}.

Definition set_mCurPresetIdx (v : Z) (c : BundleContext) : BundleContext :=
  {| mType := mType c; mEnabled := mEnabled c; mInstance := mInstance c;
     mSamplesPerSecond := mSamplesPerSecond c;
     mSamplesToExitCountEq := mSamplesToExitCountEq c;
     mNumberEffectsEnabled := mNumberEffectsEnabled c;
     mNumberEffectsCalled := mNumberEffectsCalled c;
     mEffectInDrain := mEffectInDrain c;
     mEffectProcessCalled := mEffectProcessCalled c;
     mFirstVolume := mFirstVolume c; mLevelSaved := mLevelSaved c;
     mBandGaindB := mBandGaindB c; mCurPresetIdx := v;
     mVolumeStereo := mVolumeStereo c;
     inputFrameCount := inputFrameCount c;
     outputFrameCount := outputFrameCount c;
     inputFrameSize := inputFrameSize c |}.

Definition set_mVolumeStereo (v : VolumeStereo) (c : BundleContext) : BundleContext :=
  {| mType := mType c; mEnabled := mEnabled c; mInstance := mInstance c;
     mSamplesPerSecond := mSamplesPerSecond c;
     mSamplesToExitCountEq := mSamplesToExitCountEq c;
     mNumberEffectsEnabled := mNumberEffectsEnabled c;
     mNumberEffectsCalled := mNumberEffectsCalled c;
     mEffectInDrain := mEffectInDrain c;
     mEffectProcessCalled := mEffectProcessCalled c;
     mFirstVolume := mFirstVolume c; mLevelSaved := mLevelSaved c;
     mBandGaindB := mBandGaindB c; mCurPresetIdx := mCurPresetIdx c;
     mVolumeStereo := v;
     inputFrameCount := inputFrameCount c;
     outputFrameCount := outputFrameCount c;
     inputFrameSize := inputFrameSize c |}.

(** *** Member functions run in a state monad that also logs engine calls *)

Definition M (A : Type) : Type := BundleContext -> A * BundleContext * list Event.

Definition ret {A} (a : A) : M A := fun c => (a, c, []).

Definition bind {A B} (m : M A) (k : A -> M B) : M B :=
  fun c =>
    let '(a, c1, t1) := m c in
    let '(b, c2, t2) := k a c1 in
    (b, c2, t1 ++ t2).

Definition get {A} (f : BundleContext -> A) : M A := fun c => (f c, c, []).

Definition modify (f : BundleContext -> BundleContext) : M unit :=
  fun c => (tt, f c, []).

(** A computation on the context alone, which calls no engine function. *)
Definition state {A} (f : BundleContext -> A * BundleContext) : M A :=
  fun c => let '(a, c') := f c in (a, c', []).

End Context_.

Arguments BundleContext Inst : clear implicits.
Arguments M Inst A : clear implicits.

Notation "'let*' x := m 'in' k" := (bind m (fun x => k))
  (at level 10, x pattern, m at level 100, k at level 200, only parsing).

(** ** Member functions of [BundleContext] *)

Section Members.
Context {BT : BundleTypes} {Inst : Type} {LVM : LVM_Library Inst}.
Import CFloat.

Abbreviation Ctx := (BundleContext Inst).

(** Engine calls on [mInstance], each logged. *)
Definition call_GetControlParameters
  : M Inst (LVM_ReturnStatus_en * LVM_ControlParams_t) :=
  fun c =>
    let '(st, params, inst) := LVM_GetControlParameters (mInstance c) in
    ((st, params), set_mInstance inst c, [EvGetControlParameters st]).

Definition call_SetControlParameters (params : LVM_ControlParams_t)
  : M Inst LVM_ReturnStatus_en :=
  fun c =>
    let '(st, inst) := LVM_SetControlParameters (mInstance c) params in
    (st, set_mInstance inst c, [EvSetControlParameters params st]).

Definition call_SetVolumeNoSmoothing (params : LVM_ControlParams_t)
  : M Inst LVM_ReturnStatus_en :=
  fun c =>
    let '(st, inst) := LVM_SetVolumeNoSmoothing (mInstance c) params in
    (st, set_mInstance inst c, [EvSetVolumeNoSmoothing params st]).

Definition call_Process (inb outb : list spec_float) (frames : Z)
  : M Inst (LVM_ReturnStatus_en * list spec_float) :=
  fun c =>
    let '(st, outb', inst) := LVM_Process (mInstance c) inb outb frames in
    ((st, outb'), set_mInstance inst c, [EvProcess frames st]).

Definition set_EQNB_OperatingMode (v : LVM_EQNB_Mode_en) (p : LVM_ControlParams_t) :=
  {| EQNB_OperatingMode := v;
     pEQNB_BandDefinition := pEQNB_BandDefinition p;
     VC_EffectLevel := VC_EffectLevel p; VC_Balance := VC_Balance p |}.

Definition set_pEQNB_BandDefinition (v : list LVM_EQNB_BandDef_t) (p : LVM_ControlParams_t) :=
  {| EQNB_OperatingMode := EQNB_OperatingMode p;
     pEQNB_BandDefinition := v;
     VC_EffectLevel := VC_EffectLevel p; VC_Balance := VC_Balance p |}.

(** [VC_EffectLevel] and [VC_Balance] are [LVM_INT16] fields. *)
Definition set_VC_EffectLevel (v : Z) (p : LVM_ControlParams_t) :=
  {| EQNB_OperatingMode := EQNB_OperatingMode p;
     pEQNB_BandDefinition := pEQNB_BandDefinition p;
     VC_EffectLevel := to_int16 v; VC_Balance := VC_Balance p |}.

Definition set_VC_Balance (v : Z) (p : LVM_ControlParams_t) :=
  {| EQNB_OperatingMode := EQNB_OperatingMode p;
     pEQNB_BandDefinition := pEQNB_BandDefinition p;
     VC_EffectLevel := VC_EffectLevel p; VC_Balance := to_int16 v |}.

(** *** limitLevel *)

(** [mBandGaindB[i] / 15.0], stored in a [float]. *)
Definition bandFactor (gain : Z) : spec_float :=
  to_float (ddiv (double_of_int gain) (double_of_int 15)).

(** First loop of [limitLevel]: the energy contribution of the bands. *)
Definition energyContributionLoop (gains : list Z) : spec_float :=
  fold_left
    (fun energyContribution i =>
       let bandFactor := bandFactor (gains !!! i) in
       let bandCoefficient := kBandEnergyCoefficient i in
       let bandEnergy := fmul (fmul bandFactor bandCoefficient) bandCoefficient in
       if gt_zero bandEnergy then fadd energyContribution bandEnergy
       else energyContribution)
    (seq 0 MAX_NUM_BANDS) (float_of_int 0).

(** Second loop: cross energy of adjacent bands; the result is the pair
    [(energyCross, bandFactorSum)]. *)
Definition energyCrossLoop (gains : list Z) : spec_float * spec_float :=
  fold_left
    (fun '(energyCross, bandFactorSum) i =>
       let bandFactor1 := bandFactor (gains !!! i) in
       let bandFactor2 := bandFactor (gains !!! (i + 1)%nat) in
       if gt_zero bandFactor1 && gt_zero bandFactor2 then
         let crossEnergy :=
           fmul (fmul bandFactor1 bandFactor2) (kBandEnergyCrossCoefficient i) in
         let bandFactorSum := fadd bandFactorSum (fmul bandFactor1 bandFactor2) in
         (if gt_zero crossEnergy then fadd energyCross crossEnergy else energyCross,
          bandFactorSum)
       else (energyCross, bandFactorSum))
    (seq 0 (MAX_NUM_BANDS - 1)) (float_of_int 0, float_of_int 0).

(** [totalEnergyEstimation], a [double].  [sqrt] is applied to a [float]
    and, in C++, resolves to the [float] overload. *)
Definition totalEnergyEstimation (eqEnabled : bool) (gains : list Z) : spec_float :=
  let energyBassBoost := float_of_int 0 in
  let '(energyContribution, energyCross, crossCorrection) :=
    if eqEnabled then
      let energyContribution := energyContributionLoop gains in
      let '(energyCross, bandFactorSum) := energyCrossLoop gains in
      let bandFactorSum := to_float (dsub (to_double bandFactorSum) (double_of_int 1)) in
      let crossCorrection :=
        if gt_zero bandFactorSum
        then to_float (dmul (to_double bandFactorSum) (double_lit 7 10))
        else float_of_int 0 in
      (energyContribution, energyCross, crossCorrection)
    else (float_of_int 0, float_of_int 0, float_of_int 0) in
  to_double
    (fsub (fsqrt (fadd (fadd energyContribution energyCross) energyBassBoost))
          crossCorrection).

(** [(int)(totalEnergyEstimation + 0.99)] *)
Definition maxLevelRound (eqEnabled : bool) (gains : list Z) : Z :=
  int_of_double (dadd (totalEnergyEstimation eqEnabled gains) (double_lit 99 100)).

Definition gainCorrection (maxLevelRound levelSaved : Z) : Z :=
  if maxLevelRound + levelSaved >? 0 then maxLevelRound + levelSaved else 0.

(** The parameter block pushed by [limitLevel]. *)
Definition limitLevelParams (levelSaved : Z) (gains : list Z)
    (params : LVM_ControlParams_t) : LVM_ControlParams_t :=
  let eqEnabled :=
    match EQNB_OperatingMode params with LVM_EQNB_ON => true | LVM_EQNB_OFF => false end in
  let gainCorrection := gainCorrection (maxLevelRound eqEnabled gains) levelSaved in
  let params := set_VC_EffectLevel (levelSaved - gainCorrection) params in
  if VC_EffectLevel params <? -96 then set_VC_EffectLevel (-96) params else params.

Definition limitLevel : M Inst RetCode :=
  let* (st, params) := call_GetControlParameters in
  if negb (is_LVM_SUCCESS st) then ret ERROR_EFFECT_LIB_ERROR else
  let* gains := get mBandGaindB in
  let* levelSaved := get mLevelSaved in
  let params := limitLevelParams levelSaved gains params in
  let* st := call_SetControlParameters params in
  if negb (is_LVM_SUCCESS st) then ret ERROR_EFFECT_LIB_ERROR else
  let* firstVolume := get mFirstVolume in
  if firstVolume then
    let* st := call_SetVolumeNoSmoothing params in
    if negb (is_LVM_SUCCESS st) then ret ERROR_EFFECT_LIB_ERROR else
    let* _ := modify (set_mFirstVolume false) in
    ret SUCCESS
  else ret SUCCESS.

(** *** enable / disable *)

Definition eq_bit : Z := Z.shiftl 1 (Z.of_nat (effect_type_int EQUALIZER)).

Definition enableOperatingMode : M Inst RetCode :=
  let* (st, params) := call_GetControlParameters in
  if negb (is_LVM_SUCCESS st) then ret ERROR_EFFECT_LIB_ERROR else
  let* ty := get mType in
  let params :=
    match ty with
    | EQUALIZER => set_EQNB_OperatingMode LVM_EQNB_ON params
    | _ => params
    end in
  let* st := call_SetControlParameters params in
  if negb (is_LVM_SUCCESS st) then ret ERROR_EFFECT_LIB_ERROR else
  limitLevel.

Definition disableOperatingMode : M Inst RetCode :=
  let* (st, params) := call_GetControlParameters in
  if negb (is_LVM_SUCCESS st) then ret ERROR_EFFECT_LIB_ERROR else
  let* ty := get mType in
  let params :=
    match ty with
    | EQUALIZER => set_EQNB_OperatingMode LVM_EQNB_OFF params
    | _ => params
    end in
  let* st := call_SetControlParameters params in
  if negb (is_LVM_SUCCESS st) then ret ERROR_EFFECT_LIB_ERROR else
  let* _ := modify (set_mEnabled false) in
  limitLevel.

(** [(mSamplesPerSecond * 0.1)] converted to [int]. *)
Definition samplesToExit (samplesPerSecond : Z) : Z :=
  int_of_double (dmul (double_of_int samplesPerSecond) (double_lit 1 10)).

Definition enable : M Inst RetCode :=
  let* enabled := get mEnabled in
  if enabled then ret ERROR_ILLEGAL_PARAMETER else
  let* ty := get mType in
  let* _ :=
    match ty with
    | EQUALIZER =>
        let* _ := modify (fun c =>
          if mSamplesToExitCountEq c <=? 0
          then set_mNumberEffectsEnabled (mNumberEffectsEnabled c + 1) c else c) in
        let* _ := modify (fun c =>
          set_mSamplesToExitCountEq (samplesToExit (mSamplesPerSecond c)) c) in
        modify (fun c =>
          set_mEffectInDrain (Z.land (mEffectInDrain c) (Z.lnot eq_bit)) c)
    | _ => ret tt
    end in
  let* _ := modify (set_mEnabled true) in
  enableOperatingMode.

Definition disable : M Inst RetCode :=
  let* enabled := get mEnabled in
  if negb enabled then ret ERROR_ILLEGAL_PARAMETER else
  let* ty := get mType in
  let* _ :=
    match ty with
    | EQUALIZER =>
        modify (fun c => set_mEffectInDrain (Z.lor (mEffectInDrain c) eq_bit) c)
    | _ => ret tt
    end in
  let* _ := modify (set_mEnabled false) in
  disableOperatingMode.

(** *** Stereo volume *)

(** Implicit conversion of a [float] volume to the [uint32_t] parameter of
    [VolToDb] (undefined outside the range of [uint32_t]; the model
    truncates and wraps). *)
Definition uint32_of_float (x : spec_float) : Z := to_uint32 (int_of_double x).

Definition setVolumeStereo (volume : VolumeStereo) : M Inst RetCode :=
  let leftdB := GainMath.VolToDb (uint32_of_float (left volume)) in
  let rightdB := GainMath.VolToDb (uint32_of_float (right volume)) in
  let pandB := rightdB - leftdB in
  let* (st, params) := call_GetControlParameters in
  if negb (is_LVM_SUCCESS st) then ret ERROR_EFFECT_LIB_ERROR else
  let params := set_VC_Balance pandB params in
  let* st := call_SetControlParameters params in
  if negb (is_LVM_SUCCESS st) then ret ERROR_EFFECT_LIB_ERROR else
  let* _ := modify (set_mVolumeStereo volume) in
  ret SUCCESS.

(** *** Equalizer band levels and presets *)

(** [std::minmax_element] under the comparison of indices: the first
    smallest and the last largest element; [None] stands for the pair of
    end iterators returned on an empty range. *)
Definition minmax_element (l : list BandLevel) : option (BandLevel * BandLevel) :=
  match l with
  | [] => None
  | x :: rest =>
      Some (fold_left
              (fun '(mn, mx) y =>
                 (if index y <? index mn then y else mn,
                  if index y <? index mx then mx else y))
              rest (x, x))
  end.

(** On an empty vector the source dereferences the end iterator, which is
    undefined; both callers rule that out when [MAX_NUM_BANDS] is
    positive, and the model rejects the vector. *)
Definition isBandLevelIndexInRange (bandLevels : list BandLevel) : bool :=
  match minmax_element bandLevels with
  | Some (mn, mx) => (0 <=? index mn) && (index mx <? Z.of_nat MAX_NUM_BANDS)
  | None => false
  end.

(** The loop [for (it : bandLevels) tempLevel[it.index] = it.levelMb]
    over the local array [tempLevel], which is declared without an
    initialiser: slot [i] starts with the indeterminate value [uninit i]. *)
Definition fillTempLevel (bandLevels : list BandLevel) (uninit : nat -> Z) : list Z :=
  fold_left (fun tempLevel it => <[Z.to_nat (index it) := levelMb it]> tempLevel)
            bandLevels (map uninit (seq 0 MAX_NUM_BANDS)).

(** The three stores [def.Frequency = kPresetsFrequencies[i]],
    [def.QFactor = kPresetsQFactors[i]] and [def.Gain = gain] into band
    definition [i]: the values are converted to the 16-bit fields. *)
Definition bandDefinition (i : nat) (gain : Z) : LVM_EQNB_BandDef_t :=
  {| Frequency := to_uint16 (kPresetsFrequencies i);
     QFactor := to_uint16 (kPresetsQFactors i);
     Gain := to_int16 gain |}.

(** The loop that rewrites the band definitions the engine handed out. *)
Definition fillBandDefinition (tempLevel : list Z) (defs : list LVM_EQNB_BandDef_t)
  : list LVM_EQNB_BandDef_t :=
  fold_left
    (fun defs i => <[i := bandDefinition i (tempLevel !!! i)]> defs)
    (seq 0 MAX_NUM_BANDS) defs.

Definition updateControlParameter (bandLevels : list BandLevel) (uninit : nat -> Z)
  : M Inst RetCode :=
  if negb (isBandLevelIndexInRange bandLevels) then ret ERROR_ILLEGAL_PARAMETER else
  let tempLevel := fillTempLevel bandLevels uninit in
  let* (st, params) := call_GetControlParameters in
  if negb (is_LVM_SUCCESS st) then ret ERROR_EFFECT_LIB_ERROR else
  let params :=
    set_pEQNB_BandDefinition
      (fillBandDefinition tempLevel (pEQNB_BandDefinition params)) params in
  let* st := call_SetControlParameters params in
  if negb (is_LVM_SUCCESS st) then ret ERROR_EFFECT_LIB_ERROR else
  let* _ := modify (set_mBandGaindB tempLevel) in
  ret SUCCESS.

(** [presetIdx] is a [std::size_t]: the test [presetIdx < 0] never holds. *)
Definition setEqualizerPreset (presetIdx : nat) (uninit : nat -> Z) : M Inst RetCode :=
  if (MAX_NUM_PRESETS <=? presetIdx)%nat then ret ERROR_ILLEGAL_PARAMETER else
  let bandLevels :=
    map (fun i => {| index := Z.of_nat i; levelMb := kSoftPresets presetIdx i |})
        (seq 0 MAX_NUM_BANDS) in
  let* r := updateControlParameter bandLevels uninit in
  let* _ :=
    match r with
    | SUCCESS => modify (set_mCurPresetIdx (Z.of_nat presetIdx))
    | _ => ret tt
    end in
  ret r.

Definition setEqualizerBandLevels (bandLevels : list BandLevel) (uninit : nat -> Z)
  : M Inst RetCode :=
  if (MAX_NUM_BANDS <? length bandLevels)%nat || bool_decide (bandLevels = [])
  then ret ERROR_ILLEGAL_PARAMETER else
  let* r := updateControlParameter bandLevels uninit in
  let* _ :=
    match r with
    | SUCCESS => modify (set_mCurPresetIdx PRESET_CUSTOM)
    | _ => ret tt
    end in
  ret r.

Definition getEqualizerBandLevels (c : Ctx) : list BandLevel :=
  map (fun i => {| index := Z.of_nat i; levelMb := mBandGaindB c !!! i |})
      (seq 0 MAX_NUM_BANDS).

(** *** lvmProcess *)

Definition type_bit (t : BundleEffectType) : Z :=
  Z.shiftl 1 (Z.of_nat (effect_type_int t)).

(** The bookkeeping of [lvmProcess] between the argument checks and the
    call of the engine, block by block.  First, when this effect type was
    already called in the current round: an equalizer that is in drain
    but was not called has its drain ended at once. *)
Definition forceDrain (c : Ctx) : Ctx :=
  if negb (Z.land (mEffectProcessCalled c) (type_bit (mType c)) =? 0) then
    let undrainedEffects :=
      Z.land (mEffectInDrain c) (Z.lnot (mEffectProcessCalled c)) in
    if negb (Z.land undrainedEffects eq_bit =? 0) then
      set_mEffectInDrain (Z.land (mEffectInDrain c) (Z.lnot eq_bit))
        (set_mNumberEffectsEnabled (mNumberEffectsEnabled c - 1)
           (set_mSamplesToExitCountEq 0 c))
    else c
  else c.

(** The block [if (!mEnabled) { switch (mType) ... }]; the first
    component is [isDataAvailable]. *)
Definition drainTail (samples : Z) (c : Ctx) : bool * Ctx :=
  if negb (mEnabled c) then
    match mType c with
    | EQUALIZER =>
        let c :=
          if mSamplesToExitCountEq c >? 0
          then set_mSamplesToExitCountEq (mSamplesToExitCountEq c - samples) c
          else c in
        if mSamplesToExitCountEq c <=? 0 then
          (false,
           if negb (Z.land (mEffectInDrain c) eq_bit =? 0) then
             set_mEffectInDrain (Z.land (mEffectInDrain c) (Z.lnot eq_bit))
               (set_mNumberEffectsEnabled (mNumberEffectsEnabled c - 1) c)
           else c)
        else (true, c)
    | _ => (true, c)
    end
  else (true, c).

Definition drainBookkeeping (samples : Z) (c : Ctx) : bool * Ctx :=
  let c := forceDrain c in
  let c :=
    set_mEffectProcessCalled
      (Z.lor (mEffectProcessCalled c) (type_bit (mType c))) c in
  let '(isDataAvailable, c) := drainTail samples c in
  (isDataAvailable,
   if isDataAvailable
   then set_mNumberEffectsCalled (mNumberEffectsCalled c + 1) c
   else c).

(** The pass-through loop [for (i < samples) out[i] = in[i]]
    ([accumulate] is the constant [false]). *)
Definition copySamples (inb outb : list spec_float) (samples : Z) : list spec_float :=
  fold_left (fun outb i => <[i := inb !!! i]> outb) (seq 0 (Z.to_nat samples)) outb.

(** [LVM_UINT16 frames = samples * sizeof(float) / frameSize], computed in
    [size_t]. *)
Definition frameCount (samples frameSize : Z) : Z :=
  to_uint16 (to_uint64 (to_uint64 samples * 4) / frameSize).

(** [inb] and [outb] are [None] for null pointers.  The result carries the
    status and the output buffer after the call. *)
Definition lvmProcess (inb outb : option (list spec_float)) (samples : Z)
  : M Inst (Status * option (list spec_float)) :=
  match inb, outb with
  | None, _ | _, None =>
      ret ({| status := EX_NULL_POINTER; fmqConsumed := 0; fmqProduced := 0 |}, outb)
  | Some inbuf, Some outbuf =>
      let* inputFrameCount := get inputFrameCount in
      let* outputFrameCount := get outputFrameCount in
      if negb (inputFrameCount =? outputFrameCount) then
        ret ({| status := EX_ILLEGAL_STATE; fmqConsumed := 0; fmqProduced := 0 |}, outb)
      else
      let* frameSize := get inputFrameSize in
      if frameSize =? 0 then
        ret ({| status := EX_ILLEGAL_STATE; fmqConsumed := 0; fmqProduced := 0 |}, outb)
      else
      let* isDataAvailable := state (drainBookkeeping samples) in
      let* called := get mNumberEffectsCalled in
      let* enabledCount := get mNumberEffectsEnabled in
      if called >=? enabledCount then
        let* _ := modify (set_mEffectProcessCalled 0) in
        let* _ := modify (set_mNumberEffectsCalled 0) in
        let frames := frameCount samples frameSize in
        let* (lvmStatus, outbuf') := call_Process inbuf outbuf frames in
        if negb (is_LVM_SUCCESS lvmStatus) then
          ret ({| status := EX_UNSUPPORTED_OPERATION; fmqConsumed := 0; fmqProduced := 0 |},
               Some outbuf')
        else
          ret ({| status := STATUS_OK; fmqConsumed := samples; fmqProduced := samples |},
               Some outbuf')
      else
        ret ({| status := STATUS_OK; fmqConsumed := samples; fmqProduced := samples |},
             Some (copySamples inbuf outbuf samples))
  end.

End Members.

(** ** Observations on runs of the context *)

(** The error taxonomy of the specification, and the class of each result
    code. *)
Inductive ErrorKind :=
  IllegalParameter | IllegalState | EngineError | NullPointer | UnsupportedOperation.

Definition RetCode_kind (r : RetCode) : option ErrorKind :=
  match r with
  | SUCCESS => None
  | ERROR_ILLEGAL_PARAMETER => Some IllegalParameter
  | ERROR_EFFECT_LIB_ERROR => Some EngineError
  end.

Definition event_status (e : Event) : LVM_ReturnStatus_en :=
  match e with
  | EvGetControlParameters st => st
  | EvSetControlParameters _ st => st
  | EvSetVolumeNoSmoothing _ st => st
  | EvProcess _ st => st
  end.

(** Some engine call of the trace did not return [LVM_SUCCESS]. *)
Definition engine_failed (t : list Event) : bool :=
  existsb (fun e => negb (is_LVM_SUCCESS (event_status e))) t.

(** Some parameter push ([LVM_SetControlParameters]) was rejected. *)
Definition push_rejected (t : list Event) : bool :=
  existsb (fun e => match e with
                    | EvSetControlParameters _ st => negb (is_LVM_SUCCESS st)
                    | _ => false
                    end) t.

(** The statuses of the [LVM_SetVolumeNoSmoothing] calls of a trace. *)
Fixpoint noSmoothingCalls (t : list Event) : list LVM_ReturnStatus_en :=
  match t with
  | [] => []
  | EvSetVolumeNoSmoothing _ st :: t' => st :: noSmoothingCalls t'
  | _ :: t' => noSmoothingCalls t'
  end.

Definition processInvoked (t : list Event) : bool :=
  existsb (fun e => match e with EvProcess _ _ => true | _ => false end) t.

(** Fields no member function writes. *)
Definition frame {Inst} (c : BundleContext Inst) : BundleEffectType * Z * Z * Z * Z * Z :=
  (mType c, mSamplesPerSecond c, mLevelSaved c,
   inputFrameCount c, outputFrameCount c, inputFrameSize c).

(** The first-volume flag along a run of [LVM_SetVolumeNoSmoothing] calls:
    a call is made only while the flag is set, and clears it when it
    succeeds.  [None] when a call is made with the flag cleared. *)
Fixpoint firstVolumeTrack (flag : bool) (calls : list LVM_ReturnStatus_en) : option bool :=
  match calls with
  | [] => Some flag
  | st :: rest =>
      if flag then firstVolumeTrack (negb (is_LVM_SUCCESS st)) rest else None
  end.

Section Observations.
Context {BT : BundleTypes} {Inst : Type} {LVM : LVM_Library Inst}.

(** The in-memory mirror of the engine parameters. *)
Definition mirror (c : BundleContext Inst) : list Z * Z * VolumeStereo :=
  (mBandGaindB c, mCurPresetIdx c, mVolumeStereo c).

(** The enable / disable bookkeeping of a session. *)
Definition sessionState (c : BundleContext Inst) : bool * Z * Z * Z * Z * Z :=
  (mEnabled c, mSamplesToExitCountEq c, mEffectInDrain c,
   mEffectProcessCalled c, mNumberEffectsEnabled c, mNumberEffectsCalled c).

(** Every [LVM_SetVolumeNoSmoothing] call of a trace is made by a volume
    application: its block is one computed by [limitLevel] for the saved
    level, and the call comes straight after a successful parameter read
    and a successful push of that block. *)
Definition afterPush (levelSaved : Z) (t : list Event) : Prop :=
  forall t1 p st t2,
    t = t1 ++ EvSetVolumeNoSmoothing p st :: t2 ->
    (exists gains p0, p = limitLevelParams levelSaved gains p0) /\
    exists t0, t1 = t0 ++ [EvGetControlParameters LVM_SUCCESS;
                           EvSetControlParameters p LVM_SUCCESS].

(** Every band of the mirror is at 0. *)
Definition flatGains (gains : list Z) : Prop :=
  forall i, (i < MAX_NUM_BANDS)%nat -> gains !!! i = 0.

(** A band level whose index addresses one of the bands. *)
Definition indexInRange (it : BandLevel) : Prop :=
  0 <= index it < Z.of_nat MAX_NUM_BANDS.

(** The mutating operations of the parameter store. *)
Inductive MutatingOp :=
  | SetBandLevels (bandLevels : list BandLevel) (uninit : nat -> Z)
  | SetPreset (presetIdx : nat) (uninit : nat -> Z)
  | SetStereoVolume (volume : VolumeStereo).

Definition mutate (op : MutatingOp) : M Inst RetCode :=
  match op with
  | SetBandLevels bandLevels uninit => setEqualizerBandLevels bandLevels uninit
  | SetPreset presetIdx uninit => setEqualizerPreset presetIdx uninit
  | SetStereoVolume volume => setVolumeStereo volume
  end.

(** Calls a client can make on a context, and their effect on the context
    and on the engine trace. *)
Inductive Call :=
  | CallEnable
  | CallDisable
  | CallEnableOperatingMode
  | CallDisableOperatingMode
  | CallLimitLevel
  | CallMutate (op : MutatingOp)
  | CallProcess (inb outb : option (list spec_float)) (samples : Z).

Definition run_call (k : Call) (c : BundleContext Inst)
  : BundleContext Inst * list Event :=
  match k with
  | CallEnable => let '(_, c', t) := enable c in (c', t)
  | CallDisable => let '(_, c', t) := disable c in (c', t)
  | CallEnableOperatingMode => let '(_, c', t) := enableOperatingMode c in (c', t)
  | CallDisableOperatingMode => let '(_, c', t) := disableOperatingMode c in (c', t)
  | CallLimitLevel => let '(_, c', t) := limitLevel c in (c', t)
  | CallMutate op => let '(_, c', t) := mutate op c in (c', t)
  | CallProcess inb outb samples =>
      let '(_, c', t) := lvmProcess inb outb samples c in (c', t)
  end.

Fixpoint run_calls (ks : list Call) (c : BundleContext Inst)
  : BundleContext Inst * list Event :=
  match ks with
  | [] => (c, [])
  | k :: ks' =>
      let '(c1, t1) := run_call k c in
      let '(c2, t2) := run_calls ks' c1 in
      (c2, t1 ++ t2)
  end.

(** What one [lvmProcess] call on non-null buffers shows: the value of
    [isDataAvailable], whether the engine's process call was made, and
    the enabled-effect count after the call. *)
Record ProcessObs := {
  dataAvailable : bool;
  engineInvoked : bool;
  enabledAfter : Z
}.

Definition observeProcess (inb outb : list spec_float) (samples : Z)
    (c : BundleContext Inst) : ProcessObs * BundleContext Inst :=
  let '(avail, _) := drainBookkeeping samples c in
  let '(_, c', t) := lvmProcess (Some inb) (Some outb) samples c in
  ({| dataAvailable := avail;
      engineInvoked := processInvoked t;
      enabledAfter := mNumberEffectsEnabled c' |}, c').

Fixpoint observeProcesses (inb outb : list spec_float) (calls : list Z)
    (c : BundleContext Inst) : list ProcessObs :=
  match calls with
  | [] => []
  | samples :: calls' =>
      let '(o, c') := observeProcess inb outb samples c in
      o :: observeProcesses inb outb calls' c'
  end.

(** The context after a run of [lvmProcess] calls. *)
Fixpoint processAll (inb outb : list spec_float) (calls : list Z)
    (c : BundleContext Inst) : BundleContext Inst :=
  match calls with
  | [] => c
  | samples :: calls' =>
      processAll inb outb calls' (snd (observeProcess inb outb samples c))
  end.

(** Pass-through of a process call: the engine is not invoked and the
    output buffer is the input copied over it. *)
Definition passThrough (inb outb : list spec_float) (samples : Z)
    (result : Status * option (list spec_float)) (t : list Event) : Prop :=
  processInvoked t = false /\ snd result = Some (copySamples inb outb samples).

(** An equalizer session at rest, one being enabled, one in its drain
    tail with [budget] samples left, and one whose drain is over. *)
Definition Idle (c : BundleContext Inst) : Prop :=
  mType c = EQUALIZER /\ mEnabled c = false /\ mSamplesToExitCountEq c <= 0 /\
  mNumberEffectsEnabled c = 0 /\ mNumberEffectsCalled c = 0 /\
  inputFrameCount c = outputFrameCount c /\ inputFrameSize c <> 0.

Definition Running (budget : Z) (c : BundleContext Inst) : Prop :=
  mType c = EQUALIZER /\ mEnabled c = true /\ mSamplesToExitCountEq c = budget /\
  Z.land (mEffectInDrain c) eq_bit = 0 /\
  mNumberEffectsEnabled c = 1 /\ mNumberEffectsCalled c = 0 /\
  inputFrameCount c = outputFrameCount c /\ inputFrameSize c <> 0.

Definition Draining (budget : Z) (c : BundleContext Inst) : Prop :=
  mType c = EQUALIZER /\ mEnabled c = false /\ mSamplesToExitCountEq c = budget /\
  Z.land (mEffectInDrain c) eq_bit <> 0 /\
  mNumberEffectsEnabled c = 1 /\ mNumberEffectsCalled c = 0 /\
  inputFrameCount c = outputFrameCount c /\ inputFrameSize c <> 0.

Definition Drained (c : BundleContext Inst) : Prop :=
  Idle c /\ Z.land (mEffectInDrain c) eq_bit = 0.

(** Sum of the sample counts of a run of calls. *)
Definition totalSamples (calls : list Z) : Z := fold_right Z.add 0 calls.

End Observations.

(** ** A reference configuration and a scripted engine

    Concrete instances of the two interfaces, used to run the model: a
    five-band configuration, and an engine that stores the parameter block
    it was last given and answers its successive calls with the statuses
    of a script (success once the script is exhausted); its process call
    returns the input with every sample negated, which tells processed
    output apart from a copy of the input. *)

Module Reference.
Import CFloat.

Definition table {A} (d : A) (l : list A) (i : nat) : A := nth i l d.

#[export] Instance bundle_types : BundleTypes := {|
  MAX_NUM_BANDS := 5;
  MAX_NUM_PRESETS := 10;
  PRESET_CUSTOM := -1;
  kSoftPresets := fun p =>
    table 0 (table [] [[3; 0; 0; 0; 3]; [5; 3; -2; 4; 4]; [6; 0; 2; 4; 1]] p);
  kPresetsFrequencies := table 0 [60; 230; 910; 3600; 14000];
  kPresetsQFactors := table 0 [96; 96; 96; 96; 96];
  kBandEnergyCoefficient :=
    table (S754_zero false)
      (map (fun n => to_float (double_lit n 100)) [756; 969; 959; 737; 288]);
  kBandEnergyCrossCoefficient :=
    table (S754_zero false) (map float_of_int [126; 115; 125; 104]);
  effect_type_int := fun t =>
    match t with
    | BASS_BOOST => 0 | VIRTUALIZER => 1 | EQUALIZER => 2 | VOLUME => 3
    end%nat
|}.

Record Engine := {
  eng_params : LVM_ControlParams_t;
  eng_script : list LVM_ReturnStatus_en
}.

Definition next_status (e : Engine) : LVM_ReturnStatus_en * Engine :=
  match eng_script e with
  | [] => (LVM_SUCCESS, e)
  | st :: rest => (st, {| eng_params := eng_params e; eng_script := rest |})
  end.

#[export] Instance scripted_engine : LVM_Library Engine := {|
  LVM_GetControlParameters := fun e =>
    let '(st, e') := next_status e in (st, eng_params e, e');
  LVM_SetControlParameters := fun e p =>
    let '(st, e') := next_status e in
    (st, if is_LVM_SUCCESS st
         then {| eng_params := p; eng_script := eng_script e' |} else e');
  LVM_SetVolumeNoSmoothing := fun e p => next_status e;
  LVM_Process := fun e inb outb frames =>
    let '(st, e') := next_status e in (st, map SFopp inb, e')
|}.

Definition default_params : LVM_ControlParams_t := {|
  EQNB_OperatingMode := LVM_EQNB_OFF;
  pEQNB_BandDefinition :=
    map (fun i => {| Frequency := kPresetsFrequencies i;
                     QFactor := kPresetsQFactors i;
                     Gain := kSoftPresets 0 i |}) (seq 0 5);
  VC_EffectLevel := 0;
  VC_Balance := 0
|}.

(** An equalizer context that is not enabled and has processed nothing,
    for a saved level, band gains, a sample rate and an engine script. *)
Definition fresh_with (levelSaved : Z) (gains : list Z)
    (samplesPerSecond : Z) (script : list LVM_ReturnStatus_en)
  : BundleContext Engine := {|
  mType := EQUALIZER;
  mEnabled := false;
  mInstance := {| eng_params := default_params; eng_script := script |};
  mSamplesPerSecond := samplesPerSecond;
  mSamplesToExitCountEq := 0;
  mNumberEffectsEnabled := 0;
  mNumberEffectsCalled := 0;
  mEffectInDrain := 0;
  mEffectProcessCalled := 0;
  mFirstVolume := true;
  mLevelSaved := levelSaved;
  mBandGaindB := gains;
  mCurPresetIdx := 0;
  mVolumeStereo := {| left := float_of_int 1; right := float_of_int 1 |};
  inputFrameCount := 256;
  outputFrameCount := 256;
  inputFrameSize := 8
|}.

(** The context as it stands after construction and [init]. *)
Definition fresh : Z -> list LVM_ReturnStatus_en -> BundleContext Engine :=
  fresh_with 0 (map (kSoftPresets 0) (seq 0 5)).

(** Buffers of 3000 samples, indeterminate slot contents and flat band
    gains for the runs on this configuration. *)
Definition inb : list spec_float := replicate 3000 (float_of_int 1).
Definition outb : list spec_float := replicate 3000 (float_of_int 0).
Definition garbage : nat -> Z := fun _ => 77.
Definition flat : list Z := [0; 0; 0; 0; 0].

End Reference.

(** ** Further definitions: defaults, signs, sessions *)

Section Defaults.
Context {BT : BundleTypes}.

(** [getDefaultEqualizerBandDefs]: the static table [tempDefs], filled
    band by band on first use. *)
Definition getDefaultEqualizerBandDefs : list LVM_EQNB_BandDef_t :=
  map (fun i => bandDefinition i (kSoftPresets 0 i)) (seq 0 MAX_NUM_BANDS).

(** The band levels [setEqualizerPreset] builds for a preset, and the
    band definitions it hands to the engine. *)
Definition presetLevels (presetIdx : nat) : list BandLevel :=
  map (fun i => {| index := Z.of_nat i; levelMb := kSoftPresets presetIdx i |})
      (seq 0 MAX_NUM_BANDS).

Definition presetBandDefs (presetIdx : nat) : list LVM_EQNB_BandDef_t :=
  map (fun i => bandDefinition i (kSoftPresets presetIdx i)) (seq 0 MAX_NUM_BANDS).

End Defaults.


(** The number of [LVM_Process] calls of a trace. *)
Fixpoint processCount (t : list Event) : nat :=
  match t with
  | [] => 0
  | EvProcess _ _ :: t' => S (processCount t')
  | _ :: t' => processCount t'
  end.

(** [p] on each of the [n] integers from [z] on. *)
Fixpoint allFrom (p : Z -> bool) (n : nat) (z : Z) : bool :=
  match n with
  | O => true
  | S n' => p z && allFrom p n' (z + 1)
  end.

Section Sessions.
Context {BT : BundleTypes} {Inst : Type} {LVM : LVM_Library Inst}.

(** The states an equalizer session moves through: at rest, running, or
    in its drain tail with a positive number of samples left. *)
Definition Session (c : BundleContext Inst) : Prop :=
  Drained c \/ Running (samplesToExit (mSamplesPerSecond c)) c \/
  exists budget, 0 < budget /\ Draining budget c.

(** The calls of a session: everything but a direct
    [disableOperatingMode], with non-negative sample counts. *)
Definition sessionCall (k : Call) : Prop :=
  match k with
  | CallDisableOperatingMode => False
  | CallProcess _ _ samples => 0 <= samples
  | _ => True
  end.

(** The [lvmProcess] calls of a run that pass the null-pointer checks. *)
(** An enabled equalizer that is counted [enabled] times, [called] calls
    into the current round. *)
Definition Counted (enabled called : Z) (c : BundleContext Inst) : Prop :=
  mType c = EQUALIZER /\ mEnabled c = true /\
  mNumberEffectsEnabled c = enabled /\ mNumberEffectsCalled c = called /\
  inputFrameCount c = outputFrameCount c /\ inputFrameSize c <> 0.

(** A context of another effect type between calls: no equalizer drain
    pending, at most one effect counted as enabled, none as called. *)
Definition OtherType (c : BundleContext Inst) : Prop :=
  mType c <> EQUALIZER /\ Z.land (mEffectInDrain c) eq_bit = 0 /\
  mNumberEffectsEnabled c <= 1 /\ mNumberEffectsCalled c = 0 /\
  inputFrameCount c = outputFrameCount c /\ inputFrameSize c <> 0.

(** The drain and round bookkeeping, without the enabled flag and the
    mask of the types called. *)
Definition drainCounts (c : BundleContext Inst) : Z * Z * Z * Z :=
  (mSamplesToExitCountEq c, mEffectInDrain c,
   mNumberEffectsEnabled c, mNumberEffectsCalled c).

Fixpoint bufferedProcessCalls (ks : list Call) : nat :=
  match ks with
  | [] => 0
  | CallProcess (Some _) (Some _) _ :: ks' => S (bufferedProcessCalls ks')
  | _ :: ks' => bufferedProcessCalls ks'
  end.

End Sessions.

(** ** Properties of GainMath *)

Module GainMathFacts.
Import GainMath.

Lemma to_int16_small z : - 2 ^ 15 <= z < 2 ^ 15 -> to_int16 z = z.
Proof.
  intros Hz. unfold to_int16. rewrite Z.mod_small; lia.
Qed.

Lemma to_int16_range z : - 2 ^ 15 <= to_int16 z < 2 ^ 15.
Proof.
  unfold to_int16. pose proof (Z.mod_pos_bound (z + 2 ^ 15) (2 ^ 16)). lia.
Qed.

Lemma to_uint32_range z : 0 <= to_uint32 z < 2 ^ 32.
Proof. unfold to_uint32. apply Z.mod_pos_bound. lia. Qed.

Lemma to_uint32_small z : 0 <= z < 2 ^ 32 -> to_uint32 z = z.
Proof. intros Hz. unfold to_uint32. apply Z.mod_small. exact Hz. Qed.

Lemma to_uint32_to_int32 z : to_uint32 (to_int32 z) = to_uint32 z.
Proof.
  unfold to_uint32, to_int32.
  rewrite <- Zminus_mod_idemp_l, Z.mod_mod by lia.
  rewrite Zminus_mod_idemp_l. f_equal. lia.
Qed.

Lemma small_remainder_div r : small_remainder r = (r mod 2 ^ 31) / 2 ^ 24.
Proof.
  unfold small_remainder. change 0x7fffffff with (Z.ones 31).
  rewrite Z.land_ones by lia. rewrite Z.shiftr_div_pow2 by lia. reflexivity.
Qed.

Lemma small_remainder_range r : 0 <= small_remainder r <= 127.
Proof.
  rewrite small_remainder_div.
  pose proof (Z.mod_pos_bound r (2 ^ 31) ltac:(lia)) as Hm.
  split.
  - apply Z.div_pos; lia.
  - assert (r mod 2 ^ 31 / 2 ^ 24 < 128); [|lia].
    apply Z.div_lt_upper_bound; lia.
Qed.

Lemma small_remainder_mono r1 r2 :
  2 ^ 31 <= r1 -> r1 <= r2 -> r2 < 2 ^ 32 ->
  small_remainder r1 <= small_remainder r2.
Proof.
  intros H1 H12 H2. rewrite !small_remainder_div.
  assert (Hm : forall r, 2 ^ 31 <= r < 2 ^ 32 -> r mod 2 ^ 31 = r - 2 ^ 31).
  { intros r Hr. symmetry. apply (Z.mod_unique r (2 ^ 31) 1); lia. }
  rewrite !Hm by lia. apply Z.div_le_mono; lia.
Qed.

Lemma seven_bit_complete r : 0 <= r <= 127 -> List.In r seven_bit.
Proof.
  intros Hr. unfold seven_bit. apply List.in_map_iff.
  exists (Z.to_nat r). split; [lia|]. apply List.in_seq. lia.
Qed.

Lemma interp_table :
  List.forallb (fun a =>
    (0 <=? interp a) && (interp a <=? 96) &&
    List.forallb (fun b => (b <? a) || (interp a <=? interp b)) seven_bit)
    seven_bit = true.
Proof. vm_compute. reflexivity. Qed.

Lemma interp_range r : 0 <= r <= 127 -> 0 <= interp r <= 96.
Proof.
  intros Hr. pose proof interp_table as T.
  rewrite List.forallb_forall in T.
  specialize (T r (seven_bit_complete r Hr)).
  apply andb_prop in T as [T _]. apply andb_prop in T as [T1 T2]. lia.
Qed.

Lemma interp_mono a b : 0 <= a -> a <= b -> b <= 127 -> interp a <= interp b.
Proof.
  intros Ha Hab Hb. pose proof interp_table as T.
  rewrite List.forallb_forall in T.
  specialize (T a (seven_bit_complete a ltac:(lia))).
  apply andb_prop in T as [_ T].
  rewrite List.forallb_forall in T.
  specialize (T b (seven_bit_complete b ltac:(lia))).
  apply orb_prop in T as [T|T]; lia.
Qed.

(** Closed form of the tail of the conversion: no 16-bit conversion wraps
    when [Shift] is a legal iteration count. *)
Lemma db_of_scan_closed s r :
  0 <= s <= 32 ->
  db_of_scan s r = -96 * s + interp (small_remainder r) - 5.
Proof.
  intros Hs. unfold db_of_scan. fold (small_remainder r).
  pose proof (small_remainder_range r) as Hr.
  set (q := small_remainder r) in *.
  assert (Hq2 : 0 <= q * q <= 16129) by nia.
  rewrite (to_int16_small (-96 * s)) by lia.
  rewrite (to_int16_small q) by lia.
  rewrite (to_int16_small (q * q)) by lia.
  rewrite (to_int16_small (-96 * s + q)) by lia.
  unfold to_uint16. rewrite (Z.mod_small (q * q)) by lia.
  rewrite Z.shiftr_div_pow2 by lia. change (2 ^ 9) with 512.
  pose proof (interp_range q Hr) as Hi. unfold interp in *.
  rewrite (to_int16_small (q * q / 512)) by lia.
  rewrite (to_int16_small (-96 * s + q - q * q / 512)) by lia.
  rewrite to_int16_small by lia. lia.
Qed.

(** Bit 31 of a 32-bit value is clear exactly below [2^31]. *)
Lemma top_bit_test r :
  0 <= r < 2 ^ 32 -> (Z.land r 0x80000000 =? 0) = (r <? 2 ^ 31).
Proof.
  intros Hr. change 0x80000000 with (2 ^ 31).
  destruct (Z.ltb_spec r (2 ^ 31)) as [Hlt|Hge].
  - apply Z.eqb_eq. apply Z.bits_inj'. intros k Hk.
    rewrite Z.land_spec, Z.bits_0, Z.pow2_bits_eqb by lia.
    destruct (Z.eqb_spec 31 k) as [<-|Hne]; [|apply andb_false_r].
    rewrite andb_true_r. apply Z.testbit_false; [lia|].
    rewrite Z.div_small by lia. reflexivity.
  - apply Z.eqb_neq. intros Hz.
    assert (Hb : Z.testbit (Z.land r (2 ^ 31)) 31 = true).
    { rewrite Z.land_spec, Z.pow2_bits_eqb, Z.eqb_refl, andb_true_r by lia.
      apply Z.testbit_true; [lia|].
      replace (r / 2 ^ 31) with 1; [reflexivity|].
      apply (Z.div_unique r (2 ^ 31) 1 (r - 2 ^ 31)); lia. }
    rewrite Hz, Z.bits_0 in Hb. discriminate.
Qed.

Lemma shift_left_one r : 0 <= r < 2 ^ 31 -> to_uint32 (Z.shiftl r 1) = 2 * r.
Proof.
  intros Hr. rewrite Z.shiftl_mul_pow2 by lia.
  rewrite to_uint32_small; lia.
Qed.

(** One step of the scan, on values in the 32-bit range. *)
Lemma leading_bit_scan_step n s r :
  0 <= r < 2 ^ 32 -> s < 32 ->
  leading_bit_scan (S n) s r =
  if r <? 2 ^ 31 then leading_bit_scan n (s + 1) (2 * r) else (s, r).
Proof.
  intros Hr Hs. cbn [leading_bit_scan].
  destruct (Z.ltb_spec s 32); [|lia].
  rewrite top_bit_test by exact Hr.
  destruct (Z.ltb_spec r (2 ^ 31)); cbn [negb]; [|reflexivity].
  rewrite shift_left_one by lia. reflexivity.
Qed.

Lemma leading_bit_scan_stop n r : leading_bit_scan n 32 r = (32, r).
Proof. destruct n; reflexivity. Qed.

(** The loop counter only grows, by at most the number of iterations. *)
Lemma leading_bit_scan_count n : forall s r,
  s <= fst (leading_bit_scan n s r) <= s + Z.of_nat n.
Proof.
  induction n as [|n IH]; intros s r; cbn [leading_bit_scan].
  - cbn. lia.
  - destruct (s <? 32); [|cbn; lia].
    destruct (negb _); [cbn; lia|].
    specialize (IH (s + 1) (to_uint32 (Z.shiftl r 1))). lia.
Qed.

(** Thirty-two units of fuel are all the loop can use. *)
Lemma leading_bit_scan_fuel k : forall n s r,
  s + Z.of_nat n = 32 ->
  leading_bit_scan (n + k) s r = leading_bit_scan n s r.
Proof.
  intros n. induction n as [|n IH]; intros s r Hs.
  - replace s with 32 by lia. rewrite !leading_bit_scan_stop. reflexivity.
  - cbn [Nat.add leading_bit_scan].
    destruct (s <? 32); [|reflexivity].
    destruct (negb _); [reflexivity|].
    apply IH. lia.
Qed.

Lemma double_multiple s r :
  0 <= s -> r mod 2 ^ s = 0 -> (2 * r) mod 2 ^ (s + 1) = 0.
Proof.
  intros Hs Hr. rewrite Z.pow_add_r by lia. change (2 ^ 1) with 2.
  rewrite (Z.mul_comm (2 ^ s) 2), Zmult_mod_distr_l, Hr. reflexivity.
Qed.

(** Monotonicity of the scan followed by the interpolation.  The invariant
    of the loop is that [Remainder] is a multiple of [2^Shift]. *)
Lemma scan_monotone n : forall s r1 r2,
  s + Z.of_nat n = 32 -> 0 <= s ->
  0 <= r1 -> r1 <= r2 -> r2 < 2 ^ 32 ->
  r1 mod 2 ^ s = 0 -> r2 mod 2 ^ s = 0 ->
  db_of_scan (fst (leading_bit_scan n s r1)) (snd (leading_bit_scan n s r1)) <=
  db_of_scan (fst (leading_bit_scan n s r2)) (snd (leading_bit_scan n s r2)).
Proof.
  induction n as [|n IH]; intros s r1 r2 Hs Hs0 H1 H12 H2 Hm1 Hm2.
  - assert (s = 32) by lia. subst s.
    rewrite Z.mod_small in Hm1, Hm2 by lia. subst. lia.
  - rewrite !leading_bit_scan_step by lia.
    destruct (Z.ltb_spec r1 (2 ^ 31)) as [Hlt1|Hge1];
      destruct (Z.ltb_spec r2 (2 ^ 31)) as [Hlt2|Hge2]; cbn [fst snd].
    + apply IH; try lia; apply double_multiple; assumption.
    + pose proof (leading_bit_scan_count n (s + 1) (2 * r1)) as Hc.
      rewrite !db_of_scan_closed by lia.
      pose proof (interp_range _ (small_remainder_range
                    (snd (leading_bit_scan n (s + 1) (2 * r1))))).
      pose proof (interp_range _ (small_remainder_range r2)).
      lia.
    + lia.
    + rewrite !db_of_scan_closed by lia.
      pose proof (small_remainder_range r1).
      pose proof (small_remainder_range r2).
      pose proof (small_remainder_mono r1 r2 Hge1 H12 H2).
      pose proof (interp_mono (small_remainder r1) (small_remainder r2)).
      lia.
Qed.

Lemma LVC_ToDB_unfold x :
  LVC_ToDB_s32Tos16 x =
  db_of_scan (fst (leading_bit_scan 32 0 (to_uint32 x)))
             (snd (leading_bit_scan 32 0 (to_uint32 x))).
Proof.
  unfold LVC_ToDB_s32Tos16. destruct (leading_bit_scan 32 0 (to_uint32 x)).
  reflexivity.
Qed.

Lemma LVC_ToDB_monotone x y :
  to_uint32 x <= to_uint32 y -> LVC_ToDB_s32Tos16 x <= LVC_ToDB_s32Tos16 y.
Proof.
  intros Hxy. rewrite !LVC_ToDB_unfold.
  pose proof (to_uint32_range x). pose proof (to_uint32_range y).
  apply scan_monotone; try lia; apply Z.mod_1_r.
Qed.

(** C5. Read as an unsigned 32-bit magnitude, the argument of
    [LVC_ToDB_s32Tos16] is mapped monotonically (non-decreasing).  On input
    0 the leading-bit scan runs its 32 iterations and stops (further fuel
    is never consumed), and the result, -3077, is the least value the
    function returns on any input. *)
Theorem LVC_ToDB_monotone_and_zero :
  (forall v w, 0 <= v -> v <= w -> w < 2 ^ 32 ->
     LVC_ToDB_s32Tos16 (to_int32 v) <= LVC_ToDB_s32Tos16 (to_int32 w)) /\
  (forall k, leading_bit_scan (32 + k) 0 (to_uint32 0) = (32, 0)) /\
  LVC_ToDB_s32Tos16 0 = -3077 /\
  (forall x, LVC_ToDB_s32Tos16 0 <= LVC_ToDB_s32Tos16 x).
Proof.
  split; [|split; [|split]].
  - intros v w Hv Hvw Hw. apply LVC_ToDB_monotone.
    rewrite !to_uint32_to_int32, !to_uint32_small by lia. exact Hvw.
  - intros k. rewrite leading_bit_scan_fuel by reflexivity. reflexivity.
  - reflexivity.
  - intros x. apply LVC_ToDB_monotone.
    pose proof (to_uint32_range x). change (to_uint32 0) with 0. lia.
Qed.

Lemma LVC_ToDB_monotone_and_zero_witness :
  LVC_ToDB_s32Tos16 (to_int32 65536) <= LVC_ToDB_s32Tos16 (to_int32 4000000000).
Proof.
  apply (proj1 LVC_ToDB_monotone_and_zero 65536 4000000000); lia.
Defined.

(** C8. [VolToDb] never returns less than -96, whatever the volume. *)
Theorem VolToDb_floor vol : -96 <= VolToDb vol.
Proof.
  unfold VolToDb.
  destruct (Z.ltb_spec
    (to_int16 (Z.shiftr (to_int16 (LVC_ToDB_s32Tos16
       (to_int32 (to_uint32 (Z.shiftl (to_uint32 vol) 7)))) + 8) 4)) (-96)); lia.
Qed.

End GainMathFacts.


(** ** Properties of the context *)

Ltac unfold_monad :=
  unfold bind, get, modify, state, ret, call_GetControlParameters,
    call_SetControlParameters, call_SetVolumeNoSmoothing, call_Process.

(** Case analysis on the outcome of the next engine call of the goal. *)
Ltac engine_call :=
  match goal with
  | |- context [LVM_GetControlParameters ?i] =>
      let E := fresh "Eget" in
      destruct (LVM_GetControlParameters i) as [[[|?] ?] ?] eqn:E
  | |- context [LVM_SetControlParameters ?i ?p] =>
      let E := fresh "Eset" in
      destruct (LVM_SetControlParameters i p) as [[|?] ?] eqn:E
  | |- context [LVM_SetVolumeNoSmoothing ?i ?p] =>
      let E := fresh "Evol" in
      destruct (LVM_SetVolumeNoSmoothing i p) as [[|?] ?] eqn:E
  | |- context [LVM_Process ?i ?a ?b ?f] =>
      let E := fresh "Eproc" in
      destruct (LVM_Process i a b f) as [[[|?] ?] ?] eqn:E
  end; cbn.

Ltac engine_calls := cbn; repeat engine_call.

(** *** Arrays written slot by slot *)

Section FoldInsert.
Context {A B : Type} (key : B -> nat) (val : B -> A).

(** The array after the writes [a[key x] = val x] for [x] along [l]. *)
Local Abbreviation writes l a :=
  (fold_left (fun (a0 : list A) (x : B) => <[key x := val x]> a0) l a).

Lemma writes_length l : forall a, length (writes l a) = length a.
Proof.
  induction l as [|x l IH]; intros a; cbn; [reflexivity|].
  rewrite IH. apply length_insert.
Qed.

Lemma writes_untouched l j : forall a,
  Forall (fun x => key x <> j) l -> writes l a !! j = a !! j.
Proof.
  induction l as [|x l IH]; intros a Hl; cbn; [reflexivity|].
  apply Forall_cons in Hl as [Hx Hl].
  rewrite IH by exact Hl. apply list_lookup_insert_ne. exact Hx.
Qed.

(** The last write to a slot wins. *)
Lemma writes_last l1 x l2 a :
  (key x < length a)%nat -> Forall (fun y => key y <> key x) l2 ->
  writes (l1 ++ x :: l2) a !! key x = Some (val x).
Proof.
  intros Hlen Hl2. rewrite fold_left_app. cbn.
  rewrite writes_untouched by exact Hl2.
  apply list_lookup_insert_eq. rewrite writes_length. exact Hlen.
Qed.

End FoldInsert.

Section ContextFacts.
Context {BT : BundleTypes} {Inst : Type} {LVM : LVM_Library Inst}.
Implicit Types (c : BundleContext Inst) (r : RetCode) (t : list Event).

Lemma noSmoothingCalls_app t1 t2 :
  noSmoothingCalls (t1 ++ t2) = noSmoothingCalls t1 ++ noSmoothingCalls t2.
Proof.
  induction t1 as [|e t1 IH]; [reflexivity|].
  destruct e; cbn; rewrite IH; reflexivity.
Qed.

Lemma firstVolumeTrack_app flag l1 l2 :
  firstVolumeTrack flag (l1 ++ l2) =
  match firstVolumeTrack flag l1 with
  | Some flag' => firstVolumeTrack flag' l2
  | None => None
  end.
Proof.
  revert flag. induction l1 as [|st l1 IH]; intros flag; [reflexivity|].
  cbn. destruct flag; [apply IH|reflexivity].
Qed.

Lemma firstVolumeTrack_cleared l b :
  firstVolumeTrack false l = Some b -> l = [] /\ b = false.
Proof. destruct l; cbn; [intros [= <-]; auto|discriminate]. Qed.

(** *** limitLevel and the operating-mode pushes *)

Lemma limitLevel_spec c r c' t :
  limitLevel c = (r, c', t) ->
  frame c' = frame c /\ sessionState c' = sessionState c /\ mirror c' = mirror c /\
  r = (if engine_failed t then ERROR_EFFECT_LIB_ERROR else SUCCESS) /\
  firstVolumeTrack (mFirstVolume c) (noSmoothingCalls t) = Some (mFirstVolume c').
Proof.
  unfold limitLevel. unfold_monad. engine_calls.
  - destruct (mFirstVolume c) eqn:Efv; engine_calls;
      intros [= <- <- <-]; cbn; rewrite ?Efv; auto 10.
  - intros [= <- <- <-]; cbn. destruct (mFirstVolume c); auto 10.
  - intros [= <- <- <-]; cbn. destruct (mFirstVolume c); auto 10.
Qed.

#[local] Arguments limitLevel : simpl never.

Ltac call_limitLevel :=
  match goal with
  | |- context [limitLevel ?x] =>
      let E := fresh "Elim" in
      destruct (limitLevel x) as [[? ?] ?] eqn:E;
      apply limitLevel_spec in E;
      destruct E as (Hframe & Hsess & Hmirror & Hret & Htrack)
  end.

Lemma enableOperatingMode_spec c r c' t :
  enableOperatingMode c = (r, c', t) ->
  frame c' = frame c /\ sessionState c' = sessionState c /\ mirror c' = mirror c /\
  r = (if engine_failed t then ERROR_EFFECT_LIB_ERROR else SUCCESS) /\
  firstVolumeTrack (mFirstVolume c) (noSmoothingCalls t) = Some (mFirstVolume c').
Proof.
  unfold enableOperatingMode. unfold_monad. engine_calls.
  - call_limitLevel. intros [= <- <- <-]. cbn. auto.
  - intros [= <- <- <-]; cbn. auto 10.
  - intros [= <- <- <-]; cbn. auto 10.
Qed.

Lemma disableOperatingMode_spec c r c' t :
  disableOperatingMode c = (r, c', t) ->
  frame c' = frame c /\ mirror c' = mirror c /\
  (sessionState c' = sessionState c \/
   sessionState c' = sessionState (set_mEnabled false c)) /\
  r = (if engine_failed t then ERROR_EFFECT_LIB_ERROR else SUCCESS) /\
  firstVolumeTrack (mFirstVolume c) (noSmoothingCalls t) = Some (mFirstVolume c').
Proof.
  unfold disableOperatingMode. unfold_monad. engine_calls.
  - call_limitLevel. intros [= <- <- <-]. cbn. auto 10.
  - intros [= <- <- <-]; cbn. auto 10.
  - intros [= <- <- <-]; cbn. auto 10.
Qed.

#[local] Arguments enableOperatingMode : simpl never.
#[local] Arguments disableOperatingMode : simpl never.

(** *** The level estimate with every band at 0 *)

Import CFloat.

Lemma fold_left_fixed {A B} (f : A -> B -> A) (l : list B) (a : A) :
  Forall (fun x => f a x = a) l -> fold_left f l a = a.
Proof.
  induction 1 as [|x l Hx _ IH]; cbn; [reflexivity|].
  rewrite Hx. exact IH.
Qed.

Lemma bandFactor_zero : bandFactor 0 = S754_zero false.
Proof. reflexivity. Qed.

(** A zero band factor contributes no energy, whatever the coefficient. *)
Lemma zero_band_energy coef :
  gt_zero (fmul (fmul (S754_zero false) coef) coef) = false.
Proof. destruct coef as [[]|[]| |[] m e]; reflexivity. Qed.

Lemma energyContributionLoop_zero gains :
  flatGains gains -> energyContributionLoop gains = S754_zero false.
Proof.
  intros Hz. unfold energyContributionLoop. apply fold_left_fixed.
  apply Forall_forall. intros i Hi. apply elem_of_seq in Hi.
  rewrite Hz, bandFactor_zero, zero_band_energy by lia. reflexivity.
Qed.

Lemma energyCrossLoop_zero gains :
  flatGains gains ->
  energyCrossLoop gains = (S754_zero false, S754_zero false).
Proof.
  intros Hz. unfold energyCrossLoop. apply fold_left_fixed.
  apply Forall_forall. intros i Hi. apply elem_of_seq in Hi.
  rewrite !Hz, bandFactor_zero by lia. reflexivity.
Qed.

Lemma maxLevelRound_zero eqEnabled gains :
  flatGains gains -> maxLevelRound eqEnabled gains = 0.
Proof.
  intros Hz. unfold maxLevelRound, totalEnergyEstimation.
  destruct eqEnabled; [|reflexivity].
  rewrite energyContributionLoop_zero, energyCrossLoop_zero by exact Hz.
  reflexivity.
Qed.

(** C6 (amended). With every mirrored band gain at 0 and a saved level
    in (-96, 0], [limitLevel] computes a gain correction of 0 and pushes
    the saved level itself, unclamped, as the engine's volume-control
    level. *)
Theorem limitLevel_zero_gains c p inst :
  flatGains (mBandGaindB c) ->
  -96 < mLevelSaved c -> mLevelSaved c <= 0 ->
  LVM_GetControlParameters (mInstance c) = (LVM_SUCCESS, p, inst) ->
  (forall eqEnabled,
     gainCorrection (maxLevelRound eqEnabled (mBandGaindB c)) (mLevelSaved c) = 0) /\
  exists r c' p' st rest,
    limitLevel c =
      (r, c', EvGetControlParameters LVM_SUCCESS :: EvSetControlParameters p' st :: rest) /\
    p' = limitLevelParams (mLevelSaved c) (mBandGaindB c) p /\
    VC_EffectLevel p' = mLevelSaved c.
Proof.
  intros Hz Hlo Hhi Hget.
  assert (Hgc : forall eqEnabled,
            gainCorrection (maxLevelRound eqEnabled (mBandGaindB c)) (mLevelSaved c) = 0).
  { intros eqEnabled. rewrite maxLevelRound_zero by exact Hz.
    unfold gainCorrection. destruct (Z.gtb_spec (0 + mLevelSaved c) 0); [lia|reflexivity]. }
  split; [exact Hgc|].
  assert (Hlevel : VC_EffectLevel (limitLevelParams (mLevelSaved c) (mBandGaindB c) p)
                   = mLevelSaved c).
  { unfold limitLevelParams. rewrite Hgc. cbn.
    rewrite Z.sub_0_r, GainMathFacts.to_int16_small by lia.
    destruct (Z.ltb_spec (mLevelSaved c) (-96)); [lia|]. cbn.
    apply GainMathFacts.to_int16_small. lia. }
  unfold limitLevel. unfold_monad. cbn. rewrite Hget. cbn.
  destruct (LVM_SetControlParameters inst _) as [[|code] inst'] eqn:Eset; cbn.
  - destruct (mFirstVolume c); cbn.
    + destruct (LVM_SetVolumeNoSmoothing inst' _) as [[|code] inst''] eqn:Evol; cbn;
        eexists _, _, _, _, _; (split; [reflexivity|]); (split; [reflexivity|exact Hlevel]).
    + eexists _, _, _, _, _. split; [reflexivity|]. split; [reflexivity|exact Hlevel].
  - eexists _, _, _, _, _. split; [reflexivity|]. split; [reflexivity|exact Hlevel].
Qed.

(** *** enable and disable *)

Lemma enable_when_enabled c :
  mEnabled c = true -> enable c = (ERROR_ILLEGAL_PARAMETER, c, []).
Proof. intros H. unfold enable. unfold_monad. rewrite H. reflexivity. Qed.

Lemma disable_when_disabled c :
  mEnabled c = false -> disable c = (ERROR_ILLEGAL_PARAMETER, c, []).
Proof. intros H. unfold disable. unfold_monad. rewrite H. reflexivity. Qed.

Lemma enable_spec c r c' t :
  mEnabled c = false -> enable c = (r, c', t) ->
  frame c' = frame c /\ mirror c' = mirror c /\ mEnabled c' = true /\
  r = (if engine_failed t then ERROR_EFFECT_LIB_ERROR else SUCCESS) /\
  firstVolumeTrack (mFirstVolume c) (noSmoothingCalls t) = Some (mFirstVolume c').
Proof.
  intros Hen. unfold enable. unfold_monad. rewrite Hen. cbn.
  destruct (mType c) eqn:Ety; cbn;
    try destruct (mSamplesToExitCountEq c <=? 0); cbn;
    match goal with
    | |- context [enableOperatingMode ?x] =>
        destruct (enableOperatingMode x) as [[r1 c1] t1] eqn:E;
        apply enableOperatingMode_spec in E;
        destruct E as (Hframe & Hsess & Hmirror & Hret & Htrack)
    end;
    intros [= <- <- <-]; cbn in *;
    (split; [rewrite Hframe; unfold frame; cbn; rewrite ?Ety; reflexivity|]);
    (split; [exact Hmirror|]);
    (split; [injection Hsess; auto|]); auto.
Qed.

Lemma enable_equalizer c r c' t :
  mType c = EQUALIZER -> mEnabled c = false -> enable c = (r, c', t) ->
  mSamplesToExitCountEq c' = samplesToExit (mSamplesPerSecond c) /\
  mEffectInDrain c' = Z.land (mEffectInDrain c) (Z.lnot eq_bit) /\
  mNumberEffectsEnabled c' =
    (if mSamplesToExitCountEq c <=? 0
     then mNumberEffectsEnabled c + 1 else mNumberEffectsEnabled c) /\
  mNumberEffectsCalled c' = mNumberEffectsCalled c /\
  mEffectProcessCalled c' = mEffectProcessCalled c.
Proof.
  intros Hty Hen. unfold enable. unfold_monad. rewrite Hen, Hty. cbn.
  destruct (mSamplesToExitCountEq c <=? 0); cbn;
  match goal with
  | |- context [enableOperatingMode ?x] =>
      destruct (enableOperatingMode x) as [[r1 c1] t1] eqn:E;
      apply enableOperatingMode_spec in E;
      destruct E as (_ & Hsess & _)
  end;
  intros [= <- <- <-]; injection Hsess; intros; cbn in *; auto.
Qed.

Lemma disable_spec c r c' t :
  mEnabled c = true -> disable c = (r, c', t) ->
  frame c' = frame c /\ mirror c' = mirror c /\ mEnabled c' = false /\
  mSamplesToExitCountEq c' = mSamplesToExitCountEq c /\
  mEffectInDrain c' =
    (match mType c with
     | EQUALIZER => Z.lor (mEffectInDrain c) eq_bit
     | _ => mEffectInDrain c
     end) /\
  mNumberEffectsEnabled c' = mNumberEffectsEnabled c /\
  mNumberEffectsCalled c' = mNumberEffectsCalled c /\
  mEffectProcessCalled c' = mEffectProcessCalled c /\
  r = (if engine_failed t then ERROR_EFFECT_LIB_ERROR else SUCCESS) /\
  firstVolumeTrack (mFirstVolume c) (noSmoothingCalls t) = Some (mFirstVolume c').
Proof.
  intros Hen. unfold disable. unfold_monad. rewrite Hen. cbn.
  destruct (mType c) eqn:Ety; cbn;
    match goal with
    | |- context [disableOperatingMode ?x] =>
        destruct (disableOperatingMode x) as [[r1 c1] t1] eqn:E;
        apply disableOperatingMode_spec in E;
        destruct E as (Hframe & Hmirror & Hsess & Hret & Htrack)
    end;
    intros [= <- <- <-]; cbn in *;
    (split; [rewrite Hframe; unfold frame; cbn; rewrite ?Ety; reflexivity|]);
    (split; [exact Hmirror|]);
    repeat split; auto;
    destruct Hsess as [Hsess|Hsess]; injection Hsess; auto.
Qed.

(** *** The parameter store *)

Lemma updateControlParameter_spec bandLevels uninit c r c' t :
  updateControlParameter bandLevels uninit c = (r, c', t) ->
  frame c' = frame c /\ sessionState c' = sessionState c /\
  mFirstVolume c' = mFirstVolume c /\ noSmoothingCalls t = [] /\
  mCurPresetIdx c' = mCurPresetIdx c /\ mVolumeStereo c' = mVolumeStereo c /\
  match r with
  | SUCCESS =>
      isBandLevelIndexInRange bandLevels = true /\
      mBandGaindB c' = fillTempLevel bandLevels uninit /\
      exists p inst,
        LVM_GetControlParameters (mInstance c) = (LVM_SUCCESS, p, inst) /\
        t = [EvGetControlParameters LVM_SUCCESS;
             EvSetControlParameters
               (set_pEQNB_BandDefinition
                  (fillBandDefinition (fillTempLevel bandLevels uninit)
                     (pEQNB_BandDefinition p)) p) LVM_SUCCESS]
  | ERROR_ILLEGAL_PARAMETER =>
      isBandLevelIndexInRange bandLevels = false /\ c' = c /\ t = []
  | ERROR_EFFECT_LIB_ERROR =>
      isBandLevelIndexInRange bandLevels = true /\
      mBandGaindB c' = mBandGaindB c /\ engine_failed t = true
  end /\
  (engine_failed t = true -> r = ERROR_EFFECT_LIB_ERROR).
Proof.
  unfold updateControlParameter.
  destruct (isBandLevelIndexInRange bandLevels) eqn:Erange; cbn [negb].
  - unfold_monad. engine_calls; intros [= <- <- <-]; cbn;
      repeat split; eauto; discriminate.
  - unfold_monad. intros [= <- <- <-]. repeat split; auto; discriminate.
Qed.

#[local] Arguments updateControlParameter : simpl never.

Ltac call_updateControlParameter :=
  match goal with
  | |- context [updateControlParameter ?b ?u ?x] =>
      let E := fresh "Eupd" in
      destruct (updateControlParameter b u x) as [[? ?] ?] eqn:E;
      apply updateControlParameter_spec in E;
      destruct E as (Hframe & Hsess & Hfv & Hns & Hpreset & Hvol & Hres & Hfail)
  end.

Lemma setEqualizerBandLevels_spec bandLevels uninit c r c' t :
  setEqualizerBandLevels bandLevels uninit c = (r, c', t) ->
  frame c' = frame c /\ sessionState c' = sessionState c /\
  mFirstVolume c' = mFirstVolume c /\ noSmoothingCalls t = [] /\
  mVolumeStereo c' = mVolumeStereo c /\
  match r with
  | SUCCESS =>
      (length bandLevels <= MAX_NUM_BANDS)%nat /\ bandLevels <> [] /\
      isBandLevelIndexInRange bandLevels = true /\
      mBandGaindB c' = fillTempLevel bandLevels uninit /\
      mCurPresetIdx c' = PRESET_CUSTOM /\
      exists p inst,
        LVM_GetControlParameters (mInstance c) = (LVM_SUCCESS, p, inst) /\
        t = [EvGetControlParameters LVM_SUCCESS;
             EvSetControlParameters
               (set_pEQNB_BandDefinition
                  (fillBandDefinition (fillTempLevel bandLevels uninit)
                     (pEQNB_BandDefinition p)) p) LVM_SUCCESS]
  | ERROR_ILLEGAL_PARAMETER =>
      ((MAX_NUM_BANDS < length bandLevels)%nat \/ bandLevels = [] \/
       isBandLevelIndexInRange bandLevels = false) /\ c' = c /\ t = []
  | ERROR_EFFECT_LIB_ERROR =>
      mirror c' = mirror c /\ engine_failed t = true
  end /\
  (engine_failed t = true -> r = ERROR_EFFECT_LIB_ERROR).
Proof.
  unfold setEqualizerBandLevels.
  destruct (Nat.ltb_spec MAX_NUM_BANDS (length bandLevels)) as [Hlen|Hlen]; cbn [orb].
  { unfold_monad. intros [= <- <- <-]. repeat split; auto; discriminate. }
  destruct (bool_decide_reflect (bandLevels = [])) as [Hnil|Hnil].
  { unfold_monad. intros [= <- <- <-]. repeat split; auto; discriminate. }
  unfold_monad. call_updateControlParameter.
  destruct r0; cbn; intros [= <- <- <-]; cbn; rewrite ?app_nil_r.
  - destruct Hres as (Hr & Hg & p & inst & Hget & Ht).
    repeat split; eauto.
  - destruct Hres as (Hr & -> & ->). repeat split; auto.
  - destruct Hres as (Hr & Hg & Hf). unfold mirror.
    repeat split; auto. congruence.
Qed.

Lemma setEqualizerPreset_spec presetIdx uninit c r c' t :
  setEqualizerPreset presetIdx uninit c = (r, c', t) ->
  frame c' = frame c /\ sessionState c' = sessionState c /\
  mFirstVolume c' = mFirstVolume c /\ noSmoothingCalls t = [] /\
  mVolumeStereo c' = mVolumeStereo c /\
  match r with
  | SUCCESS =>
      (presetIdx < MAX_NUM_PRESETS)%nat /\
      mBandGaindB c' =
        fillTempLevel
          (map (fun i => {| index := Z.of_nat i; levelMb := kSoftPresets presetIdx i |})
               (seq 0 MAX_NUM_BANDS)) uninit /\
      mCurPresetIdx c' = Z.of_nat presetIdx /\
      exists p, t = [EvGetControlParameters LVM_SUCCESS;
                     EvSetControlParameters p LVM_SUCCESS]
  | ERROR_ILLEGAL_PARAMETER => c' = c /\ t = []
  | ERROR_EFFECT_LIB_ERROR => mirror c' = mirror c /\ engine_failed t = true
  end /\
  (engine_failed t = true -> r = ERROR_EFFECT_LIB_ERROR).
Proof.
  unfold setEqualizerPreset.
  destruct (Nat.leb_spec MAX_NUM_PRESETS presetIdx) as [Hidx|Hidx].
  { unfold_monad. intros [= <- <- <-]. repeat split; auto; discriminate. }
  unfold_monad. call_updateControlParameter.
  destruct r0; cbn; intros [= <- <- <-]; cbn; rewrite ?app_nil_r.
  - destruct Hres as (Hr & Hg & p & inst & Hget & Ht).
    repeat split; eauto.
  - destruct Hres as (Hr & -> & ->). repeat split; auto.
  - destruct Hres as (Hr & Hg & Hf). unfold mirror.
    repeat split; auto. congruence.
Qed.

Lemma setVolumeStereo_spec volume c r c' t :
  setVolumeStereo volume c = (r, c', t) ->
  frame c' = frame c /\ sessionState c' = sessionState c /\
  mFirstVolume c' = mFirstVolume c /\ noSmoothingCalls t = [] /\
  mBandGaindB c' = mBandGaindB c /\ mCurPresetIdx c' = mCurPresetIdx c /\
  match r with
  | SUCCESS =>
      mVolumeStereo c' = volume /\
      exists p, t = [EvGetControlParameters LVM_SUCCESS;
                     EvSetControlParameters p LVM_SUCCESS]
  | ERROR_ILLEGAL_PARAMETER => False
  | ERROR_EFFECT_LIB_ERROR =>
      mVolumeStereo c' = mVolumeStereo c /\ engine_failed t = true
  end /\
  (engine_failed t = true -> r = ERROR_EFFECT_LIB_ERROR).
Proof.
  unfold setVolumeStereo. unfold_monad. engine_calls;
    intros [= <- <- <-]; cbn; repeat split; eauto; discriminate.
Qed.

#[local] Arguments setEqualizerBandLevels : simpl never.
#[local] Arguments setEqualizerPreset : simpl never.
#[local] Arguments setVolumeStereo : simpl never.

(** *** Band levels: range check, round trip, omitted bands *)

Lemma minmax_fold_range rest : forall mn mx,
  let r := fold_left
             (fun '(mn, mx) y =>
                (if index y <? index mn then y else mn,
                 if index y <? index mx then mx else y))
             rest (mn, mx) in
  (0 <= index r.1 <-> 0 <= index mn /\ Forall (fun y => 0 <= index y) rest) /\
  (index r.2 < Z.of_nat MAX_NUM_BANDS <->
   index mx < Z.of_nat MAX_NUM_BANDS /\
   Forall (fun y => index y < Z.of_nat MAX_NUM_BANDS) rest).
Proof.
  induction rest as [|y rest IH]; intros mn mx; cbn.
  - rewrite !Forall_nil. tauto.
  - specialize (IH (if index y <? index mn then y else mn)
                   (if index y <? index mx then mx else y)).
    cbn in IH. destruct IH as [IH1 IH2]. rewrite !Forall_cons.
    split.
    + rewrite IH1. destruct (Z.ltb_spec (index y) (index mn)); intuition lia.
    + rewrite IH2. destruct (Z.ltb_spec (index y) (index mx)); intuition lia.
Qed.

Lemma isBandLevelIndexInRange_spec bandLevels :
  isBandLevelIndexInRange bandLevels = true <->
  bandLevels <> [] /\ Forall indexInRange bandLevels.
Proof.
  unfold isBandLevelIndexInRange, minmax_element.
  destruct bandLevels as [|x rest].
  - split; [discriminate|]. intros [H _]. congruence.
  - pose proof (minmax_fold_range rest x x) as [H1 H2]. cbn in H1, H2.
    destruct (fold_left _ rest (x, x)) as [mn mx]. cbn in H1, H2.
    rewrite andb_true_iff, Z.leb_le, Z.ltb_lt, H1, H2.
    rewrite Forall_cons. unfold indexInRange.
    rewrite Forall_and.
    intuition congruence.
Qed.

Lemma fillTempLevel_length bandLevels uninit :
  length (fillTempLevel bandLevels uninit) = MAX_NUM_BANDS.
Proof.
  unfold fillTempLevel.
  rewrite (writes_length (fun it => Z.to_nat (index it)) levelMb).
  rewrite length_map, length_seq. reflexivity.
Qed.

Lemma uninit_lookup (uninit : nat -> Z) j :
  (j < MAX_NUM_BANDS)%nat -> map uninit (seq 0 MAX_NUM_BANDS) !! j = Some (uninit j).
Proof.
  intros Hj. change (map uninit (seq 0 MAX_NUM_BANDS)) with (uninit <$> seq 0 MAX_NUM_BANDS).
  rewrite list_lookup_fmap, lookup_seq_lt by exact Hj. reflexivity.
Qed.

(** A slot no entry addresses keeps its indeterminate value. *)
Lemma fillTempLevel_omitted bandLevels uninit j :
  (j < MAX_NUM_BANDS)%nat ->
  Forall indexInRange bandLevels ->
  Forall (fun it => index it <> Z.of_nat j) bandLevels ->
  fillTempLevel bandLevels uninit !! j = Some (uninit j).
Proof.
  intros Hj Hrange Hne. unfold fillTempLevel.
  rewrite (writes_untouched (fun it => Z.to_nat (index it)) levelMb).
  - apply uninit_lookup, Hj.
  - rewrite Forall_forall in *. intros it Hit Heq.
    specialize (Hrange it Hit). specialize (Hne it Hit).
    unfold indexInRange in Hrange. lia.
Qed.

(** A slot holds the level of the last entry that addresses it. *)
Lemma fillTempLevel_last l1 it l2 uninit :
  Forall indexInRange (l1 ++ it :: l2) ->
  Forall (fun it' => index it' <> index it) l2 ->
  fillTempLevel (l1 ++ it :: l2) uninit !! Z.to_nat (index it) = Some (levelMb it).
Proof.
  intros Hrange Hne. unfold fillTempLevel.
  assert (Hit : indexInRange it).
  { rewrite Forall_app, Forall_cons in Hrange. tauto. }
  assert (Hl2 : Forall indexInRange l2).
  { rewrite Forall_app, Forall_cons in Hrange. tauto. }
  unfold indexInRange in Hit.
  apply (writes_last (fun it => Z.to_nat (index it)) levelMb).
  - rewrite length_map, length_seq. lia.
  - rewrite Forall_forall in *. intros it' Hin Heq.
    specialize (Hl2 it' Hin). specialize (Hne it' Hin).
    unfold indexInRange in Hl2. lia.
Qed.

Lemma getEqualizerBandLevels_lookup c j :
  (j < MAX_NUM_BANDS)%nat ->
  getEqualizerBandLevels c !! j =
  Some {| index := Z.of_nat j; levelMb := mBandGaindB c !!! j |}.
Proof.
  intros Hj. unfold getEqualizerBandLevels.
  match goal with
  | |- map ?f ?l !! _ = _ => change (map f l) with (f <$> l)
  end.
  rewrite list_lookup_fmap, lookup_seq_lt by exact Hj. reflexivity.
Qed.

Lemma fillBandDefinition_length tempLevel defs :
  length (fillBandDefinition tempLevel defs) = length defs.
Proof.
  unfold fillBandDefinition.
  apply (writes_length (fun i : nat => i)
           (fun i => bandDefinition i (tempLevel !!! i))).
Qed.

Lemma fillBandDefinition_lookup tempLevel defs i :
  (i < MAX_NUM_BANDS)%nat -> (i < length defs)%nat ->
  fillBandDefinition tempLevel defs !! i =
  Some (bandDefinition i (tempLevel !!! i)).
Proof.
  intros Hi Hlen. unfold fillBandDefinition.
  assert (Hin : i ∈ seq 0 MAX_NUM_BANDS) by (apply elem_of_seq; lia).
  apply list_elem_of_split_r in Hin as (l1 & l2 & -> & Hnot).
  apply (writes_last (fun i : nat => i)
           (fun i => bandDefinition i (tempLevel !!! i)) l1 i l2 defs Hlen).
  rewrite Forall_forall. intros y Hy ->. exact (Hnot Hy).
Qed.

(** C2. A [setEqualizerBandLevels] call that succeeds is read back by
    [getEqualizerBandLevels]: at every index the update addresses, the
    band level returned is the entry of the update for that index (the
    last one, should the update repeat an index); a non-empty update of
    at most [MAX_NUM_BANDS] entries with all indices in range does succeed
    when the engine accepts it.  An update holding an index outside
    [0, MAX_NUM_BANDS) is rejected with [ERROR_ILLEGAL_PARAMETER], the
    context (band gains included) unchanged and the engine not called. *)
Theorem setEqualizerBandLevels_round_trip :
  (forall bandLevels uninit c c' t,
     setEqualizerBandLevels bandLevels uninit c = (SUCCESS, c', t) ->
     forall l1 it l2,
       bandLevels = l1 ++ it :: l2 ->
       Forall (fun it' => index it' <> index it) l2 ->
       getEqualizerBandLevels c' !! Z.to_nat (index it) = Some it) /\
  (forall bandLevels uninit c r c' t,
     setEqualizerBandLevels bandLevels uninit c = (r, c', t) ->
     bandLevels <> [] -> (length bandLevels <= MAX_NUM_BANDS)%nat ->
     Forall indexInRange bandLevels -> engine_failed t = false ->
     r = SUCCESS) /\
  (forall bandLevels uninit c it,
     it ∈ bandLevels -> ~ indexInRange it ->
     setEqualizerBandLevels bandLevels uninit c = (ERROR_ILLEGAL_PARAMETER, c, [])).
Proof.
  split; [|split].
  - intros bandLevels uninit c c' t Hrun l1 it l2 -> Hlast.
    apply setEqualizerBandLevels_spec in Hrun.
    destruct Hrun as (_ & _ & _ & _ & _ & (_ & _ & Hrange & Hgains & _) & _).
    apply isBandLevelIndexInRange_spec in Hrange as [_ Hrange].
    assert (Hit : indexInRange it).
    { rewrite Forall_app, Forall_cons in Hrange. tauto. }
    unfold indexInRange in Hit.
    rewrite getEqualizerBandLevels_lookup by lia.
    rewrite Hgains.
    rewrite (list_lookup_total_correct _ _ _ (fillTempLevel_last l1 it l2 uninit Hrange Hlast)).
    rewrite Z2Nat.id by lia. destruct it; reflexivity.
  - intros bandLevels uninit c r c' t Hrun Hne Hlen Hrange Hok.
    apply setEqualizerBandLevels_spec in Hrun.
    destruct Hrun as (_ & _ & _ & _ & _ & Hres & _).
    destruct r; [reflexivity| |].
    + destruct Hres as ([H|[H|H]] & _); [lia|congruence|].
      assert (isBandLevelIndexInRange bandLevels = true)
        by (apply isBandLevelIndexInRange_spec; auto).
      congruence.
    + destruct Hres as (_ & Hf). congruence.
  - intros bandLevels uninit c it Hin Hout.
    destruct (setEqualizerBandLevels bandLevels uninit c) as [[r c'] t] eqn:Hrun.
    pose proof Hrun as Hspec. apply setEqualizerBandLevels_spec in Hspec.
    destruct Hspec as (_ & _ & _ & _ & _ & Hres & Hfail).
    assert (Hbad : isBandLevelIndexInRange bandLevels = true -> False).
    { intros H. apply isBandLevelIndexInRange_spec in H as [_ H].
      rewrite Forall_forall in H. exact (Hout (H it Hin)). }
    destruct r.
    + destruct Hres as (_ & _ & H & _). destruct (Hbad H).
    + destruct Hres as (_ & -> & ->). reflexivity.
    + exfalso.
      revert Hrun. unfold setEqualizerBandLevels.
      destruct (_ || _).
      * unfold_monad. discriminate.
      * unfold_monad.
        destruct (updateControlParameter bandLevels uninit c) as [[r1 c1] t1] eqn:E.
        apply updateControlParameter_spec in E.
        destruct E as (_ & _ & _ & _ & _ & _ & Hr1 & _).
        destruct r1; cbn; try discriminate.
        destruct Hr1 as (H & _). destruct (Hbad H).
Qed.

(** C10. A successful [setEqualizerBandLevels] replaces the whole mirror
    by the temporary array: a band that the update does not address ends
    with the indeterminate value of its never-initialised slot, whatever
    its previous gain was (so the previous gain is lost unless the two
    happen to coincide), and every band definition pushed to the engine
    carries the gain of the temporary array, converted to the 16-bit
    [Gain] field: for a band the update does not address, the
    indeterminate value so converted. *)
Theorem setEqualizerBandLevels_omitted_bands bandLevels uninit c c' t :
  setEqualizerBandLevels bandLevels uninit c = (SUCCESS, c', t) ->
  mBandGaindB c' = fillTempLevel bandLevels uninit /\
  (forall j, (j < MAX_NUM_BANDS)%nat ->
     Forall (fun it => index it <> Z.of_nat j) bandLevels ->
     mBandGaindB c' !! j = Some (uninit j) /\
     (mBandGaindB c !! j <> Some (uninit j) ->
      mBandGaindB c' !! j <> mBandGaindB c !! j)) /\
  exists p inst p',
    LVM_GetControlParameters (mInstance c) = (LVM_SUCCESS, p, inst) /\
    t = [EvGetControlParameters LVM_SUCCESS; EvSetControlParameters p' LVM_SUCCESS] /\
    length (pEQNB_BandDefinition p') = length (pEQNB_BandDefinition p) /\
    forall i, (i < MAX_NUM_BANDS)%nat -> (i < length (pEQNB_BandDefinition p))%nat ->
      pEQNB_BandDefinition p' !! i =
      Some {| Frequency := to_uint16 (kPresetsFrequencies i);
              QFactor := to_uint16 (kPresetsQFactors i);
              Gain := to_int16 (fillTempLevel bandLevels uninit !!! i) |} /\
      (Forall (fun it => index it <> Z.of_nat i) bandLevels ->
       Gain <$> pEQNB_BandDefinition p' !! i = Some (to_int16 (uninit i))).
Proof.
  intros Hrun. apply setEqualizerBandLevels_spec in Hrun.
  destruct Hrun as (_ & _ & _ & _ & _ & Hres & _).
  destruct Hres as (_ & _ & Hrange & Hgains & _ & p & inst & Hget & Ht).
  apply isBandLevelIndexInRange_spec in Hrange as [_ Hrange].
  split; [exact Hgains|]. split.
  - intros j Hj Hom.
    assert (Hnew : mBandGaindB c' !! j = Some (uninit j)).
    { rewrite Hgains. apply fillTempLevel_omitted; assumption. }
    split; [exact Hnew|]. rewrite Hnew. congruence.
  - exists p, inst. eexists. split; [exact Hget|]. split; [exact Ht|].
    cbn. split; [apply fillBandDefinition_length|].
    intros i Hi Hlen.
    rewrite fillBandDefinition_lookup by assumption.
    split; [reflexivity|]. intros Hom. cbn. unfold bandDefinition. cbn.
    rewrite (list_lookup_total_correct _ _ _
               (fillTempLevel_omitted bandLevels uninit i Hi Hrange Hom)).
    reflexivity.
Qed.

(** C3. For each mutating operation of the parameter store: when an engine
    call made by the operation fails, the result is
    [ERROR_EFFECT_LIB_ERROR] and the mirror (band gains, preset marker,
    stored stereo volume) is what it was; any result other than [SUCCESS]
    leaves the mirror untouched; and on [SUCCESS] the engine calls made
    are one successful read followed by one successful push. *)
Theorem mutation_commits_only_after_push op c r c' t :
  mutate op c = (r, c', t) ->
  (engine_failed t = true -> r = ERROR_EFFECT_LIB_ERROR /\ mirror c' = mirror c) /\
  (r <> SUCCESS -> mirror c' = mirror c) /\
  (r = SUCCESS ->
     exists p, t = [EvGetControlParameters LVM_SUCCESS;
                    EvSetControlParameters p LVM_SUCCESS]).
Proof.
  assert (Hok : forall t0 : list Event,
            (engine_failed t0 = true -> SUCCESS = ERROR_EFFECT_LIB_ERROR) ->
            (exists p, t0 = [EvGetControlParameters LVM_SUCCESS;
                             EvSetControlParameters p LVM_SUCCESS]) ->
            (engine_failed t0 = true ->
               SUCCESS = ERROR_EFFECT_LIB_ERROR /\ mirror c' = mirror c) /\
            (SUCCESS <> SUCCESS -> mirror c' = mirror c) /\
            (SUCCESS = SUCCESS ->
               exists p, t0 = [EvGetControlParameters LVM_SUCCESS;
                               EvSetControlParameters p LVM_SUCCESS])).
  { intros t0 Hfail Hex. split; [|split].
    - intros Hf. apply Hfail in Hf. discriminate.
    - congruence.
    - intros _. exact Hex. }
  assert (Hkeep : forall r0 : RetCode, r0 <> SUCCESS -> mirror c' = mirror c ->
            (engine_failed t = true -> r = ERROR_EFFECT_LIB_ERROR) -> r = r0 ->
            (engine_failed t = true ->
               r = ERROR_EFFECT_LIB_ERROR /\ mirror c' = mirror c) /\
            (r <> SUCCESS -> mirror c' = mirror c) /\
            (r = SUCCESS ->
               exists p, t = [EvGetControlParameters LVM_SUCCESS;
                              EvSetControlParameters p LVM_SUCCESS])).
  { intros r0 Hr0 Hm Hfail ->. split; [|split]; auto. congruence. }
  destruct op as [bandLevels uninit|presetIdx uninit|volume]; cbn [mutate]; intros Hrun.
  - apply setEqualizerBandLevels_spec in Hrun.
    destruct Hrun as (_ & _ & _ & _ & Hvol & Hres & Hfail).
    destruct r.
    + destruct Hres as (_ & _ & _ & _ & _ & p & inst & _ & Ht).
      apply Hok; eauto.
    + destruct Hres as (_ & -> & ->).
      apply (Hkeep ERROR_ILLEGAL_PARAMETER); auto; discriminate.
    + destruct Hres as (Hm & _).
      apply (Hkeep ERROR_EFFECT_LIB_ERROR); auto; discriminate.
  - apply setEqualizerPreset_spec in Hrun.
    destruct Hrun as (_ & _ & _ & _ & Hvol & Hres & Hfail).
    destruct r.
    + destruct Hres as (_ & _ & _ & p & Ht). apply Hok; eauto.
    + destruct Hres as (-> & ->).
      apply (Hkeep ERROR_ILLEGAL_PARAMETER); auto; discriminate.
    + destruct Hres as (Hm & _).
      apply (Hkeep ERROR_EFFECT_LIB_ERROR); auto; discriminate.
  - apply setVolumeStereo_spec in Hrun.
    destruct Hrun as (_ & _ & _ & _ & Hg & Hp & Hres & Hfail).
    destruct r.
    + destruct Hres as (_ & p & Ht). apply Hok; eauto.
    + destruct Hres.
    + destruct Hres as (Hm & _).
      apply (Hkeep ERROR_EFFECT_LIB_ERROR); auto; try discriminate.
      unfold mirror. congruence.
Qed.

Lemma push_rejected_engine_failed t :
  push_rejected t = true -> engine_failed t = true.
Proof.
  unfold push_rejected, engine_failed. rewrite !existsb_exists.
  intros (e & Hin & He). exists e. split; [exact Hin|].
  destruct e; try discriminate. exact He.
Qed.

(** *** lvmProcess *)

Ltac case_ifs :=
  repeat match goal with
         | |- context [if ?b then _ else _] => destruct b eqn:?; cbn
         end.

Lemma drainBookkeeping_frame samples c avail c' :
  drainBookkeeping samples c = (avail, c') ->
  frame c' = frame c /\ mirror c' = mirror c /\ mEnabled c' = mEnabled c /\
  mFirstVolume c' = mFirstVolume c /\ mInstance c' = mInstance c.
Proof.
  unfold drainBookkeeping, drainTail, forceDrain. cbv zeta.
  destruct (mType c) eqn:Ety; case_ifs; rewrite ?Ety; cbn; case_ifs;
    intros [= <- <-]; unfold frame; cbn; rewrite ?Ety; auto.
Qed.

Lemma lvmProcess_frame inb outb samples c res c' t :
  lvmProcess inb outb samples c = (res, c', t) ->
  frame c' = frame c /\ mirror c' = mirror c /\ mEnabled c' = mEnabled c /\
  mFirstVolume c' = mFirstVolume c /\ noSmoothingCalls t = [].
Proof.
  unfold lvmProcess. destruct inb as [inbuf|], outb as [outbuf|];
    try (unfold_monad; intros [= <- <- <-]; auto).
  unfold_monad. cbn.
  destruct (inputFrameCount c =? outputFrameCount c); cbn;
    [|intros [= <- <- <-]; auto].
  destruct (inputFrameSize c =? 0); cbn; [intros [= <- <- <-]; auto|].
  destruct (drainBookkeeping samples c) as [avail c1] eqn:Ebook.
  apply drainBookkeeping_frame in Ebook as (Hf & Hm & He & Hv & Hi). cbn.
  destruct (mNumberEffectsCalled c1 >=? mNumberEffectsEnabled c1); cbn.
  - engine_call; intros [= <- <- <-]; cbn; auto.
  - intros [= <- <- <-]; cbn; auto.
Qed.

(** *** The equalizer bit of the drain and call masks *)

Lemma land_eq_bit x :
  (Z.land x eq_bit =? 0) = negb (Z.testbit x (Z.of_nat (effect_type_int EQUALIZER))).
Proof.
  unfold eq_bit. rewrite Z.shiftl_1_l.
  set (k := Z.of_nat (effect_type_int EQUALIZER)).
  assert (Hk : 0 <= k) by (subst k; lia).
  destruct (Z.testbit x k) eqn:Hbit; cbn [negb].
  - apply Z.eqb_neq. intros Hz.
    assert (Hb : Z.testbit (Z.land x (2 ^ k)) k = true)
      by (rewrite Z.land_spec, Z.pow2_bits_eqb, Z.eqb_refl, Hbit by lia; reflexivity).
    rewrite Hz, Z.bits_0 in Hb. discriminate.
  - apply Z.eqb_eq. apply Z.bits_inj'. intros m Hm.
    rewrite Z.land_spec, Z.bits_0, Z.pow2_bits_eqb by lia.
    destruct (Z.eqb_spec k m) as [<-|Hne]; [|apply andb_false_r].
    rewrite Hbit. reflexivity.
Qed.

Lemma eq_bit_cleared d : Z.land (Z.land d (Z.lnot eq_bit)) eq_bit = 0.
Proof.
  apply Z.eqb_eq. rewrite land_eq_bit, Z.land_spec, Z.lnot_spec by lia.
  pose proof (land_eq_bit eq_bit) as H. rewrite Z.land_diag in H.
  assert (Hne : (eq_bit =? 0) = false).
  { apply Z.eqb_neq. unfold eq_bit. rewrite Z.shiftl_1_l. lia. }
  rewrite Hne in H. apply (f_equal negb) in H. rewrite negb_involutive in H.
  cbn in H. rewrite <- H. cbn. rewrite andb_false_r. reflexivity.
Qed.

Lemma eq_bit_set d : Z.land (Z.lor d eq_bit) eq_bit <> 0.
Proof.
  apply Z.eqb_neq. rewrite land_eq_bit, Z.lor_spec.
  pose proof (land_eq_bit eq_bit) as H. rewrite Z.land_diag in H.
  assert (Hne : (eq_bit =? 0) = false).
  { apply Z.eqb_neq. unfold eq_bit. rewrite Z.shiftl_1_l. lia. }
  rewrite Hne in H. apply (f_equal negb) in H. rewrite negb_involutive in H.
  cbn in H. rewrite <- H. cbn. rewrite orb_true_r. reflexivity.
Qed.

(** In an equalizer context the forced end of drain never fires: the
    effect being called is the equalizer itself. *)
Lemma forceDrain_equalizer c : mType c = EQUALIZER -> forceDrain c = c.
Proof.
  intros Hty. unfold forceDrain. rewrite Hty.
  change (type_bit EQUALIZER) with eq_bit.
  rewrite !land_eq_bit, Z.land_spec, Z.lnot_spec by lia.
  destruct (Z.testbit (mEffectProcessCalled c) _); cbn; [|reflexivity].
  rewrite andb_false_r. reflexivity.
Qed.

(** *** One process call in each phase of an equalizer session *)

Lemma drainBookkeeping_enabled samples c :
  mType c = EQUALIZER -> mEnabled c = true ->
  drainBookkeeping samples c =
  (true,
   set_mNumberEffectsCalled (mNumberEffectsCalled c + 1)
     (set_mEffectProcessCalled (Z.lor (mEffectProcessCalled c) eq_bit) c)).
Proof.
  intros Hty Hen. unfold drainBookkeeping, drainTail.
  rewrite forceDrain_equalizer by exact Hty. cbn.
  rewrite Hen, Hty. reflexivity.
Qed.

Lemma drainBookkeeping_tail samples c :
  mType c = EQUALIZER -> mEnabled c = false ->
  0 < mSamplesToExitCountEq c - samples -> 0 <= samples ->
  drainBookkeeping samples c =
  (true,
   set_mNumberEffectsCalled (mNumberEffectsCalled c + 1)
     (set_mSamplesToExitCountEq (mSamplesToExitCountEq c - samples)
        (set_mEffectProcessCalled (Z.lor (mEffectProcessCalled c) eq_bit) c))).
Proof.
  intros Hty Hen Hleft Hpos. unfold drainBookkeeping, drainTail.
  rewrite forceDrain_equalizer by exact Hty. cbn.
  rewrite Hen, Hty. cbn.
  destruct (Z.gtb_spec (mSamplesToExitCountEq c) 0) as [_|]; [|lia]. cbn.
  destruct (Z.leb_spec (mSamplesToExitCountEq c - samples) 0) as [|_]; [lia|].
  reflexivity.
Qed.

Lemma drainBookkeeping_end samples c :
  mType c = EQUALIZER -> mEnabled c = false ->
  mSamplesToExitCountEq c - samples <= 0 -> 0 <= samples ->
  exists c1,
    drainBookkeeping samples c = (false, c1) /\
    frame c1 = frame c /\ mEnabled c1 = false /\ mInstance c1 = mInstance c /\
    mSamplesToExitCountEq c1 <= 0 /\
    Z.land (mEffectInDrain c1) eq_bit = 0 /\
    mNumberEffectsCalled c1 = mNumberEffectsCalled c /\
    mNumberEffectsEnabled c1 =
      (if Z.land (mEffectInDrain c) eq_bit =? 0
       then mNumberEffectsEnabled c else mNumberEffectsEnabled c - 1).
Proof.
  intros Hty Hen Hleft Hpos. unfold drainBookkeeping, drainTail.
  rewrite forceDrain_equalizer by exact Hty. cbn.
  rewrite Hen, Hty. cbn.
  destruct (Z.gtb_spec (mSamplesToExitCountEq c) 0) as [Hb|Hb]; cbn.
  - destruct (Z.leb_spec (mSamplesToExitCountEq c - samples) 0) as [_|]; [|lia].
    destruct (Z.eqb_spec (Z.land (mEffectInDrain c) eq_bit) 0) as [Hbit|Hbit]; cbn;
      eexists; (split; [reflexivity|]); unfold frame; cbn;
      rewrite ?eq_bit_cleared; auto 10.
  - destruct (Z.leb_spec (mSamplesToExitCountEq c) 0) as [_|]; [|lia].
    destruct (Z.eqb_spec (Z.land (mEffectInDrain c) eq_bit) 0) as [Hbit|Hbit]; cbn;
      eexists; (split; [reflexivity|]); unfold frame; cbn;
      rewrite ?eq_bit_cleared; auto 10.
Qed.

#[local] Arguments drainBookkeeping : simpl never.

(** [lvmProcess] on non-null buffers and a consistent frame layout: the
    bookkeeping, then either the engine or the copy. *)
Lemma lvmProcess_valid inb outb samples c :
  inputFrameCount c = outputFrameCount c -> inputFrameSize c <> 0 ->
  lvmProcess (Some inb) (Some outb) samples c =
  let '(_, c1) := drainBookkeeping samples c in
  if mNumberEffectsCalled c1 >=? mNumberEffectsEnabled c1 then
    let frames := frameCount samples (inputFrameSize c) in
    let '(st, outb', inst) := LVM_Process (mInstance c1) inb outb frames in
    ((if is_LVM_SUCCESS st
      then {| status := STATUS_OK; fmqConsumed := samples; fmqProduced := samples |}
      else {| status := EX_UNSUPPORTED_OPERATION; fmqConsumed := 0; fmqProduced := 0 |},
      Some outb'),
     set_mInstance inst (set_mNumberEffectsCalled 0 (set_mEffectProcessCalled 0 c1)),
     [EvProcess frames st])
  else
    (({| status := STATUS_OK; fmqConsumed := samples; fmqProduced := samples |},
      Some (copySamples inb outb samples)), c1, []).
Proof.
  intros Hframes Hsize. unfold lvmProcess. unfold_monad. cbn.
  rewrite Hframes, Z.eqb_refl. cbn.
  destruct (Z.eqb_spec (inputFrameSize c) 0) as [|_]; [contradiction|]. cbn.
  destruct (drainBookkeeping samples c) as [avail c1]. cbn.
  destruct (mNumberEffectsCalled c1 >=? mNumberEffectsEnabled c1); cbn;
    [|reflexivity].
  destruct (LVM_Process _ _ _ _) as [[[|code] outb'] inst]; reflexivity.
Qed.

(** Evaluates the closed end-of-round test [called >= enabled]. *)
Ltac eval_round :=
  match goal with
  | |- context [?a >=? ?b] =>
      let v := eval vm_compute in (a >=? b) in change (a >=? b) with v
  end.

Ltac session_fields H :=
  destruct H as (Hty & Hen & Hbudget & Hdrain & Hcount & Hcalled & Hframes & Hsize).

Lemma observeProcess_running budget inb outb samples c :
  Running budget c ->
  (observeProcess inb outb samples c).1 =
    {| dataAvailable := true; engineInvoked := true; enabledAfter := 1 |} /\
  Running budget (observeProcess inb outb samples c).2.
Proof.
  intros H. session_fields H. unfold observeProcess.
  rewrite lvmProcess_valid by assumption.
  rewrite drainBookkeeping_enabled by assumption. cbn.
  rewrite Hcalled, Hcount. eval_round. cbn.
  destruct (LVM_Process _ _ _ _) as [[st outb'] inst]. cbn.
  split; [rewrite Hcount; reflexivity|]. unfold Running. cbn. auto 10.
Qed.

Lemma observeProcess_draining budget inb outb samples c :
  Draining budget c -> 0 < budget - samples -> 0 <= samples ->
  (observeProcess inb outb samples c).1 =
    {| dataAvailable := true; engineInvoked := true; enabledAfter := 1 |} /\
  Draining (budget - samples) (observeProcess inb outb samples c).2.
Proof.
  intros H Hleft Hpos. session_fields H. unfold observeProcess.
  rewrite lvmProcess_valid by assumption.
  rewrite drainBookkeeping_tail by (try assumption; lia). cbn.
  rewrite Hcalled, Hcount. eval_round. cbn.
  destruct (LVM_Process _ _ _ _) as [[st outb'] inst]. cbn.
  split; [rewrite Hcount; reflexivity|].
  unfold Draining. cbn. rewrite Hbudget. auto 10.
Qed.

Lemma observeProcess_drain_end budget inb outb samples c :
  Draining budget c -> budget - samples <= 0 -> 0 <= samples ->
  (observeProcess inb outb samples c).1 =
    {| dataAvailable := false; engineInvoked := true; enabledAfter := 0 |} /\
  Drained (observeProcess inb outb samples c).2.
Proof.
  intros H Hleft Hpos. session_fields H. unfold observeProcess.
  rewrite lvmProcess_valid by assumption.
  destruct (drainBookkeeping_end samples c Hty Hen ltac:(lia) Hpos)
    as (c1 & -> & Hf1 & Hen1 & Hinst1 & Hb1 & Hd1 & Hcalled1 & Hcount1).
  apply Z.eqb_neq in Hdrain. rewrite Hdrain, Hcount in Hcount1.
  rewrite Hcalled in Hcalled1.
  rewrite Hcalled1, Hcount1. eval_round. cbn.
  destruct (LVM_Process _ _ _ _) as [[st outb'] inst]. cbn.
  split; [rewrite Hcount1; reflexivity|]. unfold Drained, Idle. cbn.
  injection Hf1 as Hty1 _ _ Hfc1 Hfo1 Hfs1.
  rewrite ?Hty1, ?Hfc1, ?Hfo1, ?Hfs1, ?Hcount1. auto 10.
Qed.

Lemma observeProcess_drained inb outb samples c :
  Drained c -> 0 <= samples ->
  (observeProcess inb outb samples c).1 =
    {| dataAvailable := false; engineInvoked := true; enabledAfter := 0 |} /\
  Drained (observeProcess inb outb samples c).2.
Proof.
  intros [(Hty & Hen & Hbudget & Hcount & Hcalled & Hframes & Hsize) Hdrain] Hpos.
  unfold observeProcess.
  rewrite lvmProcess_valid by assumption.
  destruct (drainBookkeeping_end samples c Hty Hen ltac:(lia) Hpos)
    as (c1 & -> & Hf1 & Hen1 & Hinst1 & Hb1 & Hd1 & Hcalled1 & Hcount1).
  apply Z.eqb_eq in Hdrain. rewrite Hdrain, Hcount in Hcount1.
  rewrite Hcalled in Hcalled1.
  rewrite Hcalled1, Hcount1. eval_round. cbn.
  destruct (LVM_Process _ _ _ _) as [[st outb'] inst]. cbn.
  split; [rewrite Hcount1; reflexivity|]. unfold Drained, Idle. cbn.
  injection Hf1 as Hty1 _ _ Hfc1 Hfo1 Hfs1.
  rewrite ?Hty1, ?Hfc1, ?Hfo1, ?Hfs1, ?Hcount1. auto 10.
Qed.

(** *** A session: enable, process, disable, drain *)

Lemma totalSamples_nonneg calls :
  Forall (fun samples => 0 <= samples) calls -> 0 <= totalSamples calls.
Proof.
  induction 1 as [|s calls Hs _ IH]; cbn; [lia|].
  unfold totalSamples in IH. lia.
Qed.

Lemma enable_idle_running c r c' t :
  Idle c -> enable c = (r, c', t) ->
  Running (samplesToExit (mSamplesPerSecond c)) c'.
Proof.
  intros (Hty & Hen & Hbudget & Hcount & Hcalled & Hframes & Hsize) Hrun.
  destruct (enable_spec c r c' t Hen Hrun) as (Hf & _ & Hen' & _).
  destruct (enable_equalizer c r c' t Hty Hen Hrun) as (Hb & Hd & Hc & Hcl & _).
  injection Hf as Hty' _ _ Hfc Hfo Hfs.
  destruct (Z.leb_spec (mSamplesToExitCountEq c) 0) as [_|]; [|lia].
  unfold Running. rewrite Hty', Hfc, Hfo, Hfs, Hd, Hc, Hcl, eq_bit_cleared.
  repeat split; auto; lia.
Qed.

Lemma disable_running_draining budget c r c' t :
  Running budget c -> disable c = (r, c', t) -> Draining budget c'.
Proof.
  intros H Hrun. session_fields H.
  destruct (disable_spec c r c' t Hen Hrun)
    as (Hf & _ & Hen' & Hb & Hd & Hc & Hcl & _).
  injection Hf as Hty' _ _ Hfc Hfo Hfs. rewrite Hty in Hd.
  unfold Draining. rewrite Hty', Hfc, Hfo, Hfs, Hd, Hc, Hcl, Hb.
  pose proof (eq_bit_set (mEffectInDrain c)). auto 10.
Qed.

Lemma processAll_running budget inb outb calls : forall c,
  Running budget c -> Running budget (processAll inb outb calls c).
Proof.
  induction calls as [|samples calls IH]; intros c Hc; cbn; [exact Hc|].
  apply IH. apply observeProcess_running. exact Hc.
Qed.

Lemma observeProcesses_drained inb outb calls : forall c,
  Drained c -> Forall (fun samples => 0 <= samples) calls ->
  forall k obs,
    observeProcesses inb outb calls c !! k = Some obs ->
    obs = {| dataAvailable := false; engineInvoked := true; enabledAfter := 0 |}.
Proof.
  induction calls as [|samples calls IH]; intros c Hc Hpos k obs; cbn.
  - rewrite lookup_nil. discriminate.
  - apply Forall_cons in Hpos as [Hs Hpos].
    destruct (observeProcess_drained inb outb samples c Hc Hs) as [Ho Hc'].
    destruct (observeProcess inb outb samples c) as [o c']. cbn in Ho, Hc'.
    destruct k as [|k]; cbn.
    + intros [= <-]. exact Ho.
    + apply IH; assumption.
Qed.

Lemma observeProcesses_draining inb outb calls : forall budget c,
  Draining budget c -> Forall (fun samples => 0 <= samples) calls ->
  forall k obs,
    observeProcesses inb outb calls c !! k = Some obs ->
    obs =
      if totalSamples (take (S k) calls) <? budget
      then {| dataAvailable := true; engineInvoked := true; enabledAfter := 1 |}
      else {| dataAvailable := false; engineInvoked := true; enabledAfter := 0 |}.
Proof.
  induction calls as [|samples calls IH]; intros budget c Hc Hpos k obs;
    cbn [observeProcesses].
  - rewrite lookup_nil. discriminate.
  - apply Forall_cons in Hpos as [Hs Hpos].
    assert (Hsum : 0 <= totalSamples (take k calls))
      by (apply totalSamples_nonneg, Forall_take, Hpos).
    cbn [take totalSamples fold_right]. fold (totalSamples (take k calls)).
    destruct (Z.lt_ge_cases 0 (budget - samples)) as [Hleft|Hleft].
    + destruct (observeProcess_draining budget inb outb samples c Hc Hleft Hs)
        as [Ho Hc'].
      destruct (observeProcess inb outb samples c) as [o c']. cbn in Ho, Hc'.
      destruct k as [|k]; cbn [lookup list_lookup].
      * intros [= <-]. change (totalSamples (take 0 calls)) with 0.
        destruct (Z.ltb_spec (samples + 0) budget); [exact Ho|lia].
      * intros Hk. rewrite (IH _ _ Hc' Hpos k obs Hk).
        destruct (Z.ltb_spec (totalSamples (take (S k) calls)) (budget - samples));
          destruct (Z.ltb_spec (samples + totalSamples (take (S k) calls)) budget);
          try reflexivity; lia.
    + destruct (observeProcess_drain_end budget inb outb samples c Hc Hleft Hs)
        as [Ho Hc'].
      destruct (observeProcess inb outb samples c) as [o c']. cbn in Ho, Hc'.
      destruct (Z.ltb_spec (samples + totalSamples (take k calls)) budget); [lia|].
      destruct k as [|k]; cbn [lookup list_lookup].
      * intros [= <-]. exact Ho.
      * apply observeProcesses_drained; assumption.
Qed.

(** C1 (amended). An equalizer session at rest is enabled, processes
    any number of buffers, and is disabled: it is then in drain with the
    budget [samplesToExit] of its sample rate (0.1 * samplesPerSecond,
    truncated) and an enabled-effect count of 1.  For the process calls
    that follow, with [n] the samples handed in since [disable], the
    call included: while [n] is below the budget the call has data
    available and invokes the engine's process call, the count staying at
    1; from the call at which [n] reaches the budget onward every call
    marks data as unavailable and the count is 0, decremented once.
    Those calls, too, hand the buffer to the engine's process call: the
    count of called effects (0) has then reached the count of enabled
    effects (0), so no call of the sequence is a pass-through copy. *)
Theorem drain_after_disable c r1 c1 t1 inb outb before r2 c2 t2 after :
  Idle c ->
  enable c = (r1, c1, t1) ->
  disable (processAll inb outb before c1) = (r2, c2, t2) ->
  Forall (fun samples => 0 <= samples) after ->
  Draining (samplesToExit (mSamplesPerSecond c)) c2 /\
  forall k obs,
    observeProcesses inb outb after c2 !! k = Some obs ->
    obs =
      if totalSamples (take (S k) after) <? samplesToExit (mSamplesPerSecond c)
      then {| dataAvailable := true; engineInvoked := true; enabledAfter := 1 |}
      else {| dataAvailable := false; engineInvoked := true; enabledAfter := 0 |}.
Proof.
  intros Hidle Hen Hdis Hpos.
  assert (Hdrain : Draining (samplesToExit (mSamplesPerSecond c)) c2).
  { eapply disable_running_draining; [|exact Hdis].
    apply processAll_running. eapply enable_idle_running; eassumption. }
  split; [exact Hdrain|].
  apply observeProcesses_draining; assumption.
Qed.

(** *** The first-volume flag along any run of calls *)

Lemma mutate_frame op c r c' t :
  mutate op c = (r, c', t) ->
  mFirstVolume c' = mFirstVolume c /\ noSmoothingCalls t = [].
Proof.
  destruct op; cbn [mutate]; intros Hrun.
  - apply setEqualizerBandLevels_spec in Hrun. tauto.
  - apply setEqualizerPreset_spec in Hrun. tauto.
  - apply setVolumeStereo_spec in Hrun. tauto.
Qed.

Lemma run_call_track k c c' t :
  run_call k c = (c', t) ->
  firstVolumeTrack (mFirstVolume c) (noSmoothingCalls t) = Some (mFirstVolume c').
Proof.
  destruct k; cbn [run_call].
  - destruct (enable c) as [[r c1] t1] eqn:E. intros [= <- <-].
    destruct (mEnabled c) eqn:Hen.
    + rewrite enable_when_enabled in E by exact Hen.
      injection E as <- <- <-. reflexivity.
    + apply (enable_spec c r c1 t1 Hen E).
  - destruct (disable c) as [[r c1] t1] eqn:E. intros [= <- <-].
    destruct (mEnabled c) eqn:Hen.
    + apply (disable_spec c r c1 t1 Hen E).
    + rewrite disable_when_disabled in E by exact Hen.
      injection E as <- <- <-. reflexivity.
  - destruct (enableOperatingMode c) as [[r c1] t1] eqn:E. intros [= <- <-].
    apply (enableOperatingMode_spec c r c1 t1 E).
  - destruct (disableOperatingMode c) as [[r c1] t1] eqn:E. intros [= <- <-].
    apply (disableOperatingMode_spec c r c1 t1 E).
  - destruct (limitLevel c) as [[r c1] t1] eqn:E. intros [= <- <-].
    apply (limitLevel_spec c r c1 t1 E).
  - destruct (mutate op c) as [[r c1] t1] eqn:E. intros [= <- <-].
    apply mutate_frame in E as [-> ->]. reflexivity.
  - destruct (lvmProcess inb outb samples c) as [[r c1] t1] eqn:E. intros [= <- <-].
    apply lvmProcess_frame in E as (_ & _ & _ & -> & ->). reflexivity.
Qed.

Lemma run_calls_track ks : forall c c' t,
  run_calls ks c = (c', t) ->
  firstVolumeTrack (mFirstVolume c) (noSmoothingCalls t) = Some (mFirstVolume c').
Proof.
  induction ks as [|k ks IH]; intros c c' t; cbn [run_calls].
  - intros [= <- <-]. reflexivity.
  - destruct (run_call k c) as [c1 t1] eqn:E1.
    destruct (run_calls ks c1) as [c2 t2] eqn:E2. intros [= <- <-].
    rewrite noSmoothingCalls_app, firstVolumeTrack_app.
    rewrite (run_call_track k c c1 t1 E1). apply (IH c1 c2 t2 E2).
Qed.

Lemma firstVolumeTrack_after_success flag l1 l2 b :
  firstVolumeTrack flag (l1 ++ LVM_SUCCESS :: l2) = Some b -> l2 = [] /\ b = false.
Proof.
  rewrite firstVolumeTrack_app.
  destruct (firstVolumeTrack flag l1) as [[]|]; cbn; try discriminate.
  apply firstVolumeTrack_cleared.
Qed.

Lemma firstVolumeTrack_clearing l : forall flag,
  firstVolumeTrack flag l = Some false -> flag = false \/ In LVM_SUCCESS l.
Proof.
  induction l as [|st l IH]; intros flag; cbn.
  - intros [= ->]. auto.
  - destruct flag; [|discriminate]. intros H. apply IH in H as [H|H]; auto.
    destruct st; cbn in H; [auto|discriminate].
Qed.

(** *** Where the no-smoothing call is made *)

Lemma afterPush_quiet levelSaved t :
  noSmoothingCalls t = [] -> afterPush levelSaved t.
Proof.
  intros Hq t1 p st t2 ->. rewrite noSmoothingCalls_app in Hq. cbn in Hq.
  destruct (noSmoothingCalls t1); discriminate.
Qed.

Lemma afterPush_app levelSaved t t' :
  afterPush levelSaved t -> afterPush levelSaved t' ->
  afterPush levelSaved (t ++ t').
Proof.
  intros H H' t1 p st t2 Heq.
  apply app_eq_app in Heq as (l & [[-> Hl]|[-> Hl]]).
  - destruct l as [|e l]; cbn in Hl.
    + symmetry in Hl.
      destruct (H' [] p st t2 Hl) as (_ & t0 & Ht0).
      destruct t0; discriminate.
    + injection Hl as <- ->. exact (H t1 p st l eq_refl).
  - destruct (H' l p st t2 Hl) as (Hp & t0 & ->).
    split; [exact Hp|]. exists (t ++ t0). apply app_assoc.
Qed.

Lemma limitLevel_afterPush c r c' t :
  limitLevel c = (r, c', t) -> afterPush (mLevelSaved c) t.
Proof.
  unfold limitLevel. unfold_monad. engine_calls;
    try (intros [= <- <- <-]; apply afterPush_quiet; reflexivity).
  destruct (mFirstVolume c); engine_calls;
    try (intros [= <- <- <-]; apply afterPush_quiet; reflexivity);
    intros [= <- <- <-]; intros t1 p st t2 Heq;
    repeat (destruct t1 as [|? t1]; cbn in Heq; try discriminate);
    injection Heq as <- <- <- <- <-;
    (split; [eexists _, _; reflexivity|exists []; reflexivity]).
Qed.

Lemma enableOperatingMode_afterPush c r c' t :
  enableOperatingMode c = (r, c', t) -> afterPush (mLevelSaved c) t.
Proof.
  unfold enableOperatingMode. unfold_monad. engine_calls;
    try (intros [= <- <- <-]; apply afterPush_quiet; reflexivity).
  match goal with
  | |- context [limitLevel ?x] =>
      destruct (limitLevel x) as [[r1 c1] t1] eqn:E;
      apply limitLevel_afterPush in E
  end.
  intros [= <- <- <-].
  apply (afterPush_app _ [_; _]); [apply afterPush_quiet; reflexivity|exact E].
Qed.

Lemma disableOperatingMode_afterPush c r c' t :
  disableOperatingMode c = (r, c', t) -> afterPush (mLevelSaved c) t.
Proof.
  unfold disableOperatingMode. unfold_monad. engine_calls;
    try (intros [= <- <- <-]; apply afterPush_quiet; reflexivity).
  match goal with
  | |- context [limitLevel ?x] =>
      destruct (limitLevel x) as [[r1 c1] t1] eqn:E;
      apply limitLevel_afterPush in E
  end.
  intros [= <- <- <-].
  apply (afterPush_app _ [_; _]); [apply afterPush_quiet; reflexivity|exact E].
Qed.

Lemma enable_afterPush c r c' t :
  enable c = (r, c', t) -> afterPush (mLevelSaved c) t.
Proof.
  unfold enable. unfold_monad. cbn.
  destruct (mEnabled c); cbn;
    [intros [= <- <- <-]; apply afterPush_quiet; reflexivity|].
  destruct (mType c); cbn;
    try destruct (mSamplesToExitCountEq c <=? 0); cbn;
    match goal with
    | |- context [enableOperatingMode ?x] =>
        destruct (enableOperatingMode x) as [[r1 c1] t1] eqn:E;
        apply enableOperatingMode_afterPush in E
    end; intros [= <- <- <-]; exact E.
Qed.

Lemma disable_afterPush c r c' t :
  disable c = (r, c', t) -> afterPush (mLevelSaved c) t.
Proof.
  unfold disable. unfold_monad. cbn.
  destruct (mEnabled c); cbn;
    [|intros [= <- <- <-]; apply afterPush_quiet; reflexivity].
  destruct (mType c); cbn;
    match goal with
    | |- context [disableOperatingMode ?x] =>
        destruct (disableOperatingMode x) as [[r1 c1] t1] eqn:E;
        apply disableOperatingMode_afterPush in E
    end; intros [= <- <- <-]; exact E.
Qed.

Lemma run_call_afterPush k c c' t :
  run_call k c = (c', t) ->
  mLevelSaved c' = mLevelSaved c /\ afterPush (mLevelSaved c) t.
Proof.
  assert (Hsaved : forall c1, frame c1 = frame c -> mLevelSaved c1 = mLevelSaved c)
    by (intros c1 [= _ _ H _ _ _]; exact H).
  destruct k; cbn [run_call].
  - destruct (enable c) as [[r c1] t1] eqn:E. intros [= <- <-].
    split; [|eapply enable_afterPush; eassumption].
    destruct (mEnabled c) eqn:Hen.
    + rewrite enable_when_enabled in E by exact Hen.
      injection E as _ <- _. reflexivity.
    + apply Hsaved. apply (enable_spec c r c1 t1 Hen E).
  - destruct (disable c) as [[r c1] t1] eqn:E. intros [= <- <-].
    split; [|eapply disable_afterPush; eassumption].
    destruct (mEnabled c) eqn:Hen.
    + apply Hsaved. apply (disable_spec c r c1 t1 Hen E).
    + rewrite disable_when_disabled in E by exact Hen.
      injection E as _ <- _. reflexivity.
  - destruct (enableOperatingMode c) as [[r c1] t1] eqn:E. intros [= <- <-].
    split; [|eapply enableOperatingMode_afterPush; eassumption].
    apply Hsaved. apply (enableOperatingMode_spec c r c1 t1 E).
  - destruct (disableOperatingMode c) as [[r c1] t1] eqn:E. intros [= <- <-].
    split; [|eapply disableOperatingMode_afterPush; eassumption].
    apply Hsaved. apply (disableOperatingMode_spec c r c1 t1 E).
  - destruct (limitLevel c) as [[r c1] t1] eqn:E. intros [= <- <-].
    split; [|eapply limitLevel_afterPush; eassumption].
    apply Hsaved. apply (limitLevel_spec c r c1 t1 E).
  - destruct (mutate op c) as [[r c1] t1] eqn:E. intros [= <- <-].
    split; [|apply afterPush_quiet; apply (mutate_frame op c r c1 t1 E)].
    apply Hsaved. destruct op; cbn [mutate] in E.
    + apply setEqualizerBandLevels_spec in E. tauto.
    + apply setEqualizerPreset_spec in E. tauto.
    + apply setVolumeStereo_spec in E. tauto.
  - destruct (lvmProcess inb outb samples c) as [[r c1] t1] eqn:E.
    intros [= <- <-]. apply lvmProcess_frame in E as (Hf & _ & _ & _ & Hq).
    split; [apply Hsaved, Hf|apply afterPush_quiet, Hq].
Qed.

Lemma run_calls_afterPush ks : forall c c' t,
  run_calls ks c = (c', t) -> afterPush (mLevelSaved c) t.
Proof.
  induction ks as [|k ks IH]; intros c c' t; cbn [run_calls].
  - intros [= <- <-]. apply afterPush_quiet. reflexivity.
  - destruct (run_call k c) as [c1 t1] eqn:E1.
    destruct (run_calls ks c1) as [c2 t2] eqn:E2. intros [= <- <-].
    destruct (run_call_afterPush k c c1 t1 E1) as [Hsaved H1].
    apply afterPush_app; [exact H1|].
    rewrite <- Hsaved. apply (IH c1 c2 t2 E2).
Qed.

(** C7 (amended). Along any run of calls on a context,
    [LVM_SetVolumeNoSmoothing] is invoked only while the first-volume
    flag is set: never when the run starts with the flag cleared, and
    never again after an invocation that succeeded, which clears the flag;
    the flag is cleared by nothing else.  Every invocation is made by a
    volume application whose parameter read and push succeeded: it comes
    straight after a successful [LVM_GetControlParameters] and a
    successful [LVM_SetControlParameters] of the very block it is given,
    a block computed by [limitLevel] for the saved level, whatever that
    level is.  A [limitLevel] whose parameter read and push succeed while
    the flag is set invokes it once, after the push; when the invocation
    succeeds the result is [SUCCESS] and the flag is cleared, and when it
    fails the result is [ERROR_EFFECT_LIB_ERROR] and the flag stays set
    (so the next volume application repeats it).  A [limitLevel] whose
    read or push fails does not invoke it. *)
Theorem noSmoothing_while_first_volume ks c c' t :
  run_calls ks c = (c', t) ->
  (mFirstVolume c = false -> noSmoothingCalls t = []) /\
  (forall t1 p t2, t = t1 ++ EvSetVolumeNoSmoothing p LVM_SUCCESS :: t2 ->
     noSmoothingCalls t2 = [] /\ mFirstVolume c' = false) /\
  (mFirstVolume c' = false ->
     mFirstVolume c = false \/ In LVM_SUCCESS (noSmoothingCalls t)) /\
  (forall t1 p st t2, t = t1 ++ EvSetVolumeNoSmoothing p st :: t2 ->
     (exists gains p0, p = limitLevelParams (mLevelSaved c) gains p0) /\
     exists t0, t1 = t0 ++ [EvGetControlParameters LVM_SUCCESS;
                            EvSetControlParameters p LVM_SUCCESS]) /\
  (forall p inst inst' st inst'',
     mFirstVolume c = true ->
     LVM_GetControlParameters (mInstance c) = (LVM_SUCCESS, p, inst) ->
     LVM_SetControlParameters inst
       (limitLevelParams (mLevelSaved c) (mBandGaindB c) p) = (LVM_SUCCESS, inst') ->
     LVM_SetVolumeNoSmoothing inst'
       (limitLevelParams (mLevelSaved c) (mBandGaindB c) p) = (st, inst'') ->
     exists c1,
       limitLevel c =
         (if is_LVM_SUCCESS st then SUCCESS else ERROR_EFFECT_LIB_ERROR, c1,
          [EvGetControlParameters LVM_SUCCESS;
           EvSetControlParameters
             (limitLevelParams (mLevelSaved c) (mBandGaindB c) p) LVM_SUCCESS;
           EvSetVolumeNoSmoothing
             (limitLevelParams (mLevelSaved c) (mBandGaindB c) p) st]) /\
       mFirstVolume c1 = negb (is_LVM_SUCCESS st)) /\
  (forall r c1 t1,
     limitLevel c = (r, c1, t1) ->
     (forall p, ~ In (EvSetControlParameters p LVM_SUCCESS) t1) ->
     noSmoothingCalls t1 = [] /\ r = ERROR_EFFECT_LIB_ERROR /\
     mFirstVolume c1 = mFirstVolume c).
Proof.
  intros Hrun. pose proof (run_calls_track ks c c' t Hrun) as Htrack.
  split; [|split; [|split; [|split; [|split]]]].
  - intros Hflag. rewrite Hflag in Htrack.
    apply firstVolumeTrack_cleared in Htrack. tauto.
  - intros t1 p t2 ->. rewrite noSmoothingCalls_app in Htrack. cbn in Htrack.
    apply firstVolumeTrack_after_success in Htrack. exact Htrack.
  - intros Hflag. rewrite Hflag in Htrack.
    apply firstVolumeTrack_clearing in Htrack. exact Htrack.
  - exact (run_calls_afterPush ks c c' t Hrun).
  - intros p inst inst' st inst'' Hflag Hget Hset Hvol.
    unfold limitLevel. unfold_monad. cbn. rewrite Hget. cbn. rewrite Hset. cbn.
    rewrite Hflag. cbn. rewrite Hvol.
    destruct st as [|code]; cbn; eexists; (split; [reflexivity|]); cbn;
      rewrite ?Hflag; reflexivity.
  - intros r c1 t1. unfold limitLevel. unfold_monad. engine_calls.
    + destruct (mFirstVolume c); engine_calls; intros [= <- <- <-] Hno;
        exfalso; eapply Hno; right; left; reflexivity.
    + intros [= <- <- <-] _. cbn. auto.
    + intros [= <- <- <-] _. cbn. auto.
Qed.

(** C4 (amended). [enable] on an enabled session and [disable] on a
    session that is not enabled are both rejected with the result code
    [ERROR_ILLEGAL_PARAMETER] (the illegal-parameter class, not an
    illegal-state one); the context is left exactly as it was and no
    engine call is made. *)
Theorem enable_disable_rejected_unchanged :
  (forall c, mEnabled c = true ->
     enable c = (ERROR_ILLEGAL_PARAMETER, c, []) /\
     RetCode_kind ERROR_ILLEGAL_PARAMETER = Some IllegalParameter) /\
  (forall c, mEnabled c = false ->
     disable c = (ERROR_ILLEGAL_PARAMETER, c, []) /\
     RetCode_kind ERROR_ILLEGAL_PARAMETER = Some IllegalParameter).
Proof.
  split; intros c H; (split; [|reflexivity]).
  - apply enable_when_enabled, H.
  - apply disable_when_disabled, H.
Qed.

(** C9. When the engine rejects a parameter push during [enable] (the
    operating-mode push or the level-limit push), [enable] returns
    [ERROR_EFFECT_LIB_ERROR] but the session is left marked enabled: the
    pre-call state is not restored, and a further [enable] is rejected as
    already enabled without touching the context. *)
Theorem enable_rejected_push_stays_enabled c r c' t :
  mEnabled c = false -> enable c = (r, c', t) -> push_rejected t = true ->
  r = ERROR_EFFECT_LIB_ERROR /\ mEnabled c' = true /\ c' <> c /\
  enable c' = (ERROR_ILLEGAL_PARAMETER, c', []).
Proof.
  intros Hen Hrun Hrej.
  destruct (enable_spec c r c' t Hen Hrun) as (_ & _ & Hen' & Hret & _).
  rewrite (push_rejected_engine_failed t Hrej) in Hret.
  split; [exact Hret|]. split; [exact Hen'|]. split.
  - intros ->. congruence.
  - apply enable_when_enabled, Hen'.
Qed.

End ContextFacts.

(** ** Runs on the reference configuration *)

Section ReferenceRuns.
Import Reference.

(** The drain budget is a tenth of the sample rate at the usual rates. *)
Lemma samplesToExit_usual_rates :
  Forall (fun rate => samplesToExit rate = rate / 10)
    [8000; 11025; 16000; 22050; 32000; 44100; 48000; 88200; 96000; 192000].
Proof. repeat constructor. Qed.

Lemma enable_disable_rejected_unchanged_witness :
  let c := set_mEnabled true (fresh 44100 []) in
  enable c = (ERROR_ILLEGAL_PARAMETER, c, []) /\
  disable (fresh 44100 []) = (ERROR_ILLEGAL_PARAMETER, fresh 44100 [], []).
Proof.
  split.
  - apply (proj1 enable_disable_rejected_unchanged). reflexivity.
  - apply (proj2 enable_disable_rejected_unchanged). reflexivity.
Defined.

(** C4, as stated, fails: a second [enable] is answered with the
    illegal-parameter code, and so is a [disable] that no [enable]
    preceded. *)
Lemma enable_twice_not_illegal_state :
  let '(_, c1, _) := enable (fresh 44100 []) in
  RetCode_kind (enable c1).1.1 <> Some IllegalState /\
  RetCode_kind (disable (fresh 44100 [])).1.1 <> Some IllegalState.
Proof. vm_compute. split; discriminate. Qed.

Lemma enable_rejected_push_stays_enabled_witness :
  exists r c' t,
    enable (fresh 44100 [LVM_SUCCESS; LVM_FAILURE 1]) = (r, c', t) /\
    r = ERROR_EFFECT_LIB_ERROR /\ mEnabled c' = true /\
    c' <> fresh 44100 [LVM_SUCCESS; LVM_FAILURE 1] /\
    enable c' = (ERROR_ILLEGAL_PARAMETER, c', []).
Proof.
  eexists _, _, _. split; [vm_compute; reflexivity|].
  eapply enable_rejected_push_stays_enabled;
    [reflexivity | vm_compute; reflexivity | reflexivity].
Defined.

Lemma drain_after_disable_witness :
  exists c2,
    Draining (samplesToExit 44100) c2 /\
    forall k obs,
      observeProcesses inb outb [3000; 3000; 100] c2 !! k = Some obs ->
      obs =
        if totalSamples (take (S k) [3000; 3000; 100]) <? samplesToExit 44100
        then {| dataAvailable := true; engineInvoked := true; enabledAfter := 1 |}
        else {| dataAvailable := false; engineInvoked := true; enabledAfter := 0 |}.
Proof.
  eexists.
  eapply (drain_after_disable (fresh 44100 []) _ _ _ inb outb [2000]).
  - unfold Idle. cbn. repeat split; first [lia | reflexivity | discriminate].
  - vm_compute. reflexivity.
  - vm_compute. reflexivity.
  - repeat constructor; lia.
Defined.

(** C1, as stated, fails: in the scenario of the specification (44100 Hz,
    enable, disable, then 3000 samples twice) the second call marks data
    as unavailable, yet it is not a pass-through: the engine's process
    call is made and the output buffer holds the engine's output. *)
Lemma drain_end_is_not_pass_through :
  let '(_, c1, _) := enable (fresh 44100 []) in
  let '(_, c2, _) := disable c1 in
  let c3 := (observeProcess inb outb 3000 c2).2 in
  (drainBookkeeping 3000 c3).1 = false /\
  let '(res, _, t) := lvmProcess (Some inb) (Some outb) 3000 c3 in
  processInvoked t = true /\ res.2 = Some (map SFopp inb) /\
  ~ passThrough inb outb 3000 res t.
Proof.
  vm_compute. split; [reflexivity|]. split; [reflexivity|]. split; [reflexivity|].
  intros [H _]. discriminate.
Qed.

Lemma setEqualizerBandLevels_round_trip_witness :
  (exists c' t,
     setEqualizerBandLevels
       [{| index := 3; levelMb := 100 |}; {| index := 1; levelMb := 300 |};
        {| index := 3; levelMb := -200 |}] garbage (fresh 44100 []) = (SUCCESS, c', t) /\
     getEqualizerBandLevels c' !! Z.to_nat 1 = Some {| index := 1; levelMb := 300 |}) /\
  setEqualizerBandLevels
    [{| index := 1; levelMb := 300 |}; {| index := 5; levelMb := 0 |}]
    garbage (fresh 44100 []) = (ERROR_ILLEGAL_PARAMETER, fresh 44100 [], []).
Proof.
  split.
  - eexists _, _. split; [vm_compute; reflexivity|].
    refine (proj1 setEqualizerBandLevels_round_trip
              [{| index := 3; levelMb := 100 |}; {| index := 1; levelMb := 300 |};
               {| index := 3; levelMb := -200 |}] garbage (fresh 44100 []) _ _ _
              [{| index := 3; levelMb := 100 |}] {| index := 1; levelMb := 300 |}
              [{| index := 3; levelMb := -200 |}] _ _);
      [vm_compute; reflexivity | reflexivity | repeat constructor; discriminate].
  - apply (proj2 (proj2 setEqualizerBandLevels_round_trip) _ garbage (fresh 44100 [])
             {| index := 5; levelMb := 0 |}).
    + apply list_elem_of_In. cbn. auto.
    + unfold indexInRange. cbn. lia.
Defined.

Lemma mutation_commits_only_after_push_witness :
  exists r c' t,
    mutate (SetPreset 1 garbage) (fresh 44100 [LVM_SUCCESS; LVM_FAILURE 3]) = (r, c', t) /\
    (engine_failed t = true ->
     r = ERROR_EFFECT_LIB_ERROR /\
     mirror c' = mirror (fresh 44100 [LVM_SUCCESS; LVM_FAILURE 3])) /\
    engine_failed t = true.
Proof.
  eexists _, _, _. split; [vm_compute; reflexivity|]. split; [|reflexivity].
  refine (proj1 (mutation_commits_only_after_push (SetPreset 1 garbage)
                   (fresh 44100 [LVM_SUCCESS; LVM_FAILURE 3]) _ _ _ _)).
  vm_compute. reflexivity.
Defined.

Lemma limitLevel_zero_gains_witness :
  exists r c' p' st rest,
    limitLevel (fresh_with (-10) flat 44100 []) =
      (r, c', EvGetControlParameters LVM_SUCCESS :: EvSetControlParameters p' st :: rest) /\
    p' = limitLevelParams (-10) flat default_params /\
    VC_EffectLevel p' = -10.
Proof.
  apply (proj2 (limitLevel_zero_gains (fresh_with (-10) flat 44100 []) default_params
                  {| eng_params := default_params; eng_script := [] |}
                  ltac:(intros [|[|[|[|[|i]]]]] Hi; first [reflexivity | cbn in Hi; lia])
                  ltac:(cbn; lia) ltac:(cbn; lia) ltac:(reflexivity))).
Defined.

(** C6, as stated, fails for a positive saved level, which satisfies
    [savedLevel > -96]: with every band at 0 and the equalizer on, the gain
    correction is the saved level (5) and the level pushed is 0. *)
Lemma limitLevel_positive_saved_level :
  let '(_, c, _) := enable (fresh_with 5 flat 44100 []) in
  flatGains (mBandGaindB c) /\ -96 < mLevelSaved c /\
  gainCorrection (maxLevelRound true (mBandGaindB c)) (mLevelSaved c) <> 0 /\
  exists r c' p rest,
    limitLevel c =
      (r, c', EvGetControlParameters LVM_SUCCESS ::
              EvSetControlParameters p LVM_SUCCESS :: rest) /\
    EQNB_OperatingMode p = LVM_EQNB_ON /\
    VC_EffectLevel p = 0 /\ VC_EffectLevel p <> mLevelSaved c.
Proof.
  vm_compute. split; [intros [|[|[|[|[|i]]]]] Hi; first [reflexivity | lia]|].
  split; [reflexivity|]. split; [discriminate|].
  eexists _, _, _, _. split; [reflexivity|]. repeat split. discriminate.
Qed.

Lemma noSmoothing_while_first_volume_witness :
  exists c' t,
    run_calls [CallEnable; CallProcess (Some inb) (Some outb) 3000; CallDisable;
               CallMutate (SetPreset 2 garbage); CallEnable]
      (fresh 44100 []) = (c', t) /\
    noSmoothingCalls t = [LVM_SUCCESS] /\
    (mFirstVolume c' = false ->
     mFirstVolume (fresh 44100 []) = false \/ In LVM_SUCCESS (noSmoothingCalls t)).
Proof.
  eexists _, _. split; [vm_compute; reflexivity|]. split; [reflexivity|].
  refine (proj1 (proj2 (proj2 (noSmoothing_while_first_volume
            [CallEnable; CallProcess (Some inb) (Some outb) 3000; CallDisable;
             CallMutate (SetPreset 2 garbage); CallEnable]
            (fresh 44100 []) _ _ _)))).
  vm_compute. reflexivity.
Defined.

(** C7, as stated, fails: when the engine refuses the no-smoothing call
    of the first volume application, the flag stays set and the next
    volume application invokes it again; the call is made twice. *)
Lemma noSmoothing_invoked_twice :
  let script := [LVM_SUCCESS; LVM_SUCCESS; LVM_SUCCESS; LVM_SUCCESS; LVM_FAILURE 1] in
  let '(_, t) := run_calls [CallEnable; CallLimitLevel] (fresh 44100 script) in
  noSmoothingCalls t = [LVM_FAILURE 1; LVM_SUCCESS] /\
  length (noSmoothingCalls t) <> 1%nat.
Proof. vm_compute. split; [reflexivity|discriminate]. Qed.

Lemma setEqualizerBandLevels_omitted_bands_witness :
  exists c' t,
    setEqualizerBandLevels [{| index := 1; levelMb := 300 |}] garbage
      (fresh 44100 []) = (SUCCESS, c', t) /\
    mBandGaindB c' !! 0%nat = Some (garbage 0%nat) /\
    (mBandGaindB (fresh 44100 []) !! 0%nat <> Some (garbage 0%nat) ->
     mBandGaindB c' !! 0%nat <> mBandGaindB (fresh 44100 []) !! 0%nat).
Proof.
  eexists _, _. split; [vm_compute; reflexivity|].
  refine (proj1 (proj2 (setEqualizerBandLevels_omitted_bands
                          [{| index := 1; levelMb := 300 |}] garbage
                          (fresh 44100 []) _ _ _)) 0%nat _ _).
  - vm_compute. reflexivity.
  - cbn. lia.
  - repeat constructor. discriminate.
Defined.

(** The band definitions pushed hold 16-bit gains: a level of 70000 and
    an indeterminate slot value of -40000 reach the engine as 4464 and
    25536, while the mirror keeps both as they are. *)
Lemma pushed_gains_are_narrowed :
  let '(r, c', t) :=
    setEqualizerBandLevels [{| index := 0; levelMb := 70000 |}] (fun _ => -40000)
      (fresh 44100 []) in
  r = SUCCESS /\ mBandGaindB c' = [70000; -40000; -40000; -40000; -40000] /\
  exists p,
    t = [EvGetControlParameters LVM_SUCCESS; EvSetControlParameters p LVM_SUCCESS] /\
    map Gain (pEQNB_BandDefinition p) = [4464; 25536; 25536; 25536; 25536].
Proof.
  vm_compute. split; [reflexivity|]. split; [reflexivity|].
  eexists. split; reflexivity.
Qed.

End ReferenceRuns.

(** ** Further properties of GainMath *)

Module GainMathMore.
Import GainMath GainMathFacts.

(** The scan normalises a non-zero value: it shifts until bit 31 is set
    and counts the shifts. *)
Lemma leading_bit_scan_normalises (m : nat) : forall r,
  2 ^ (31 - Z.of_nat m) <= r -> r < 2 ^ 32 -> (m <= 31)%nat ->
  exists k, 0 <= k <= Z.of_nat m /\ 2 ^ 31 <= r * 2 ^ k /\ r * 2 ^ k < 2 ^ 32 /\
    forall (n : nat) s, k <= Z.of_nat n -> 0 <= s -> s + k <= 32 ->
      leading_bit_scan n s r = (s + k, r * 2 ^ k).
Proof.
  induction m as [|m IH]; intros r Hlo Hhi Hm.
  - exists 0. change (2 ^ (31 - Z.of_nat 0)) with (2 ^ 31) in Hlo.
    rewrite Z.mul_1_r. repeat split; try lia.
    intros n s _ Hs Hs32. rewrite Z.add_0_r.
    destruct n as [|n]; [reflexivity|].
    destruct (Z.eq_dec s 32) as [->|Hne]; [apply leading_bit_scan_stop|].
    rewrite leading_bit_scan_step by lia.
    destruct (Z.ltb_spec r (2 ^ 31)); [lia|reflexivity].
  - destruct (Z.lt_ge_cases r (2 ^ 31)) as [Hlt|Hge].
    + assert (Hpow : 2 ^ (31 - Z.of_nat m) = 2 * 2 ^ (31 - Z.of_nat (S m))).
      { replace (31 - Z.of_nat m) with (1 + (31 - Z.of_nat (S m))) by lia.
        rewrite Z.pow_add_r by lia. reflexivity. }
      assert (Hr0 : 0 < r).
      { pose proof (Z.pow_pos_nonneg 2 (31 - Z.of_nat (S m))). lia. }
      destruct (IH (2 * r) ltac:(lia) ltac:(lia) ltac:(lia))
        as (k & Hk & Hn1 & Hn2 & Hscan).
      exists (k + 1).
      assert (Hmul : r * 2 ^ (k + 1) = 2 * r * 2 ^ k).
      { rewrite Z.pow_add_r by lia. change (2 ^ 1) with 2. lia. }
      rewrite Hmul. repeat split; try lia.
      intros n s Hn Hs Hs32. destruct n as [|n]; [lia|].
      rewrite leading_bit_scan_step by lia.
      destruct (Z.ltb_spec r (2 ^ 31)); [|lia].
      rewrite Hscan by lia. f_equal. lia.
    + exists 0. rewrite Z.mul_1_r. repeat split; try lia.
      intros n s _ Hs Hs32. rewrite Z.add_0_r.
      destruct n as [|n]; [reflexivity|].
      destruct (Z.eq_dec s 32) as [->|Hne]; [apply leading_bit_scan_stop|].
      rewrite leading_bit_scan_step by lia.
      destruct (Z.ltb_spec r (2 ^ 31)); [lia|reflexivity].
Qed.

Lemma LVC_ToDB_range x : -3077 <= LVC_ToDB_s32Tos16 x <= 91.
Proof.
  rewrite LVC_ToDB_unfold.
  pose proof (leading_bit_scan_count 32 0 (to_uint32 x)) as Hc.
  rewrite db_of_scan_closed by lia.
  pose proof (interp_range _ (small_remainder_range
                (snd (leading_bit_scan 32 0 (to_uint32 x))))). lia.
Qed.

(** X1. Doubling a magnitude below [2^31] raises the conversion by
    exactly 96, six decibels in Q11.4; the result always lies between
    -3077 and 91, so none of the 16-bit conversions wraps. *)
Theorem LVC_ToDB_doubling :
  (forall v, 0 < v -> v < 2 ^ 31 ->
     LVC_ToDB_s32Tos16 (to_int32 (2 * v)) = LVC_ToDB_s32Tos16 (to_int32 v) + 96) /\
  (forall x, -3077 <= LVC_ToDB_s32Tos16 x <= 91).
Proof.
  split; [|exact LVC_ToDB_range].
  intros v Hv0 Hv. rewrite !LVC_ToDB_unfold, !to_uint32_to_int32.
  rewrite !to_uint32_small by lia.
  destruct (leading_bit_scan_normalises 31 (2 * v) ltac:(cbn; lia) ltac:(lia) ltac:(lia))
    as (k & Hk & _ & _ & Hscan).
  rewrite (leading_bit_scan_step 31 0 v) by lia.
  destruct (Z.ltb_spec v (2 ^ 31)); [|lia].
  rewrite (Hscan 32%nat 0) by lia. rewrite (Hscan 31%nat (0 + 1)) by lia.
  cbn [fst snd]. rewrite !db_of_scan_closed by lia. lia.
Qed.

Lemma LVC_ToDB_doubling_witness :
  LVC_ToDB_s32Tos16 (to_int32 (2 * 1000)) = LVC_ToDB_s32Tos16 (to_int32 1000) + 96.
Proof. apply (proj1 LVC_ToDB_doubling 1000); lia. Defined.

(** [vol << 7] in 32 bits keeps the low 25 bits of [vol]. *)
Lemma shifted_volume vol :
  to_uint32 (Z.shiftl (to_uint32 vol) 7) = (vol mod 2 ^ 25) * 2 ^ 7.
Proof.
  unfold to_uint32. rewrite Z.shiftl_mul_pow2 by lia.
  change (2 ^ 32) with (2 ^ 25 * 2 ^ 7).
  rewrite Zmult_mod_distr_r. f_equal.
  apply Z.mod_mod_divide. exists (2 ^ 7). reflexivity.
Qed.

Lemma VolToDb_unfold vol :
  VolToDb vol =
  Z.max (-96) (Z.shiftr (LVC_ToDB_s32Tos16 ((vol mod 2 ^ 25) * 2 ^ 7) + 8) 4).
Proof.
  unfold VolToDb.
  pose proof (LVC_ToDB_range (to_int32 (to_uint32 (Z.shiftl (to_uint32 vol) 7)))) as Hr.
  assert (Heq : LVC_ToDB_s32Tos16 (to_int32 (to_uint32 (Z.shiftl (to_uint32 vol) 7)))
                = LVC_ToDB_s32Tos16 ((vol mod 2 ^ 25) * 2 ^ 7)).
  { pose proof (Z.mod_pos_bound vol (2 ^ 25) ltac:(lia)).
    apply Z.le_antisymm; apply LVC_ToDB_monotone;
      rewrite to_uint32_to_int32,
        (to_uint32_small (to_uint32 _)) by apply to_uint32_range;
      rewrite shifted_volume, (to_uint32_small (vol mod 2 ^ 25 * 2 ^ 7)) by lia;
      lia. }
  rewrite Heq in *.
  set (d := LVC_ToDB_s32Tos16 (vol mod 2 ^ 25 * 2 ^ 7)) in *.
  rewrite (to_int16_small d) by lia.
  assert (Hs : -192 <= Z.shiftr (d + 8) 4 <= 6).
  { rewrite Z.shiftr_div_pow2 by lia. change (2 ^ 4) with 16.
    split; [apply Z.div_le_lower_bound; lia|].
    assert (d + 8 < 7 * 16) by lia.
    assert ((d + 8) / 16 < 7) by (apply Z.div_lt_upper_bound; lia). lia. }
  rewrite (to_int16_small (Z.shiftr (d + 8) 4)) by lia.
  destruct (Z.ltb_spec (Z.shiftr (d + 8) 4) (-96)); lia.
Qed.

Lemma VolToDb_range vol : -96 <= VolToDb vol <= 6.
Proof.
  rewrite VolToDb_unfold.
  pose proof (LVC_ToDB_range ((vol mod 2 ^ 25) * 2 ^ 7)) as Hr.
  rewrite Z.shiftr_div_pow2 by lia. change (2 ^ 4) with 16.
  assert ((LVC_ToDB_s32Tos16 (vol mod 2 ^ 25 * 2 ^ 7) + 8) / 16 < 7)
    by (apply Z.div_lt_upper_bound; lia).
  lia.
Qed.

(** X2. [VolToDb] never exceeds 6 and is non-decreasing on volumes below
    [2^25]; 0 maps to the floor -96 and [2^24] (unity in Q8.24) to 0. *)
Theorem VolToDb_monotone_below_wrap :
  (forall vol, VolToDb vol <= 6) /\
  (forall v w, 0 <= v -> v <= w -> w < 2 ^ 25 -> VolToDb v <= VolToDb w) /\
  VolToDb 0 = -96 /\ VolToDb (2 ^ 24) = 0.
Proof.
  split; [|split; [|split; reflexivity]].
  - intros vol. apply VolToDb_range.
  - intros v w Hv Hvw Hw. rewrite !VolToDb_unfold.
    rewrite !Z.mod_small by lia.
    assert (Hm : LVC_ToDB_s32Tos16 (v * 2 ^ 7) <= LVC_ToDB_s32Tos16 (w * 2 ^ 7)).
    { apply LVC_ToDB_monotone. rewrite !to_uint32_small by lia. lia. }
    rewrite !Z.shiftr_div_pow2 by lia.
    apply Z.max_le_compat_l. apply Z.div_le_mono; lia.
Qed.

Lemma VolToDb_monotone_below_wrap_witness : VolToDb 1000 <= VolToDb 16777216.
Proof. apply (proj1 (proj2 VolToDb_monotone_below_wrap)); lia. Defined.

(** X3. Only the low 25 bits of the volume count: [vol << 7] wraps at 32
    bits, so a volume and its remainder modulo [2^25] convert alike, and
    [2^25] itself converts like 0, to the floor of -96. *)
Theorem VolToDb_wraps :
  (forall vol, VolToDb vol = VolToDb (vol mod 2 ^ 25)) /\
  VolToDb (2 ^ 25) = -96.
Proof.
  split; [|reflexivity].
  intros vol. rewrite (VolToDb_unfold vol), (VolToDb_unfold (vol mod 2 ^ 25)).
  rewrite Z.mod_mod by lia. reflexivity.
Qed.

End GainMathMore.

(** ** Further properties of the context *)

Section LevelLimiterMore.
Context {BT : BundleTypes} {Inst : Type} {LVM : LVM_Library Inst}.
Import CFloat.

(** *** Signs through the floating-point operations *)















End LevelLimiterMore.

(** *** lvmProcess: argument checks, outcome, pass-through copy *)

Ltac split_fields H :=
  destruct H as (Hty & Hen & Hbudget & Hdrain & Hcount & Hcalled & Hframes & Hsize).

Section ProcessMore.
Context {BT : BundleTypes} {Inst : Type} {LVM : LVM_Library Inst}.
Implicit Types (c : BundleContext Inst) (t : list Event).

(** X6. [lvmProcess] checks its arguments before it touches anything: a
    null input or output buffer gives [EX_NULL_POINTER], unequal input
    and output frame counts or a zero frame size give [EX_ILLEGAL_STATE];
    in each case nothing is consumed or produced, the context and the
    output buffer are unchanged and the engine is not called. *)
Theorem lvmProcess_rejects_arguments inb outb samples c :
  (inb = None \/ outb = None ->
   lvmProcess inb outb samples c =
   ({| status := EX_NULL_POINTER; fmqConsumed := 0; fmqProduced := 0 |}, outb, c, [])) /\
  (is_Some inb -> is_Some outb ->
   inputFrameCount c <> outputFrameCount c \/ inputFrameSize c = 0 ->
   lvmProcess inb outb samples c =
   ({| status := EX_ILLEGAL_STATE; fmqConsumed := 0; fmqProduced := 0 |}, outb, c, [])).
Proof.
  split.
  - intros [-> | ->]; [reflexivity|]. destruct inb; reflexivity.
  - intros [inbuf ->] [outbuf ->] Hbad. unfold lvmProcess. unfold_monad. cbn.
    destruct (Z.eqb_spec (inputFrameCount c) (outputFrameCount c)) as [Heq|Hne];
      cbn; [|reflexivity].
    destruct Hbad as [Hbad|Hbad]; [contradiction|].
    rewrite Hbad. reflexivity.
Qed.

Lemma copySamples_lookup inb outb (n j : nat) :
  (n <= length inb)%nat -> (n <= length outb)%nat ->
  copySamples inb outb (Z.of_nat n) !! j =
  if decide (j < n)%nat then inb !! j else outb !! j.
Proof.
  intros Hin Hout. unfold copySamples. rewrite Nat2Z.id.
  destruct (decide (j < n)%nat) as [Hj|Hj].
  - assert (Hmem : j ∈ seq 0 n) by (apply elem_of_seq; lia).
    apply list_elem_of_split_r in Hmem as (l1 & l2 & -> & Hnot).
    rewrite (writes_last (fun i : nat => i) (fun i => inb !!! i) l1 j l2 outb).
    + symmetry. apply list_lookup_lookup_total_lt. lia.
    + lia.
    + rewrite Forall_forall. intros y Hy ->. exact (Hnot Hy).
  - apply (writes_untouched (fun i : nat => i) (fun i => inb !!! i)).
    rewrite Forall_forall. intros y Hy ->. apply elem_of_seq in Hy. lia.
Qed.

(** X7. The pass-through loop copies the first [samples] samples of the
    input over the output and leaves the rest of the output as it was. *)
Theorem copySamples_prefix inb outb samples :
  0 <= samples -> samples <= Z.of_nat (length inb) ->
  samples <= Z.of_nat (length outb) ->
  copySamples inb outb samples =
  take (Z.to_nat samples) inb ++ drop (Z.to_nat samples) outb.
Proof.
  intros H0 Hin Hout.
  rewrite <- (Z2Nat.id samples) at 1 by exact H0.
  set (n := Z.to_nat samples).
  assert (Hn1 : (n <= length inb)%nat) by lia.
  assert (Hn2 : (n <= length outb)%nat) by lia.
  apply list_eq. intros j. rewrite copySamples_lookup by assumption.
  destruct (decide (j < n)%nat) as [Hj|Hj].
  - rewrite lookup_app_l by (rewrite length_take; lia).
    rewrite lookup_take_lt by exact Hj. reflexivity.
  - rewrite lookup_app_r by (rewrite length_take; lia).
    rewrite length_take, lookup_drop. f_equal. lia.
Qed.

(** X8. A call of [lvmProcess] that passes the argument checks makes at
    most one engine call.  Once the count of called effects has reached
    the count of enabled effects (after the bookkeeping of this call),
    it calls [LVM_Process] on the whole buffer and restarts the round
    (called count and called mask reset to 0); the status is [STATUS_OK]
    with all samples consumed and produced when the engine succeeds, and
    [EX_UNSUPPORTED_OPERATION] with none when it fails, the bookkeeping
    staying committed.  Otherwise it copies the input to the output and
    reports all samples consumed and produced. *)
Theorem lvmProcess_outcome inb outb samples c res c' t :
  inputFrameCount c = outputFrameCount c -> inputFrameSize c <> 0 ->
  lvmProcess (Some inb) (Some outb) samples c = (res, c', t) ->
  let c1 := (drainBookkeeping samples c).2 in
  if mNumberEffectsCalled c1 >=? mNumberEffectsEnabled c1 then
    exists st outb',
      LVM_Process (mInstance c) inb outb (frameCount samples (inputFrameSize c))
        = (st, outb', mInstance c') /\
      t = [EvProcess (frameCount samples (inputFrameSize c)) st] /\
      res =
        (if is_LVM_SUCCESS st
         then {| status := STATUS_OK; fmqConsumed := samples; fmqProduced := samples |}
         else {| status := EX_UNSUPPORTED_OPERATION; fmqConsumed := 0; fmqProduced := 0 |},
         Some outb') /\
      mNumberEffectsCalled c' = 0 /\ mEffectProcessCalled c' = 0 /\
      mNumberEffectsEnabled c' = mNumberEffectsEnabled c1 /\
      mSamplesToExitCountEq c' = mSamplesToExitCountEq c1
  else
    t = [] /\ c' = c1 /\
    res = ({| status := STATUS_OK; fmqConsumed := samples; fmqProduced := samples |},
           Some (copySamples inb outb samples)).
Proof.
  intros Hframes Hsize. rewrite lvmProcess_valid by assumption. cbv zeta.
  destruct (drainBookkeeping samples c) as [avail c1] eqn:Ebook.
  apply drainBookkeeping_frame in Ebook as (_ & _ & _ & _ & Hinst).
  change ((avail, c1).2) with c1.
  destruct (mNumberEffectsCalled c1 >=? mNumberEffectsEnabled c1).
  - rewrite <- Hinst.
    destruct (LVM_Process _ _ _ _) as [[st outb'] inst].
    intros [= <- <- <-]. exists st, outb'. cbn. auto 10.
  - intros [= <- <- <-]. auto.
Qed.

End ProcessMore.

(** *** Sessions: invariant, re-enable, zero budget, failed disable *)

Section SessionMore.
Context {BT : BundleTypes} {Inst : Type} {LVM : LVM_Library Inst}.
Implicit Types (c : BundleContext Inst) (t : list Event).

Lemma processCount_app t1 t2 :
  processCount (t1 ++ t2) = (processCount t1 + processCount t2)%nat.
Proof.
  induction t1 as [|e t1 IH]; [reflexivity|].
  destruct e; cbn; rewrite IH; reflexivity.
Qed.

(** No control call reaches [LVM_Process]. *)
Lemma limitLevel_no_process c r c' t :
  limitLevel c = (r, c', t) -> processCount t = 0%nat.
Proof.
  unfold limitLevel. unfold_monad. engine_calls.
  - destruct (mFirstVolume c); engine_calls; intros [= <- <- <-]; reflexivity.
  - intros [= <- <- <-]; reflexivity.
  - intros [= <- <- <-]; reflexivity.
Qed.

Lemma enableOperatingMode_no_process c r c' t :
  enableOperatingMode c = (r, c', t) -> processCount t = 0%nat.
Proof.
  unfold enableOperatingMode. unfold_monad. cbn. repeat engine_call;
    try (intros [= <- <- <-]; reflexivity).
  match goal with
  | |- context [limitLevel ?x] =>
      destruct (limitLevel x) as [[r1 c1] t1] eqn:E
  end.
  apply limitLevel_no_process in E. intros [= <- <- <-]. cbn. exact E.
Qed.

Lemma disableOperatingMode_no_process c r c' t :
  disableOperatingMode c = (r, c', t) -> processCount t = 0%nat.
Proof.
  unfold disableOperatingMode. unfold_monad. cbn. repeat engine_call;
    try (intros [= <- <- <-]; reflexivity).
  match goal with
  | |- context [limitLevel ?x] =>
      destruct (limitLevel x) as [[r1 c1] t1] eqn:E
  end.
  apply limitLevel_no_process in E. intros [= <- <- <-]. cbn. exact E.
Qed.

#[local] Arguments enableOperatingMode : simpl never.
#[local] Arguments disableOperatingMode : simpl never.
#[local] Arguments updateControlParameter : simpl never.
#[local] Arguments drainBookkeeping : simpl never.

Lemma enable_no_process c r c' t :
  enable c = (r, c', t) -> processCount t = 0%nat.
Proof.
  unfold enable. unfold_monad. cbn.
  destruct (mEnabled c); cbn; [intros [= <- <- <-]; reflexivity|].
  destruct (mType c); cbn;
    match goal with
    | |- context [enableOperatingMode ?x] =>
        destruct (enableOperatingMode x) as [[r1 c1] t1] eqn:E;
        apply enableOperatingMode_no_process in E
    end; intros [= <- <- <-]; exact E.
Qed.

Lemma disable_no_process c r c' t :
  disable c = (r, c', t) -> processCount t = 0%nat.
Proof.
  unfold disable. unfold_monad. cbn.
  destruct (mEnabled c); cbn; [|intros [= <- <- <-]; reflexivity].
  destruct (mType c); cbn;
    match goal with
    | |- context [disableOperatingMode ?x] =>
        destruct (disableOperatingMode x) as [[r1 c1] t1] eqn:E;
        apply disableOperatingMode_no_process in E
    end; intros [= <- <- <-]; exact E.
Qed.

Lemma mutate_no_process op c r c' t :
  mutate op c = (r, c', t) -> processCount t = 0%nat.
Proof.
  assert (Hupd : forall bandLevels uninit c0 r0 c0' t0,
            updateControlParameter bandLevels uninit c0 = (r0, c0', t0) ->
            processCount t0 = 0%nat).
  { intros bandLevels uninit c0 r0 c0' t0. unfold updateControlParameter.
    destruct (isBandLevelIndexInRange bandLevels); cbn [negb]; unfold_monad;
      [|intros [= <- <- <-]; reflexivity].
    engine_calls; intros [= <- <- <-]; reflexivity. }
  destruct op as [bandLevels uninit|presetIdx uninit|volume]; cbn [mutate].
  - unfold setEqualizerBandLevels.
    destruct (_ || _); unfold_monad; [intros [= <- <- <-]; reflexivity|].
    destruct (updateControlParameter bandLevels uninit c) as [[r1 c1] t1] eqn:E.
    apply Hupd in E. destruct r1; cbn; intros [= <- <- <-];
      rewrite ?app_nil_r; exact E.
  - unfold setEqualizerPreset.
    destruct (_ <=? _)%nat; unfold_monad; [intros [= <- <- <-]; reflexivity|].
    match goal with
    | |- context [updateControlParameter ?b ?u ?x] =>
        destruct (updateControlParameter b u x) as [[r1 c1] t1] eqn:E
    end.
    apply Hupd in E. destruct r1; cbn; intros [= <- <- <-];
      rewrite ?app_nil_r; exact E.
  - unfold setVolumeStereo. unfold_monad. engine_calls;
      intros [= <- <- <-]; reflexivity.
Qed.

(** The session predicates read the context through [frame] and
    [sessionState] only. *)
Lemma Running_transfer budget c c' :
  frame c' = frame c -> sessionState c' = sessionState c ->
  Running budget c -> Running budget c'.
Proof.
  intros Hf Hs H. injection Hf as Hty _ _ Hfc Hfo Hfs.
  injection Hs as Hen Hb Hd _ Hc Hcl.
  unfold Running in *. rewrite Hty, Hfc, Hfo, Hfs, Hen, Hb, Hd, Hc, Hcl. exact H.
Qed.

Lemma Draining_transfer budget c c' :
  frame c' = frame c -> sessionState c' = sessionState c ->
  Draining budget c -> Draining budget c'.
Proof.
  intros Hf Hs H. injection Hf as Hty _ _ Hfc Hfo Hfs.
  injection Hs as Hen Hb Hd _ Hc Hcl.
  unfold Draining in *. rewrite Hty, Hfc, Hfo, Hfs, Hen, Hb, Hd, Hc, Hcl. exact H.
Qed.

Lemma Drained_transfer c c' :
  frame c' = frame c -> sessionState c' = sessionState c ->
  Drained c -> Drained c'.
Proof.
  intros Hf Hs H. injection Hf as Hty _ _ Hfc Hfo Hfs.
  injection Hs as Hen Hb Hd _ Hc Hcl.
  unfold Drained, Idle in *. rewrite Hty, Hfc, Hfo, Hfs, Hen, Hb, Hd, Hc, Hcl. exact H.
Qed.

Lemma Session_transfer c c' :
  frame c' = frame c -> sessionState c' = sessionState c ->
  Session c -> Session c'.
Proof.
  intros Hf Hs H. unfold Session in *.
  assert (Hsps : mSamplesPerSecond c' = mSamplesPerSecond c)
    by (injection Hf; auto).
  rewrite Hsps.
  destruct H as [H|[H|(b & Hb & H)]].
  - left. eapply Drained_transfer; eassumption.
  - right; left. eapply Running_transfer; eassumption.
  - right; right. exists b. split; [exact Hb|]. eapply Draining_transfer; eassumption.
Qed.

(** An [enable] during the drain tail restarts the session without
    counting the effect a second time. *)
Lemma enable_draining_running budget c r c' t :
  Draining budget c -> 0 < budget -> enable c = (r, c', t) ->
  Running (samplesToExit (mSamplesPerSecond c)) c'.
Proof.
  intros H Hpos Hrun. split_fields H.
  destruct (enable_spec c r c' t Hen Hrun) as (Hf & _ & Hen' & _).
  destruct (enable_equalizer c r c' t Hty Hen Hrun) as (Hb & Hd & Hc & Hcl & _).
  injection Hf as Hty' _ _ Hfc Hfo Hfs.
  destruct (Z.leb_spec (mSamplesToExitCountEq c) 0) as [|_]; [lia|].
  unfold Running. rewrite Hty', Hfc, Hfo, Hfs, Hd, Hc, Hcl, eq_bit_cleared.
  repeat split; auto.
Qed.

Lemma Session_sample_rate c r c' t :
  enable c = (r, c', t) \/ disable c = (r, c', t) ->
  mSamplesPerSecond c' = mSamplesPerSecond c.
Proof.
  intros [H|H].
  - destruct (mEnabled c) eqn:Hen.
    + rewrite enable_when_enabled in H by exact Hen. congruence.
    + destruct (enable_spec c r c' t Hen H) as (Hf & _). injection Hf; auto.
  - destruct (mEnabled c) eqn:Hen.
    + destruct (disable_spec c r c' t Hen H) as (Hf & _). injection Hf; auto.
    + rewrite disable_when_disabled in H by exact Hen. congruence.
Qed.

Lemma enable_Session c r c' t :
  Session c -> 0 < samplesToExit (mSamplesPerSecond c) ->
  enable c = (r, c', t) -> Session c'.
Proof.
  intros H Hrate Hrun. unfold Session.
  rewrite (Session_sample_rate c r c' t (or_introl Hrun)).
  destruct H as [H|[H|(b & Hb & H)]].
  - right; left. eapply enable_idle_running; [apply H|exact Hrun].
  - assert (Hen : mEnabled c = true) by apply H.
    rewrite enable_when_enabled in Hrun by exact Hen.
    injection Hrun as _ <- _. right; left. exact H.
  - right; left. eapply enable_draining_running; eassumption.
Qed.

Lemma disable_Session c r c' t :
  Session c -> 0 < samplesToExit (mSamplesPerSecond c) ->
  disable c = (r, c', t) -> Session c'.
Proof.
  intros H Hrate Hrun. unfold Session.
  rewrite (Session_sample_rate c r c' t (or_intror Hrun)).
  destruct H as [H|[H|(b & Hb & H)]].
  - assert (Hen : mEnabled c = false) by apply H.
    rewrite disable_when_disabled in Hrun by exact Hen.
    injection Hrun as _ <- _. left. exact H.
  - right; right. exists (samplesToExit (mSamplesPerSecond c)).
    split; [exact Hrate|]. eapply disable_running_draining; eassumption.
  - assert (Hen : mEnabled c = false) by apply H.
    rewrite disable_when_disabled in Hrun by exact Hen.
    injection Hrun as _ <- _. right; right. exists b. auto.
Qed.

Lemma observeProcess_lvmProcess inb outb samples c res c' t :
  lvmProcess (Some inb) (Some outb) samples c = (res, c', t) ->
  (observeProcess inb outb samples c).2 = c' /\
  engineInvoked (observeProcess inb outb samples c).1 = processInvoked t.
Proof.
  intros H. unfold observeProcess. rewrite H.
  destruct (drainBookkeeping samples c) as [avail c1]. auto.
Qed.

Lemma lvmProcess_one_call inb outb samples c res c' t :
  inputFrameCount c = outputFrameCount c -> inputFrameSize c <> 0 ->
  lvmProcess (Some inb) (Some outb) samples c = (res, c', t) ->
  processCount t = (if processInvoked t then 1 else 0)%nat.
Proof.
  intros Hframes Hsize. rewrite lvmProcess_valid by assumption.
  destruct (drainBookkeeping samples c) as [avail c1].
  destruct (mNumberEffectsCalled c1 >=? mNumberEffectsEnabled c1); cbv zeta.
  - destruct (LVM_Process _ _ _ _) as [[st outb'] inst].
    intros [= <- <- <-]. reflexivity.
  - intros [= <- <- <-]. reflexivity.
Qed.

Lemma Session_frames c :
  Session c -> inputFrameCount c = outputFrameCount c /\ inputFrameSize c <> 0.
Proof.
  intros [H|[H|(b & _ & H)]].
  - destruct H as [(_ & _ & _ & _ & _ & Hf & Hs) _]. auto.
  - split_fields H. auto.
  - split_fields H. auto.
Qed.

Lemma process_Session inb outb samples c res c' t :
  Session c -> 0 <= samples ->
  lvmProcess (Some inb) (Some outb) samples c = (res, c', t) ->
  Session c' /\ processCount t = 1%nat.
Proof.
  intros H Hpos Hrun.
  destruct (Session_frames c H) as [Hframes Hsize].
  rewrite (lvmProcess_one_call inb outb samples c res c' t Hframes Hsize Hrun).
  destruct (observeProcess_lvmProcess inb outb samples c res c' t Hrun)
    as [Hc' Hinv].
  assert (Hsps : mSamplesPerSecond c' = mSamplesPerSecond c).
  { apply lvmProcess_frame in Hrun as (Hf & _). injection Hf; auto. }
  rewrite <- Hinv. unfold Session. rewrite Hsps, <- Hc'.
  destruct H as [H|[H|(b & Hb & H)]].
  - destruct (observeProcess_drained inb outb samples c H Hpos) as [-> Hd]. auto.
  - destruct (observeProcess_running _ inb outb samples c H) as [-> Hr]. auto.
  - destruct (Z.lt_ge_cases 0 (b - samples)) as [Hleft|Hleft].
    + destruct (observeProcess_draining b inb outb samples c H Hleft Hpos) as [-> Hd].
      split; [|reflexivity]. right; right. exists (b - samples). auto.
    + destruct (observeProcess_drain_end b inb outb samples c H Hleft Hpos) as [-> Hd].
      auto.
Qed.

Lemma run_call_Session k c c' t :
  Session c -> 0 < samplesToExit (mSamplesPerSecond c) -> sessionCall k ->
  run_call k c = (c', t) ->
  Session c' /\ mSamplesPerSecond c' = mSamplesPerSecond c /\
  processCount t = bufferedProcessCalls [k].
Proof.
  intros H Hrate Hk. destruct k; cbn [run_call sessionCall bufferedProcessCalls] in *.
  - destruct (enable c) as [[r c1] t1] eqn:E. intros [= <- <-].
    split; [eapply enable_Session; eassumption|].
    split; [eapply Session_sample_rate; eauto|eapply enable_no_process; eassumption].
  - destruct (disable c) as [[r c1] t1] eqn:E. intros [= <- <-].
    split; [eapply disable_Session; eassumption|].
    split; [eapply Session_sample_rate; eauto|eapply disable_no_process; eassumption].
  - destruct (enableOperatingMode c) as [[r c1] t1] eqn:E. intros [= <- <-].
    pose proof (enableOperatingMode_no_process _ _ _ _ E).
    apply enableOperatingMode_spec in E as (Hf & Hs & _).
    split; [eapply Session_transfer; eassumption|].
    split; [injection Hf; auto|assumption].
  - contradiction.
  - destruct (limitLevel c) as [[r c1] t1] eqn:E. intros [= <- <-].
    pose proof (limitLevel_no_process _ _ _ _ E).
    apply limitLevel_spec in E as (Hf & Hs & _).
    split; [eapply Session_transfer; eassumption|].
    split; [injection Hf; auto|assumption].
  - destruct (mutate op c) as [[r c1] t1] eqn:E. intros [= <- <-].
    pose proof (mutate_no_process _ _ _ _ _ E) as Hnp.
    assert (Hfs : frame c1 = frame c /\ sessionState c1 = sessionState c).
    { destruct op; cbn [mutate] in E.
      - apply setEqualizerBandLevels_spec in E. tauto.
      - apply setEqualizerPreset_spec in E. tauto.
      - apply setVolumeStereo_spec in E. tauto. }
    destruct Hfs as [Hf Hs].
    split; [eapply Session_transfer; eassumption|].
    split; [injection Hf; auto|assumption].
  - destruct (lvmProcess inb outb samples c) as [[r c1] t1] eqn:E. intros [= <- <-].
    destruct inb as [inbuf|], outb as [outbuf|];
      try (cbn in E; injection E as _ <- <-; auto).
    pose proof E as E'. apply lvmProcess_frame in E' as (Hf & _).
    destruct (process_Session inbuf outbuf samples c r c1 t1 H Hk E) as [Hs Hc].
    split; [exact Hs|]. split; [injection Hf; auto|exact Hc].
Qed.

Lemma bufferedProcessCalls_cons k ks :
  bufferedProcessCalls (k :: ks) =
  (bufferedProcessCalls [k] + bufferedProcessCalls ks)%nat.
Proof. destruct k as [| | | | | |[?|] [?|] ?]; reflexivity. Qed.

Lemma Session_counts c :
  Session c ->
  mNumberEffectsCalled c = 0 /\
  mNumberEffectsEnabled c =
    (if mEnabled c || negb (Z.land (mEffectInDrain c) eq_bit =? 0) then 1 else 0).
Proof.
  intros [H|[H|(b & _ & H)]].
  - destruct H as [(_ & Hen & _ & Hc & Hcl & _) Hd].
    rewrite Hen, Hd, Hc, Hcl. auto.
  - split_fields H. rewrite Hen, Hcount, Hcalled. auto.
  - split_fields H. apply Z.eqb_neq in Hdrain.
    rewrite Hen, Hdrain, Hcount, Hcalled. auto.
Qed.

(** X9. An equalizer session with a positive drain budget stays a
    session under any run of [enable], [disable], [lvmProcess] (with
    non-negative sample counts), parameter and level calls: it is at
    rest, running, or draining with samples left.  Between calls the
    called count is 0 and the enabled count is 1 exactly while the effect
    is enabled or in drain, 0 otherwise.  Every [lvmProcess] call given
    two buffers reaches [LVM_Process] once: a lone equalizer never takes
    the pass-through copy, and no other call processes audio. *)
Theorem session_invariant ks : forall c c' t,
  Session c -> 0 < samplesToExit (mSamplesPerSecond c) ->
  Forall sessionCall ks ->
  run_calls ks c = (c', t) ->
  Session c' /\
  processCount t = bufferedProcessCalls ks /\
  mNumberEffectsCalled c' = 0 /\
  mNumberEffectsEnabled c' =
    (if mEnabled c' || negb (Z.land (mEffectInDrain c') eq_bit =? 0) then 1 else 0).
Proof.
  induction ks as [|k ks IH]; intros c c' t Hs Hrate Hks; cbn [run_calls].
  - intros [= <- <-]. split; [exact Hs|]. split; [reflexivity|].
    apply Session_counts, Hs.
  - apply Forall_cons in Hks as [Hk Hks].
    destruct (run_call k c) as [c1 t1] eqn:E1.
    destruct (run_calls ks c1) as [c2 t2] eqn:E2. intros [= <- <-].
    destruct (run_call_Session k c c1 t1 Hs Hrate Hk E1) as (Hs1 & Hsps & Hc1).
    rewrite <- Hsps in Hrate.
    destruct (IH c1 c2 t2 Hs1 Hrate Hks E2) as (Hs2 & Hc2 & Hrest).
    split; [exact Hs2|]. split; [|exact Hrest].
    rewrite processCount_app, bufferedProcessCalls_cons, Hc1, Hc2. reflexivity.
Qed.

(** X10. Enabling an equalizer again while it is still draining (samples
    left) cancels the drain: the session runs with a full budget, the
    drain flag is cleared and the enabled count stays at 1, whatever the
    engine answers. *)
Theorem enable_during_drain budget c r c' t :
  Draining budget c -> 0 < budget -> enable c = (r, c', t) ->
  Running (samplesToExit (mSamplesPerSecond c)) c' /\
  mNumberEffectsEnabled c' = mNumberEffectsEnabled c.
Proof.
  intros H Hpos Hrun.
  pose proof (enable_draining_running budget c r c' t H Hpos Hrun) as Hr.
  split; [exact Hr|]. split_fields H. rewrite Hcount. apply Hr.
Qed.

(** An equalizer counted twice: the calls of a round alternate between
    the copy (first call of the round) and the engine (second call). *)
Lemma observeProcess_counted_twice (second : bool) inb outb samples c :
  Counted 2 (if second then 1 else 0) c ->
  (observeProcess inb outb samples c).1 =
    {| dataAvailable := true; engineInvoked := second; enabledAfter := 2 |} /\
  Counted 2 (if second then 0 else 1) (observeProcess inb outb samples c).2.
Proof.
  intros (Hty & Hen & Hcount & Hcalled & Hframes & Hsize).
  unfold observeProcess.
  rewrite lvmProcess_valid by assumption.
  rewrite drainBookkeeping_enabled by assumption. cbn.
  rewrite Hcalled, Hcount. destruct second.
  - change (1 + 1 >=? 2) with true. cbn.
    destruct (LVM_Process _ _ _ _) as [[st outb'] inst]. cbn.
    split; [rewrite Hcount; reflexivity|]. unfold Counted. cbn. auto 10.
  - change (0 + 1 >=? 2) with false. cbn.
    split; [rewrite Hcount; reflexivity|]. unfold Counted. cbn. auto 10.
Qed.

Lemma observeProcesses_counted_twice inb outb calls : forall (second : bool) c,
  Counted 2 (if second then 1 else 0) c ->
  forall k obs,
    observeProcesses inb outb calls c !! k = Some obs ->
    obs = {| dataAvailable := true;
             engineInvoked := xorb second (Nat.odd k);
             enabledAfter := 2 |}.
Proof.
  induction calls as [|samples calls IH]; intros second c Hc k obs; cbn.
  - rewrite lookup_nil. discriminate.
  - destruct (observeProcess_counted_twice second inb outb samples c Hc) as [Ho Hc'].
    destruct (observeProcess inb outb samples c) as [o c1]. cbn in Ho, Hc'.
    destruct k as [|k]; cbn [lookup list_lookup].
    + intros [= <-]. rewrite Ho. destruct second; reflexivity.
    + intros Hk. rewrite Nat.odd_succ, <- Nat.negb_odd.
      rewrite (IH (negb second) c1) with (k := k) (obs := obs).
      * destruct second, (Nat.odd k); reflexivity.
      * destruct second; exact Hc'.
      * exact Hk.
Qed.

(** X11. With a drain budget of 0 or less (a sample rate below 10) the
    test that guards the enabled count cannot tell a finished drain from
    a pending one: enable, disable, enable on a session at rest counts
    the equalizer twice.  From then on the [lvmProcess] calls of the
    enabled effect alternate: the first is a pass-through copy that makes
    no engine call, the second reaches [LVM_Process], the third is a copy
    again, and so on; every call has data available and the enabled count
    stays at 2. *)
Theorem zero_budget_counts_twice c r1 c1 t1 r2 c2 t2 r3 c3 t3 :
  Drained c -> samplesToExit (mSamplesPerSecond c) <= 0 ->
  enable c = (r1, c1, t1) -> disable c1 = (r2, c2, t2) ->
  enable c2 = (r3, c3, t3) ->
  mEnabled c3 = true /\ mNumberEffectsEnabled c3 = 2 /\
  (forall inb outb samples,
     lvmProcess (Some inb) (Some outb) samples c3 =
     (({| status := STATUS_OK; fmqConsumed := samples; fmqProduced := samples |},
       Some (copySamples inb outb samples)),
      (drainBookkeeping samples c3).2, [])) /\
  (forall inb outb calls k obs,
     observeProcesses inb outb calls c3 !! k = Some obs ->
     obs = {| dataAvailable := true; engineInvoked := Nat.odd k;
              enabledAfter := 2 |}).
Proof.
  intros [Hidle _] Hrate H1 H2 H3.
  pose proof (enable_idle_running c r1 c1 t1 Hidle H1) as Hr1.
  pose proof (disable_running_draining _ c1 r2 c2 t2 Hr1 H2) as Hd2.
  split_fields Hd2.
  destruct (enable_spec c2 r3 c3 t3 Hen H3) as (Hf & _ & Hen3 & _).
  destruct (enable_equalizer c2 r3 c3 t3 Hty Hen H3) as (_ & _ & Hc & Hcl & _).
  injection Hf as Hty3 _ _ Hfc Hfo Hfs.
  rewrite Hbudget in Hc.
  destruct (Z.leb_spec (samplesToExit (mSamplesPerSecond c)) 0) as [_|]; [|lia].
  rewrite Hcount in Hc. rewrite Hcalled in Hcl.
  split; [exact Hen3|]. split; [exact Hc|]. split.
  - intros inb outb samples.
    rewrite lvmProcess_valid by congruence.
    rewrite drainBookkeeping_enabled by congruence. cbn.
    rewrite Hcl, Hc. reflexivity.
  - intros inb outb calls k obs Hk.
    apply (observeProcesses_counted_twice inb outb calls false c3); [|exact Hk].
    unfold Counted. cbn. rewrite Hty3, Hfc, Hfo, Hfs. auto 10.
Qed.

(** X12. [disable] does not roll back when the engine fails: the call
    returns [ERROR_EFFECT_LIB_ERROR], yet the session is left disabled
    with, for an equalizer, its drain flag set and budget and counts as
    they were, so that a further [disable] is rejected with the context
    unchanged. *)
Theorem disable_failure_stays_disabled c r c' t :
  mEnabled c = true -> disable c = (r, c', t) -> engine_failed t = true ->
  r = ERROR_EFFECT_LIB_ERROR /\ mEnabled c' = false /\
  (mType c = EQUALIZER -> Z.land (mEffectInDrain c') eq_bit <> 0) /\
  mSamplesToExitCountEq c' = mSamplesToExitCountEq c /\
  mNumberEffectsEnabled c' = mNumberEffectsEnabled c /\
  disable c' = (ERROR_ILLEGAL_PARAMETER, c', []).
Proof.
  intros Hen Hrun Hfail.
  destruct (disable_spec c r c' t Hen Hrun)
    as (_ & _ & Hen' & Hb & Hd & Hc & _ & _ & Hr & _).
  rewrite Hfail in Hr.
  split; [exact Hr|]. split; [exact Hen'|]. split.
  - intros Hty. rewrite Hd, Hty. apply eq_bit_set.
  - split; [exact Hb|]. split; [exact Hc|]. apply disable_when_disabled, Hen'.
Qed.

End SessionMore.

(** *** Effect types other than the equalizer *)

Section OtherTypes.
Context {BT : BundleTypes} {Inst : Type} {LVM : LVM_Library Inst}.
Implicit Types (c : BundleContext Inst) (t : list Event).

#[local] Arguments enableOperatingMode : simpl never.
#[local] Arguments disableOperatingMode : simpl never.

Lemma sessionState_drainCounts c c' :
  sessionState c' = sessionState c -> drainCounts c' = drainCounts c.
Proof. intros [= _ Hb Hd _ Hc Hcl]. unfold drainCounts. congruence. Qed.

Lemma OtherType_transfer c c' :
  frame c' = frame c -> drainCounts c' = drainCounts c ->
  OtherType c -> OtherType c'.
Proof.
  intros [= Hty _ _ Hfc Hfo Hfs] [= Hb Hd Hc Hcl]. unfold OtherType.
  rewrite Hty, Hfc, Hfo, Hfs, Hd, Hc, Hcl. auto.
Qed.

Lemma enable_other c r c' t :
  mType c <> EQUALIZER -> enable c = (r, c', t) ->
  frame c' = frame c /\ drainCounts c' = drainCounts c.
Proof.
  intros Hty. unfold enable. unfold_monad. cbn.
  destruct (mEnabled c); cbn; [intros [= <- <- <-]; auto|].
  destruct (mType c) eqn:Ety; try contradiction; cbn;
    match goal with
    | |- context [enableOperatingMode ?x] =>
        destruct (enableOperatingMode x) as [[r1 c1] t1] eqn:E;
        apply enableOperatingMode_spec in E; destruct E as (Hf & Hs & _)
    end; intros [= <- <- <-];
    (split; [rewrite Hf; unfold frame; cbn; rewrite Ety; reflexivity|]);
    apply sessionState_drainCounts in Hs; exact Hs.
Qed.

Lemma disableOperatingMode_drainCounts c r c' t :
  disableOperatingMode c = (r, c', t) ->
  frame c' = frame c /\ drainCounts c' = drainCounts c.
Proof.
  intros H. apply disableOperatingMode_spec in H as (Hf & _ & [Hs|Hs] & _);
    (split; [exact Hf|]); apply sessionState_drainCounts in Hs; exact Hs.
Qed.

Lemma disable_other c r c' t :
  mType c <> EQUALIZER -> disable c = (r, c', t) ->
  frame c' = frame c /\ drainCounts c' = drainCounts c.
Proof.
  intros Hty. unfold disable. unfold_monad. cbn.
  destruct (mEnabled c); cbn; [|intros [= <- <- <-]; auto].
  destruct (mType c) eqn:Ety; try contradiction; cbn;
    match goal with
    | |- context [disableOperatingMode ?x] =>
        destruct (disableOperatingMode x) as [[r1 c1] t1] eqn:E;
        apply disableOperatingMode_drainCounts in E; destruct E as (Hf & Hs)
    end; intros [= <- <- <-];
    (split; [rewrite Hf; unfold frame; cbn; rewrite Ety; reflexivity|]);
    exact Hs.
Qed.

(** For another effect type the bookkeeping of [lvmProcess] only marks
    the type as called and counts the call. *)
Lemma drainBookkeeping_other samples c :
  mType c <> EQUALIZER -> Z.land (mEffectInDrain c) eq_bit = 0 ->
  drainBookkeeping samples c =
  (true,
   set_mNumberEffectsCalled (mNumberEffectsCalled c + 1)
     (set_mEffectProcessCalled
        (Z.lor (mEffectProcessCalled c) (type_bit (mType c))) c)).
Proof.
  intros Hty Hdrain.
  assert (Hforce : forceDrain c = c).
  { unfold forceDrain.
    destruct (negb (Z.land (mEffectProcessCalled c) (type_bit (mType c)) =? 0));
      [|reflexivity].
    apply Z.eqb_eq in Hdrain. rewrite land_eq_bit in Hdrain.
    rewrite land_eq_bit, Z.land_spec.
    destruct (Z.testbit (mEffectInDrain c) _); [discriminate|reflexivity]. }
  unfold drainBookkeeping, drainTail. rewrite Hforce. cbn.
  destruct (mEnabled c); cbn; [reflexivity|].
  destruct (mType c); try contradiction; reflexivity.
Qed.

Lemma process_other inb outb samples c res c' t :
  OtherType c ->
  lvmProcess (Some inb) (Some outb) samples c = (res, c', t) ->
  frame c' = frame c /\ drainCounts c' = drainCounts c /\
  processCount t = 1%nat.
Proof.
  intros (Hty & Hdrain & Hcount & Hcalled & Hframes & Hsize).
  rewrite lvmProcess_valid by assumption.
  rewrite drainBookkeeping_other by assumption. cbn.
  rewrite Hcalled.
  destruct (Z.geb_spec (0 + 1) (mNumberEffectsEnabled c)) as [_|]; [|lia].
  destruct (LVM_Process _ _ _ _) as [[st outb'] inst].
  intros [= <- <- <-]. unfold drainCounts. cbn. rewrite Hcalled. auto.
Qed.

Lemma run_call_other k c c' t :
  OtherType c -> run_call k c = (c', t) ->
  frame c' = frame c /\ drainCounts c' = drainCounts c /\
  processCount t = bufferedProcessCalls [k].
Proof.
  intros H. destruct k; cbn [run_call bufferedProcessCalls].
  - destruct (enable c) as [[r c1] t1] eqn:E. intros [= <- <-].
    pose proof (enable_no_process _ _ _ _ E).
    apply enable_other in E; [tauto|apply H].
  - destruct (disable c) as [[r c1] t1] eqn:E. intros [= <- <-].
    pose proof (disable_no_process _ _ _ _ E).
    apply disable_other in E; [tauto|apply H].
  - destruct (enableOperatingMode c) as [[r c1] t1] eqn:E. intros [= <- <-].
    pose proof (enableOperatingMode_no_process _ _ _ _ E).
    apply enableOperatingMode_spec in E as (Hf & Hs & _).
    apply sessionState_drainCounts in Hs. auto.
  - destruct (disableOperatingMode c) as [[r c1] t1] eqn:E. intros [= <- <-].
    pose proof (disableOperatingMode_no_process _ _ _ _ E).
    apply disableOperatingMode_drainCounts in E. tauto.
  - destruct (limitLevel c) as [[r c1] t1] eqn:E. intros [= <- <-].
    pose proof (limitLevel_no_process _ _ _ _ E).
    apply limitLevel_spec in E as (Hf & Hs & _).
    apply sessionState_drainCounts in Hs. auto.
  - destruct (mutate op c) as [[r c1] t1] eqn:E. intros [= <- <-].
    pose proof (mutate_no_process _ _ _ _ _ E) as Hnp.
    assert (Hfs : frame c1 = frame c /\ sessionState c1 = sessionState c).
    { destruct op; cbn [mutate] in E.
      - apply setEqualizerBandLevels_spec in E. tauto.
      - apply setEqualizerPreset_spec in E. tauto.
      - apply setVolumeStereo_spec in E. tauto. }
    destruct Hfs as [Hf Hs]. apply sessionState_drainCounts in Hs. auto.
  - destruct (lvmProcess inb outb samples c) as [[r c1] t1] eqn:E.
    intros [= <- <-].
    destruct inb as [inbuf|], outb as [outbuf|];
      try (cbn in E; injection E as _ <- <-; auto).
    eapply process_other; eassumption.
Qed.

(** X21. A context of another effect type (bass boost, virtualizer,
    volume) never takes part in the drain bookkeeping: under any run of
    calls, with any sample counts, its drain budget, drain flags and
    enabled count stay as they were, the called count is back at 0 after
    each call, and every [lvmProcess] call given two buffers reaches
    [LVM_Process] once, whether the effect is enabled or not. *)
Theorem other_types_always_process ks : forall c c' t,
  OtherType c -> run_calls ks c = (c', t) ->
  OtherType c' /\ drainCounts c' = drainCounts c /\
  processCount t = bufferedProcessCalls ks.
Proof.
  induction ks as [|k ks IH]; intros c c' t Hc; cbn [run_calls].
  - intros [= <- <-]. auto.
  - destruct (run_call k c) as [c1 t1] eqn:E1.
    destruct (run_calls ks c1) as [c2 t2] eqn:E2. intros [= <- <-].
    destruct (run_call_other k c c1 t1 Hc E1) as (Hf1 & Hd1 & Hp1).
    pose proof (OtherType_transfer c c1 Hf1 Hd1 Hc) as Hc1.
    destruct (IH c1 c2 t2 Hc1 E2) as (Hc2 & Hd2 & Hp2).
    split; [exact Hc2|]. split; [congruence|].
    rewrite processCount_app, bufferedProcessCalls_cons, Hp1, Hp2. reflexivity.
Qed.

End OtherTypes.

(** *** The frame count handed to the engine *)

(** X20. For a sample count of an [int] that is not negative and a
    positive frame size, the product [samples * sizeof(float)] does not
    wrap in [size_t], and the frame count handed to [LVM_Process] is the
    quotient [4 * samples / frameSize] cut to 16 bits: it is the exact
    quotient as long as that is below 65536, and a multiple of 65536
    frames is dropped otherwise. *)
Theorem frameCount_exact samples frameSize :
  0 <= samples < 2 ^ 31 -> 0 < frameSize ->
  frameCount samples frameSize = (4 * samples / frameSize) mod 2 ^ 16 /\
  (4 * samples / frameSize < 2 ^ 16 ->
   frameCount samples frameSize = 4 * samples / frameSize).
Proof.
  intros Hs Hf.
  assert (Hraw : frameCount samples frameSize = (4 * samples / frameSize) mod 2 ^ 16).
  { unfold frameCount, to_uint16, to_uint64.
    rewrite (Z.mod_small samples) by lia.
    rewrite (Z.mod_small (samples * 4)) by lia.
    rewrite (Z.mul_comm samples 4). reflexivity. }
  split; [exact Hraw|]. intros Hsmall. rewrite Hraw.
  apply Z.mod_small. split; [apply Z.div_pos; lia|exact Hsmall].
Qed.

(** *** Checks over a range of integers *)

Lemma allFrom_spec p n : forall z,
  allFrom p n z = true -> forall k, z <= k < z + Z.of_nat n -> p k = true.
Proof.
  induction n as [|n IH]; intros z H k Hk; [lia|].
  cbn [allFrom] in H. apply andb_prop in H as [Hz Hrest].
  destruct (Z.eq_dec k z) as [->|Hne]; [exact Hz|].
  apply (IH (z + 1) Hrest). lia.
Qed.

(** Volumes up to 281 are below the floor of [VolToDb]. *)
Lemma VolToDb_quiet vol : 0 <= vol <= 281 -> GainMath.VolToDb vol = -96.
Proof.
  intros Hvol. apply Z.eqb_eq.
  apply (allFrom_spec (fun v => GainMath.VolToDb v =? -96) 282 0); [|lia].
  vm_compute. reflexivity.
Qed.

(** X19. At every sample rate from 0 to 200000 Hz the drain budget
    [(int)(mSamplesPerSecond * 0.1)] is the rate divided by 10, rounded
    down: the rounding of 0.1 and of the product never costs a sample, and
    the budget is positive from 10 Hz on. *)
Theorem samplesToExit_tenth rate :
  0 <= rate <= 200000 ->
  samplesToExit rate = rate / 10 /\ (0 < samplesToExit rate <-> 10 <= rate).
Proof.
  intros Hrate.
  assert (Htenth : samplesToExit rate = rate / 10).
  { apply Z.eqb_eq.
    change (samplesToExit rate) with
      (CFloat.int_of_double
         (CFloat.dmul (CFloat.double_of_int rate)
            (S754_finite false 7205759403792794 (-56)))).
    apply (allFrom_spec
             (fun z => CFloat.int_of_double
                         (CFloat.dmul (CFloat.double_of_int z)
                            (S754_finite false 7205759403792794 (-56)))
                       =? z / 10)
             (Z.to_nat 200001) 0); [|lia].
    vm_compute. reflexivity. }
  split; [exact Htenth|]. rewrite Htenth.
  split; intros H.
  - destruct (Z.lt_ge_cases rate 10) as [Hlt|]; [|assumption].
    rewrite Z.div_small in H by lia. lia.
  - apply Z.div_str_pos. lia.
Qed.

(** *** The parameter store: presets, defaults, validation, balance *)

Section StoreMore.
Context {BT : BundleTypes} {Inst : Type} {LVM : LVM_Library Inst}.
Implicit Types (c : BundleContext Inst) (t : list Event).

#[local] Arguments updateControlParameter : simpl never.

(** A table of levels, one entry per band in band order. *)
Local Abbreviation levelTable f :=
  (map (fun i => {| index := Z.of_nat i; levelMb := f i |}) (seq 0 MAX_NUM_BANDS)).

Lemma levelTable_split (f : nat -> Z) j :
  (j < MAX_NUM_BANDS)%nat ->
  levelTable f =
  map (fun i => {| index := Z.of_nat i; levelMb := f i |}) (seq 0 j) ++
  {| index := Z.of_nat j; levelMb := f j |} ::
  map (fun i => {| index := Z.of_nat i; levelMb := f i |})
      (seq (S j) (MAX_NUM_BANDS - S j)).
Proof.
  intros Hj.
  assert (Hn : MAX_NUM_BANDS = (j + S (MAX_NUM_BANDS - S j))%nat) by lia.
  rewrite Hn at 1. rewrite seq_app, map_app. reflexivity.
Qed.

Lemma levelTable_in_range (f : nat -> Z) start len :
  (start + len <= MAX_NUM_BANDS)%nat ->
  Forall indexInRange
    (map (fun i => {| index := Z.of_nat i; levelMb := f i |}) (seq start len)).
Proof.
  intros Hle. apply List.Forall_forall. intros x Hx.
  apply in_map_iff in Hx as (i & <- & Hi). apply in_seq in Hi.
  unfold indexInRange. cbn. lia.
Qed.

Lemma levelTable_valid (f : nat -> Z) :
  (0 < MAX_NUM_BANDS)%nat -> isBandLevelIndexInRange (levelTable f) = true.
Proof.
  intros Hpos. apply isBandLevelIndexInRange_spec. split.
  - destruct MAX_NUM_BANDS; [lia|discriminate].
  - apply levelTable_in_range. lia.
Qed.

(** A full table leaves no slot of [tempLevel] indeterminate. *)
Lemma fillTempLevel_full (f : nat -> Z) uninit :
  fillTempLevel (levelTable f) uninit = map f (seq 0 MAX_NUM_BANDS).
Proof.
  apply list_eq. intros j.
  destruct (Nat.lt_ge_cases j MAX_NUM_BANDS) as [Hj|Hj].
  - rewrite (uninit_lookup f j Hj).
    pose proof (levelTable_in_range f 0 MAX_NUM_BANDS (Nat.le_refl _)) as Hall.
    rewrite (levelTable_split f j Hj) in Hall |- *.
    pose proof (fillTempLevel_last _ {| index := Z.of_nat j; levelMb := f j |}
                  _ uninit Hall) as Hlast.
    cbn [index levelMb] in Hlast. rewrite Nat2Z.id in Hlast. apply Hlast.
    apply List.Forall_forall. intros x Hx.
    apply in_map_iff in Hx as (i & <- & Hi). apply in_seq in Hi. cbn. lia.
  - rewrite !lookup_ge_None_2; [reflexivity| |].
    + rewrite length_map, length_seq. exact Hj.
    + rewrite fillTempLevel_length. exact Hj.
Qed.

Lemma map_seq_lookup {A} (g : nat -> A) len : forall start j,
  (j < len)%nat -> map g (seq start len) !! j = Some (g (start + j)%nat).
Proof.
  induction len as [|len IH]; intros start [|j] Hj; cbn; try lia.
  - rewrite Nat.add_0_r. reflexivity.
  - rewrite IH by lia. f_equal. f_equal. lia.
Qed.

Lemma table_lookup_total (f : nat -> Z) i :
  (i < MAX_NUM_BANDS)%nat -> map f (seq 0 MAX_NUM_BANDS) !!! i = f i.
Proof. intros Hi. apply list_lookup_total_correct, uninit_lookup, Hi. Qed.

(** With one definition per band, the loop over the engine's band
    definitions replaces them all. *)
Lemma fillBandDefinition_full (f : nat -> Z) defs :
  length defs = MAX_NUM_BANDS ->
  fillBandDefinition (map f (seq 0 MAX_NUM_BANDS)) defs =
  map (fun i => bandDefinition i (f i)) (seq 0 MAX_NUM_BANDS).
Proof.
  intros Hlen. apply list_eq. intros j.
  destruct (Nat.lt_ge_cases j MAX_NUM_BANDS) as [Hj|Hj].
  - rewrite fillBandDefinition_lookup by lia.
    rewrite table_lookup_total by exact Hj.
    symmetry.
    apply (map_seq_lookup (fun i => bandDefinition i (f i))
             MAX_NUM_BANDS 0 j Hj).
  - rewrite !lookup_ge_None_2; [reflexivity| |].
    + rewrite length_map, length_seq. exact Hj.
    + rewrite fillBandDefinition_length. lia.
Qed.

Lemma getEqualizerBandLevels_table (f : nat -> Z) c :
  mBandGaindB c = map f (seq 0 MAX_NUM_BANDS) ->
  getEqualizerBandLevels c = levelTable f.
Proof.
  intros Hg. unfold getEqualizerBandLevels. rewrite Hg.
  apply map_ext_in. intros i Hi. apply in_seq in Hi.
  rewrite table_lookup_total by lia. reflexivity.
Qed.

(** The outcome of [setEqualizerPreset] on an existing preset. *)
Lemma setEqualizerPreset_in_range presetIdx uninit c r c' t :
  (0 < MAX_NUM_BANDS)%nat -> (presetIdx < MAX_NUM_PRESETS)%nat ->
  setEqualizerPreset presetIdx uninit c = (r, c', t) ->
  r <> ERROR_ILLEGAL_PARAMETER /\
  (r = SUCCESS ->
   mBandGaindB c' = map (kSoftPresets presetIdx) (seq 0 MAX_NUM_BANDS) /\
   mCurPresetIdx c' = Z.of_nat presetIdx /\
   exists p inst,
     LVM_GetControlParameters (mInstance c) = (LVM_SUCCESS, p, inst) /\
     t = [EvGetControlParameters LVM_SUCCESS;
          EvSetControlParameters
            (set_pEQNB_BandDefinition
               (fillBandDefinition
                  (map (kSoftPresets presetIdx) (seq 0 MAX_NUM_BANDS))
                  (pEQNB_BandDefinition p)) p) LVM_SUCCESS]).
Proof.
  intros Hpos Hidx. unfold setEqualizerPreset.
  destruct (Nat.leb_spec MAX_NUM_PRESETS presetIdx) as [|_]; [lia|].
  unfold_monad.
  match goal with
  | |- context [updateControlParameter ?b ?u ?x] =>
      destruct (updateControlParameter b u x) as [[r1 c1] t1] eqn:E;
      apply updateControlParameter_spec in E;
      destruct E as (_ & _ & _ & _ & _ & _ & Hres & _)
  end.
  destruct r1; cbn; intros [= <- <- <-]; cbn; rewrite ?app_nil_r.
  - destruct Hres as (_ & Hg & p & inst & Hget & Ht).
    rewrite fillTempLevel_full in Hg, Ht.
    split; [discriminate|]. intros _. eauto 10.
  - destruct Hres as (Hr & _).
    rewrite (levelTable_valid (kSoftPresets presetIdx) Hpos) in Hr. discriminate.
  - split; [discriminate|]. discriminate.
Qed.

(** A successful [setEqualizerPreset] had an existing preset and bands to
    write. *)
Lemma setEqualizerPreset_success presetIdx uninit c c' t :
  setEqualizerPreset presetIdx uninit c = (SUCCESS, c', t) ->
  (0 < MAX_NUM_BANDS)%nat /\ (presetIdx < MAX_NUM_PRESETS)%nat.
Proof.
  intros Hrun. split.
  - revert Hrun. unfold setEqualizerPreset.
    destruct (_ <=? _)%nat; unfold_monad; [discriminate|].
    match goal with
    | |- context [updateControlParameter ?b ?u ?x] =>
        destruct (updateControlParameter b u x) as [[r1 c1] t1] eqn:E;
        apply updateControlParameter_spec in E;
        destruct E as (_ & _ & _ & _ & _ & _ & Hres & _)
    end.
    destruct r1; cbn; intros [= <- <-]. destruct Hres as (Hr & _).
    apply isBandLevelIndexInRange_spec in Hr as [Hnil _].
    destruct MAX_NUM_BANDS; [contradiction Hnil; reflexivity|lia].
  - apply setEqualizerPreset_spec in Hrun as (_ & _ & _ & _ & _ & (H & _) & _).
    exact H.
Qed.

(** X13. [setEqualizerPreset] rejects exactly the preset indices from
    [MAX_NUM_PRESETS] on, and then changes nothing.  On success the
    mirror holds the preset's whole row of [kSoftPresets], so that no band
    level read back depends on the indeterminate start of [tempLevel],
    the preset marker is the index, and the block pushed is the one the
    engine reported (one band definition per band) with, in every band,
    the table's frequency and Q factor and the preset's gain as stored
    into the 16-bit fields of the band definition.  When the table
    entries fit those fields (frequencies and Q factors in [0, 2^16),
    gains in [-2^15, 2^15)) these are the table values themselves. *)
Theorem setEqualizerPreset_installs_row presetIdx uninit c r c' t st p inst :
  (0 < MAX_NUM_BANDS)%nat ->
  LVM_GetControlParameters (mInstance c) = (st, p, inst) ->
  length (pEQNB_BandDefinition p) = MAX_NUM_BANDS ->
  setEqualizerPreset presetIdx uninit c = (r, c', t) ->
  (r = ERROR_ILLEGAL_PARAMETER <-> (MAX_NUM_PRESETS <= presetIdx)%nat) /\
  (r = ERROR_ILLEGAL_PARAMETER -> c' = c /\ t = []) /\
  (r = SUCCESS ->
   getEqualizerBandLevels c' = presetLevels presetIdx /\
   mCurPresetIdx c' = Z.of_nat presetIdx /\
   t = [EvGetControlParameters LVM_SUCCESS;
        EvSetControlParameters
          (set_pEQNB_BandDefinition (presetBandDefs presetIdx) p) LVM_SUCCESS]) /\
  (forall i, (i < MAX_NUM_BANDS)%nat ->
     presetBandDefs presetIdx !! i =
     Some {| Frequency := to_uint16 (kPresetsFrequencies i);
             QFactor := to_uint16 (kPresetsQFactors i);
             Gain := to_int16 (kSoftPresets presetIdx i) |}) /\
  ((forall i, (i < MAX_NUM_BANDS)%nat ->
      0 <= kPresetsFrequencies i < 2 ^ 16 /\ 0 <= kPresetsQFactors i < 2 ^ 16 /\
      - 2 ^ 15 <= kSoftPresets presetIdx i < 2 ^ 15) ->
   presetBandDefs presetIdx =
   map (fun i => {| Frequency := kPresetsFrequencies i;
                    QFactor := kPresetsQFactors i;
                    Gain := kSoftPresets presetIdx i |}) (seq 0 MAX_NUM_BANDS)).
Proof.
  intros Hpos Hp Hlen Hrun.
  assert (Hdefs : forall i, (i < MAX_NUM_BANDS)%nat ->
            presetBandDefs presetIdx !! i =
            Some {| Frequency := to_uint16 (kPresetsFrequencies i);
                    QFactor := to_uint16 (kPresetsQFactors i);
                    Gain := to_int16 (kSoftPresets presetIdx i) |}).
  { intros i Hi.
    apply (map_seq_lookup (fun i => bandDefinition i (kSoftPresets presetIdx i))
             MAX_NUM_BANDS 0 i Hi). }
  assert (Hfit : (forall i, (i < MAX_NUM_BANDS)%nat ->
            0 <= kPresetsFrequencies i < 2 ^ 16 /\ 0 <= kPresetsQFactors i < 2 ^ 16 /\
            - 2 ^ 15 <= kSoftPresets presetIdx i < 2 ^ 15) ->
          presetBandDefs presetIdx =
          map (fun i => {| Frequency := kPresetsFrequencies i;
                           QFactor := kPresetsQFactors i;
                           Gain := kSoftPresets presetIdx i |}) (seq 0 MAX_NUM_BANDS)).
  { intros Hfits. apply map_ext_in. intros i Hi. apply in_seq in Hi.
    destruct (Hfits i ltac:(lia)) as (Hfreq & Hq & Hgain).
    unfold bandDefinition, to_uint16.
    rewrite !Z.mod_small by assumption.
    rewrite GainMathFacts.to_int16_small by assumption. reflexivity. }
  cut ((r = ERROR_ILLEGAL_PARAMETER <-> (MAX_NUM_PRESETS <= presetIdx)%nat) /\
       (r = ERROR_ILLEGAL_PARAMETER -> c' = c /\ t = []) /\
       (r = SUCCESS ->
        getEqualizerBandLevels c' = presetLevels presetIdx /\
        mCurPresetIdx c' = Z.of_nat presetIdx /\
        t = [EvGetControlParameters LVM_SUCCESS;
             EvSetControlParameters
               (set_pEQNB_BandDefinition (presetBandDefs presetIdx) p)
               LVM_SUCCESS])); [tauto|].
  destruct (Nat.lt_ge_cases presetIdx MAX_NUM_PRESETS) as [Hidx|Hidx].
  - destruct (setEqualizerPreset_in_range presetIdx uninit c r c' t Hpos Hidx Hrun)
      as [Hne Hok].
    split; [split; [contradiction|lia]|].
    split; [contradiction|].
    intros Hr. destruct (Hok Hr) as (Hg & Hcur & p' & inst' & Hget & Ht).
    rewrite Hp in Hget. injection Hget as _ <- _.
    split; [apply getEqualizerBandLevels_table, Hg|].
    split; [exact Hcur|].
    rewrite Ht, fillBandDefinition_full by exact Hlen. reflexivity.
  - unfold setEqualizerPreset in Hrun.
    destruct (Nat.leb_spec MAX_NUM_PRESETS presetIdx) as [_|]; [|lia].
    injection Hrun as <- <- <-.
    split; [tauto|]. split; [auto|discriminate].
Qed.

(** X14. Selecting preset 0 hands the engine the band definitions of
    [getDefaultEqualizerBandDefs]: whatever band definitions the engine
    reported (one per band) and whatever [tempLevel] held, a successful
    [setEqualizerPreset 0] pushes the reported block with the default
    table in place; the table has one entry per band. *)
Theorem setEqualizerPreset_zero_restores_defaults uninit c c' t st p inst :
  LVM_GetControlParameters (mInstance c) = (st, p, inst) ->
  length (pEQNB_BandDefinition p) = MAX_NUM_BANDS ->
  setEqualizerPreset 0 uninit c = (SUCCESS, c', t) ->
  length getDefaultEqualizerBandDefs = MAX_NUM_BANDS /\
  t = [EvGetControlParameters LVM_SUCCESS;
       EvSetControlParameters
         (set_pEQNB_BandDefinition getDefaultEqualizerBandDefs p) LVM_SUCCESS].
Proof.
  intros Hp Hlen Hrun.
  split; [unfold getDefaultEqualizerBandDefs; rewrite length_map; apply length_seq|].
  destruct (setEqualizerPreset_success 0 uninit c c' t Hrun) as [Hpos Hidx].
  destruct (setEqualizerPreset_in_range 0 uninit c SUCCESS c' t Hpos Hidx Hrun)
    as [_ Hok].
  destruct (Hok eq_refl) as (_ & _ & p' & inst' & Hget & Ht).
  rewrite Hp in Hget. injection Hget as _ <- _.
  rewrite Ht, fillBandDefinition_full by exact Hlen. reflexivity.
Qed.

(** X15. Writing back what [getEqualizerBandLevels] returns is never
    rejected as an illegal parameter and, on success, restores the same
    band levels: every slot of [tempLevel] is written, so nothing
    indeterminate reaches the mirror, a mirror of [MAX_NUM_BANDS] gains
    is reproduced as a list, and only the preset marker changes, to
    [PRESET_CUSTOM]. *)
Theorem setEqualizerBandLevels_of_current uninit c r c' t :
  (0 < MAX_NUM_BANDS)%nat ->
  setEqualizerBandLevels (getEqualizerBandLevels c) uninit c = (r, c', t) ->
  r <> ERROR_ILLEGAL_PARAMETER /\
  (r = SUCCESS ->
   getEqualizerBandLevels c' = getEqualizerBandLevels c /\
   mCurPresetIdx c' = PRESET_CUSTOM /\
   (length (mBandGaindB c) = MAX_NUM_BANDS -> mBandGaindB c' = mBandGaindB c)).
Proof.
  intros Hpos Hrun.
  pose proof (levelTable_valid (fun i => mBandGaindB c !!! i) Hpos) as Hvalid.
  apply setEqualizerBandLevels_spec in Hrun
    as (_ & _ & _ & _ & _ & Hres & _).
  destruct r.
  - destruct Hres as (_ & _ & _ & Hg & Hcur & _).
    unfold getEqualizerBandLevels in Hg at 1. rewrite fillTempLevel_full in Hg.
    split; [discriminate|]. intros _.
    split; [apply (getEqualizerBandLevels_table _ _ Hg)|].
    split; [exact Hcur|].
    intros Hlen. rewrite Hg. apply list_eq. intros j.
    destruct (Nat.lt_ge_cases j MAX_NUM_BANDS) as [Hj|Hj].
    + rewrite (uninit_lookup (fun i => mBandGaindB c !!! i) j Hj).
      symmetry. apply list_lookup_lookup_total_lt. lia.
    + rewrite !lookup_ge_None_2; [reflexivity|lia|].
      rewrite length_map, length_seq. exact Hj.
  - destruct Hres as ([Hlen|[Hnil|Hr]] & _).
    + unfold getEqualizerBandLevels in Hlen.
      rewrite length_map, length_seq in Hlen. lia.
    + unfold getEqualizerBandLevels in Hnil.
      destruct MAX_NUM_BANDS; [lia|discriminate].
    + unfold getEqualizerBandLevels in Hr. rewrite Hvalid in Hr. discriminate.
  - split; discriminate.
Qed.

(** X16. [setEqualizerBandLevels] answers [ERROR_ILLEGAL_PARAMETER]
    exactly on an update that is empty, has more than [MAX_NUM_BANDS]
    entries, or holds an index outside the bands; the context is then
    unchanged and the engine is not called.  Every other update reaches
    the engine. *)
Theorem setEqualizerBandLevels_validation bandLevels uninit c r c' t :
  setEqualizerBandLevels bandLevels uninit c = (r, c', t) ->
  (r = ERROR_ILLEGAL_PARAMETER <->
   ~ (bandLevels <> [] /\ (length bandLevels <= MAX_NUM_BANDS)%nat /\
      Forall indexInRange bandLevels)) /\
  (r = ERROR_ILLEGAL_PARAMETER -> c' = c /\ t = []) /\
  (r <> ERROR_ILLEGAL_PARAMETER -> t <> []).
Proof.
  unfold setEqualizerBandLevels.
  destruct (Nat.ltb_spec MAX_NUM_BANDS (length bandLevels)) as [Hlen|Hlen];
    cbn [orb].
  { unfold_monad. intros [= <- <- <-].
    split; [split; [intros _ (_ & H & _); lia|reflexivity]|].
    split; [auto|congruence]. }
  destruct (bool_decide_reflect (bandLevels = [])) as [Hnil|Hnil].
  { unfold_monad. intros [= <- <- <-].
    split; [split; [intros _ (H & _); contradiction|reflexivity]|].
    split; [auto|congruence]. }
  unfold_monad.
  match goal with
  | |- context [updateControlParameter ?b ?u ?x] =>
      destruct (updateControlParameter b u x) as [[r1 c1] t1] eqn:E;
      apply updateControlParameter_spec in E;
      destruct E as (_ & _ & _ & _ & _ & _ & Hres & _)
  end.
  destruct r1; cbn; intros [= <- <- <-]; cbn; rewrite ?app_nil_r.
  - destruct Hres as (Hr & _ & p & inst & _ & ->).
    apply isBandLevelIndexInRange_spec in Hr as [_ Hr].
    split; [split; [discriminate|intros H; exfalso; apply H; auto]|].
    split; [discriminate|]. intros _. discriminate.
  - destruct Hres as (Hr & -> & ->).
    split; [split; [|reflexivity]|].
    + intros _ (_ & _ & Hall).
      assert (Hin : isBandLevelIndexInRange bandLevels = true)
        by (apply isBandLevelIndexInRange_spec; auto).
      congruence.
    + split; [auto|congruence].
  - destruct Hres as (Hr & _ & Hfail).
    apply isBandLevelIndexInRange_spec in Hr as [_ Hr].
    split; [split; [discriminate|intros H; exfalso; apply H; auto]|].
    split; [discriminate|]. intros _ ->. discriminate.
Qed.

(** X17. The range check through [std::minmax_element] decides what it
    is meant to: on a non-empty vector it holds exactly when every index
    lies in [0, MAX_NUM_BANDS), whatever the order of the entries. *)
Theorem isBandLevelIndexInRange_all_indices bandLevels :
  bandLevels <> [] ->
  isBandLevelIndexInRange bandLevels =
  forallb (fun it => (0 <=? index it) && (index it <? Z.of_nat MAX_NUM_BANDS))
          bandLevels.
Proof.
  intros Hnil. apply eq_true_iff_eq.
  rewrite isBandLevelIndexInRange_spec, forallb_forall, List.Forall_forall.
  split.
  - intros [_ Hall] x Hx. specialize (Hall x Hx). unfold indexInRange in Hall.
    apply andb_true_intro. split; [apply Z.leb_le|apply Z.ltb_lt]; lia.
  - intros Hall. split; [exact Hnil|]. intros x Hx.
    specialize (Hall x Hx). apply andb_prop in Hall as [H1 H2].
    apply Z.leb_le in H1. apply Z.ltb_lt in H2. split; assumption.
Qed.

(** X18. [setVolumeStereo] changes the engine's block in its balance
    only: whenever it pushes, the block is the one the engine reported
    with [VC_Balance] set to [VolToDb right - VolToDb left], a value
    between -102 and 102 that the 16-bit field holds unchanged and that
    is 0 for equal channels and whenever both channels convert to an
    integer of at most 281; the stereo volume is stored on success and
    band gains, preset marker and session state never change. *)
Theorem setVolumeStereo_balance volume c r c' t st p inst :
  LVM_GetControlParameters (mInstance c) = (st, p, inst) ->
  setVolumeStereo volume c = (r, c', t) ->
  let pandB := GainMath.VolToDb (uint32_of_float (right volume))
               - GainMath.VolToDb (uint32_of_float (left volume)) in
  -102 <= pandB <= 102 /\
  (left volume = right volume -> pandB = 0) /\
  (uint32_of_float (left volume) <= 281 ->
   uint32_of_float (right volume) <= 281 -> pandB = 0) /\
  (forall q st', In (EvSetControlParameters q st') t ->
     q = set_VC_Balance pandB p /\ VC_Balance q = pandB) /\
  (r = SUCCESS -> mVolumeStereo c' = volume) /\
  mBandGaindB c' = mBandGaindB c /\ mCurPresetIdx c' = mCurPresetIdx c /\
  sessionState c' = sessionState c.
Proof.
  intros Hp Hrun pandB.
  pose proof (GainMathMore.VolToDb_range (uint32_of_float (right volume))) as Hr.
  pose proof (GainMathMore.VolToDb_range (uint32_of_float (left volume))) as Hl.
  assert (Hrange : -102 <= pandB <= 102) by (unfold pandB; lia).
  assert (Hfit : to_int16 pandB = pandB).
  { unfold to_int16. rewrite Z.mod_small by lia. lia. }
  split; [exact Hrange|].
  split; [intros Heq; unfold pandB; rewrite Heq; lia|].
  split.
  { intros Hleft Hright. unfold pandB.
    rewrite !VolToDb_quiet; [lia| |];
      (split; [apply Z.mod_pos_bound; lia|assumption]). }
  revert Hrun. unfold setVolumeStereo. fold pandB. unfold_monad. rewrite Hp.
  destruct st; cbn; [engine_calls|]; intros [= <- <- <-]; cbn;
    (split; [|repeat split; auto; discriminate]);
    intros q st' Hin; cbn in Hin;
    repeat (destruct Hin as [Hin|Hin]; [try discriminate|]); try contradiction;
    injection Hin as <- <-; (split; [reflexivity|exact Hfit]).
Qed.

End StoreMore.

(** ** Runs on the reference configuration, continued *)

Section ReferenceMore.
Import Reference.



Lemma lvmProcess_rejects_arguments_witness :
  let c := fresh 44100 [] in
  let c0 := {| mType := EQUALIZER; mEnabled := false; mInstance := mInstance c;
               mSamplesPerSecond := 44100; mSamplesToExitCountEq := 0;
               mNumberEffectsEnabled := 0; mNumberEffectsCalled := 0;
               mEffectInDrain := 0; mEffectProcessCalled := 0;
               mFirstVolume := true; mLevelSaved := 0;
               mBandGaindB := flat; mCurPresetIdx := 0;
               mVolumeStereo := mVolumeStereo c;
               inputFrameCount := 256; outputFrameCount := 128;
               inputFrameSize := 8 |} in
  lvmProcess None (Some outb) 3000 c =
    ({| status := EX_NULL_POINTER; fmqConsumed := 0; fmqProduced := 0 |},
     Some outb, c, []) /\
  lvmProcess (Some inb) (Some outb) 3000 c0 =
    ({| status := EX_ILLEGAL_STATE; fmqConsumed := 0; fmqProduced := 0 |},
     Some outb, c0, []).
Proof.
  intros c c0. split.
  - apply (proj1 (lvmProcess_rejects_arguments None (Some outb) 3000 c)).
    left. reflexivity.
  - apply (proj2 (lvmProcess_rejects_arguments (Some inb) (Some outb) 3000 c0)).
    + eexists. reflexivity.
    + eexists. reflexivity.
    + left. cbn. lia.
Defined.

Lemma copySamples_prefix_witness :
  let i := map CFloat.float_of_int [1; 2; 3] in
  let o := map CFloat.float_of_int [7; 8; 9; 10] in
  copySamples i o 2 = take (Z.to_nat 2) i ++ drop (Z.to_nat 2) o.
Proof. intros i o. apply copySamples_prefix; cbn; lia. Defined.

Lemma lvmProcess_outcome_witness :
  let c := fresh 44100 [] in
  exists res c' t,
    lvmProcess (Some inb) (Some outb) 3000 c = (res, c', t) /\
    let c1 := (drainBookkeeping 3000 c).2 in
    if mNumberEffectsCalled c1 >=? mNumberEffectsEnabled c1 then
      exists st outb',
        LVM_Process (mInstance c) inb outb (frameCount 3000 (inputFrameSize c))
          = (st, outb', mInstance c') /\
        t = [EvProcess (frameCount 3000 (inputFrameSize c)) st] /\
        res =
          (if is_LVM_SUCCESS st
           then {| status := STATUS_OK; fmqConsumed := 3000; fmqProduced := 3000 |}
           else {| status := EX_UNSUPPORTED_OPERATION;
                   fmqConsumed := 0; fmqProduced := 0 |},
           Some outb') /\
        mNumberEffectsCalled c' = 0 /\ mEffectProcessCalled c' = 0 /\
        mNumberEffectsEnabled c' = mNumberEffectsEnabled c1 /\
        mSamplesToExitCountEq c' = mSamplesToExitCountEq c1
    else
      t = [] /\ c' = c1 /\
      res = ({| status := STATUS_OK; fmqConsumed := 3000; fmqProduced := 3000 |},
             Some (copySamples inb outb 3000)).
Proof.
  intros c. eexists _, _, _. split; [vm_compute; reflexivity|].
  refine (lvmProcess_outcome inb outb 3000 c _ _ _ _ _ _).
  - reflexivity.
  - cbn. lia.
  - vm_compute. reflexivity.
Defined.

Lemma session_invariant_witness :
  let buffers := CallProcess (Some inb) (Some outb) 3000 in
  let ks := [CallEnable; buffers; CallMutate (SetPreset 1 garbage); CallDisable;
             buffers; CallProcess (Some inb) None 3000; CallLimitLevel; buffers;
             CallEnable; buffers] in
  exists c' t,
    run_calls ks (fresh 44100 []) = (c', t) /\
    Session c' /\ processCount t = 4%nat /\
    mNumberEffectsCalled c' = 0 /\
    mNumberEffectsEnabled c' =
      (if mEnabled c' || negb (Z.land (mEffectInDrain c') eq_bit =? 0)
       then 1 else 0).
Proof.
  intros buffers ks. eexists _, _. split; [vm_compute; reflexivity|].
  refine (session_invariant ks (fresh 44100 []) _ _ _ _ _ _).
  - left. split; [|reflexivity].
    unfold Idle. cbn. repeat split; first [lia | reflexivity | discriminate].
  - vm_compute. reflexivity.
  - repeat constructor; cbn; lia.
  - vm_compute. reflexivity.
Defined.

Lemma enable_during_drain_witness :
  let c := (run_calls [CallEnable; CallDisable] (fresh 44100 [])).1 in
  exists r c' t,
    Draining 4410 c /\ enable c = (r, c', t) /\
    Running (samplesToExit (mSamplesPerSecond c)) c' /\
    mNumberEffectsEnabled c' = mNumberEffectsEnabled c.
Proof.
  intros c.
  assert (Hd : Draining 4410 c).
  { repeat split; try (vm_compute; reflexivity); vm_compute; intro; discriminate. }
  eexists _, _, _. split; [exact Hd|]. split; [vm_compute; reflexivity|].
  refine (enable_during_drain 4410 c _ _ _ Hd _ _).
  - lia.
  - vm_compute. reflexivity.
Defined.

Lemma zero_budget_counts_twice_witness :
  exists r1 c1 t1 r2 c2 t2 r3 c3 t3,
    enable (fresh 0 []) = (r1, c1, t1) /\ disable c1 = (r2, c2, t2) /\
    enable c2 = (r3, c3, t3) /\
    mEnabled c3 = true /\ mNumberEffectsEnabled c3 = 2 /\
    (forall inb outb samples,
       lvmProcess (Some inb) (Some outb) samples c3 =
       (({| status := STATUS_OK; fmqConsumed := samples; fmqProduced := samples |},
         Some (copySamples inb outb samples)),
        (drainBookkeeping samples c3).2, [])) /\
    (forall inb outb calls k obs,
       observeProcesses inb outb calls c3 !! k = Some obs ->
       obs = {| dataAvailable := true; engineInvoked := Nat.odd k;
                enabledAfter := 2 |}).
Proof.
  eexists _, _, _, _, _, _, _, _, _.
  split; [vm_compute; reflexivity|].
  split; [vm_compute; reflexivity|].
  split; [vm_compute; reflexivity|].
  refine (zero_budget_counts_twice (fresh 0 []) _ _ _ _ _ _ _ _ _ _ _ _ _ _).
  - split; [|reflexivity].
    unfold Idle. cbn. repeat split; first [lia | reflexivity | discriminate].
  - vm_compute. discriminate.
  - vm_compute. reflexivity.
  - vm_compute. reflexivity.
  - vm_compute. reflexivity.
Defined.

Lemma disable_failure_stays_disabled_witness :
  let c := set_mEnabled true (fresh 44100 [LVM_SUCCESS; LVM_FAILURE 1]) in
  exists r c' t,
    disable c = (r, c', t) /\ engine_failed t = true /\
    r = ERROR_EFFECT_LIB_ERROR /\ mEnabled c' = false /\
    (mType c = EQUALIZER -> Z.land (mEffectInDrain c') eq_bit <> 0) /\
    mSamplesToExitCountEq c' = mSamplesToExitCountEq c /\
    mNumberEffectsEnabled c' = mNumberEffectsEnabled c /\
    disable c' = (ERROR_ILLEGAL_PARAMETER, c', []).
Proof.
  intros c. eexists _, _, _.
  split; [vm_compute; reflexivity|]. split; [vm_compute; reflexivity|].
  refine (disable_failure_stays_disabled c _ _ _ _ _ _).
  - reflexivity.
  - vm_compute. reflexivity.
  - vm_compute. reflexivity.
Defined.

Lemma setEqualizerPreset_installs_row_witness :
  let c := fresh 44100 [] in
  exists c' t,
    setEqualizerPreset 1 garbage c = (SUCCESS, c', t) /\
    getEqualizerBandLevels c' = presetLevels 1 /\
    mCurPresetIdx c' = 1 /\
    t = [EvGetControlParameters LVM_SUCCESS;
         EvSetControlParameters
           (set_pEQNB_BandDefinition (presetBandDefs 1) default_params) LVM_SUCCESS].
Proof.
  intros c. eexists _, _. split; [vm_compute; reflexivity|].
  refine (proj1 (proj2 (proj2
            (setEqualizerPreset_installs_row 1 garbage c SUCCESS _ _
               LVM_SUCCESS default_params (mInstance c) _ _ _ _)))
            eq_refl).
  - cbn. lia.
  - reflexivity.
  - reflexivity.
  - vm_compute. reflexivity.
Defined.

Lemma setEqualizerPreset_zero_restores_defaults_witness :
  let c := (run_calls [CallMutate (SetPreset 1 garbage)] (fresh 44100 [])).1 in
  exists c' t,
    setEqualizerPreset 0 garbage c = (SUCCESS, c', t) /\
    length getDefaultEqualizerBandDefs = MAX_NUM_BANDS /\
    t = [EvGetControlParameters LVM_SUCCESS;
         EvSetControlParameters
           (set_pEQNB_BandDefinition getDefaultEqualizerBandDefs
              (eng_params (mInstance c))) LVM_SUCCESS].
Proof.
  intros c. eexists _, _. split; [vm_compute; reflexivity|].
  refine (setEqualizerPreset_zero_restores_defaults garbage c _ _
            LVM_SUCCESS (eng_params (mInstance c)) (mInstance c) _ _ _).
  - vm_compute. reflexivity.
  - vm_compute. reflexivity.
  - vm_compute. reflexivity.
Defined.

Lemma setEqualizerBandLevels_of_current_witness :
  let c := fresh_with 0 [1; -2; 3; -4; 5] 44100 [] in
  exists c' t,
    setEqualizerBandLevels (getEqualizerBandLevels c) garbage c = (SUCCESS, c', t) /\
    getEqualizerBandLevels c' = getEqualizerBandLevels c /\
    mCurPresetIdx c' = PRESET_CUSTOM /\ mBandGaindB c' = mBandGaindB c.
Proof.
  intros c. eexists _, _. split; [vm_compute; reflexivity|].
  refine (let H := proj2 (setEqualizerBandLevels_of_current garbage c SUCCESS _ _ _ _)
                     eq_refl in
          conj (proj1 H) (conj (proj1 (proj2 H)) (proj2 (proj2 H) eq_refl))).
  - cbn. lia.
  - vm_compute. reflexivity.
Defined.

Lemma setEqualizerBandLevels_validation_witness :
  let c := fresh 44100 [] in
  let bandLevels := [{| index := 1; levelMb := 300 |}; {| index := 5; levelMb := 100 |}] in
  exists r c' t,
    setEqualizerBandLevels bandLevels garbage c = (r, c', t) /\
    r = ERROR_ILLEGAL_PARAMETER /\ c' = c /\ t = [].
Proof.
  intros c bandLevels. eexists _, _, _. split; [vm_compute; reflexivity|].
  assert (Hbad : ~ (bandLevels <> [] /\ (length bandLevels <= MAX_NUM_BANDS)%nat /\
                    Forall indexInRange bandLevels)).
  { intros (_ & _ & Hall).
    apply Forall_cons in Hall as [_ Hall]. apply Forall_cons in Hall as [Hin _].
    unfold indexInRange in Hin. cbn in Hin. lia. }
  refine (let H := setEqualizerBandLevels_validation bandLevels garbage c _ _ _ _ in
          let Hr := proj2 (proj1 H) Hbad in conj Hr (proj1 (proj2 H) Hr)).
  vm_compute. reflexivity.
Defined.

Lemma isBandLevelIndexInRange_all_indices_witness :
  let bandLevels := [{| index := 3; levelMb := 100 |}; {| index := 0; levelMb := -200 |};
                     {| index := 4; levelMb := 0 |}; {| index := 3; levelMb := 50 |}] in
  isBandLevelIndexInRange bandLevels =
  forallb (fun it => (0 <=? index it) && (index it <? Z.of_nat MAX_NUM_BANDS))
          bandLevels.
Proof. intros bandLevels. apply isBandLevelIndexInRange_all_indices. discriminate. Defined.

Lemma setVolumeStereo_balance_witness :
  let c := fresh 44100 [] in
  let volume := {| left := CFloat.float_of_int 1;
                   right := CFloat.to_float (CFloat.double_lit 1 2) |} in
  exists c' t,
    setVolumeStereo volume c = (SUCCESS, c', t) /\
    GainMath.VolToDb (uint32_of_float (right volume))
      - GainMath.VolToDb (uint32_of_float (left volume)) = 0 /\
    mVolumeStereo c' = volume.
Proof.
  intros c volume.
  assert (Hrun : exists c' t, setVolumeStereo volume c = (SUCCESS, c', t))
    by (eexists _, _; vm_compute; reflexivity).
  destruct Hrun as (c' & t & Hrun). exists c', t. split; [exact Hrun|].
  pose proof (setVolumeStereo_balance volume c SUCCESS c' t LVM_SUCCESS
                default_params (mInstance c) eq_refl Hrun) as H.
  cbv zeta in H. destruct H as (_ & _ & Hquiet & _ & Hstored & _).
  split; [apply Hquiet; vm_compute; discriminate|apply Hstored; reflexivity].
Defined.

Lemma frameCount_exact_witness :
  frameCount 3000 8 = (4 * 3000 / 8) mod 2 ^ 16 /\
  frameCount 3000 8 = 4 * 3000 / 8.
Proof.
  assert (Hs : 0 <= 3000 < 2 ^ 31) by lia.
  assert (Hf : 0 < 8) by lia.
  split.
  - apply (proj1 (frameCount_exact 3000 8 Hs Hf)).
  - apply (proj2 (frameCount_exact 3000 8 Hs Hf)). vm_compute. reflexivity.
Defined.

Lemma other_types_always_process_witness :
  let c := {| mType := VOLUME; mEnabled := false;
              mInstance := {| eng_params := default_params; eng_script := [] |};
              mSamplesPerSecond := 44100; mSamplesToExitCountEq := 0;
              mNumberEffectsEnabled := 0; mNumberEffectsCalled := 0;
              mEffectInDrain := 0; mEffectProcessCalled := 0;
              mFirstVolume := true; mLevelSaved := 0;
              mBandGaindB := flat; mCurPresetIdx := 0;
              mVolumeStereo := {| left := CFloat.float_of_int 1;
                                  right := CFloat.float_of_int 1 |};
              inputFrameCount := 256; outputFrameCount := 256;
              inputFrameSize := 8 |} in
  let buffers := CallProcess (Some inb) (Some outb) 3000 in
  let ks := [buffers; CallEnable; buffers; buffers; CallDisable; buffers;
             CallProcess None (Some outb) 3000; CallProcess (Some inb) (Some outb) (-5)] in
  exists c' t,
    run_calls ks c = (c', t) /\
    OtherType c' /\ drainCounts c' = drainCounts c /\ processCount t = 5%nat.
Proof.
  intros c buffers ks. eexists _, _. split; [vm_compute; reflexivity|].
  refine (other_types_always_process ks c _ _ _ _).
  - unfold OtherType. cbn. repeat split; first [lia | reflexivity | discriminate].
  - vm_compute. reflexivity.
Defined.

Lemma samplesToExit_tenth_witness :
  samplesToExit 44100 = 44100 / 10 /\ (0 < samplesToExit 44100 <-> 10 <= 44100).
Proof. apply (samplesToExit_tenth 44100). lia. Defined.

End ReferenceMore.
